(** * Motion Library orchestration layer (mllite/ml.c)

    A shallow embedding of the calibration encoder, the sensor-enable
    controller and the interrupt-driven data pump of
    [libsensors/mlsdk/mllite/ml.c], together with the properties of that
    code that the design document states.

    Conventions.
    - The target is a 32-bit ARM ABI: [int] and [long] are 32-bit two's
      complement, [long long] is 64-bit, [float] is IEEE-754 binary32 and
      [double] is binary64.
    - C integers are modelled in [Z] with the wrap-around of every
      narrowing conversion written out.
    - [float] and [double] values are [spec_float]s of the Standard
      Library, with the operations instantiated at the two formats.
    - Behaviour that C leaves undefined (an out-of-bounds array read, a
      float-to-integer conversion out of range) is the outcome [Undef].
    - Functions and tables that ml.c uses but that are defined elsewhere
      (device-memory writes, FIFO primitives, opcode values, sensor bit
      masks) are fields of the classes [DmpOpcodes], [MplConstants] and
      [Externals]. *)

From Stdlib Require Import ZArith List Bool Lia.
From Stdlib Require Import Floats.SpecFloat.
From stdpp Require Import base option list.

Local Open Scope Z_scope.

(** ** C integer arithmetic *)

Module C.

Definition LONG_MIN : Z := - 2 ^ 31.
Definition LONG_MAX : Z := 2 ^ 31 - 1.

Definition in_longb (z : Z) : bool := (LONG_MIN <=? z) && (z <=? LONG_MAX).

(** Conversion to a signed integer type of [w] bits (two's complement
    reduction, as the compilers of the target do it). *)
Definition wrap_signed (w : Z) (z : Z) : Z :=
  (z + 2 ^ (w - 1)) mod 2 ^ w - 2 ^ (w - 1).

(** Conversion to an unsigned integer type of [w] bits. *)
Definition wrap_unsigned (w : Z) (z : Z) : Z := z mod 2 ^ w.

(** [(long) e] and [(int) e] for an integer [e]. *)
Definition to_long : Z -> Z := wrap_signed 32.
Definition to_int : Z -> Z := wrap_signed 32.
(** [(unsigned long) e], [(unsigned short) e], [(unsigned char) e]. *)
Definition to_ulong : Z -> Z := wrap_unsigned 32.
Definition to_ushort : Z -> Z := wrap_unsigned 16.
Definition to_uchar : Z -> Z := wrap_unsigned 8.

(** Integer division [a / b] of C99: the quotient truncated toward zero;
    dividing by zero is undefined. *)
Definition div (a b : Z) : option Z :=
  if b =? 0 then None else Some (Z.quot a b).

End C.

(** ** Floating point: binary32 and binary64 *)

Module F.

Definition float : Type := spec_float.

Definition prec32 : Z := 24.
Definition emax32 : Z := 128.
Definition prec64 : Z := 53.
Definition emax64 : Z := 1024.

(** Single precision. *)
Definition of_Z (z : Z) : float := binary_normalize prec32 emax32 z 0 false.
Definition mul : float -> float -> float := SFmul prec32 emax32.
Definition div : float -> float -> float := SFdiv prec32 emax32.

(** Double precision. *)
Definition dof_Z (z : Z) : float := binary_normalize prec64 emax64 z 0 false.
Definition dmul : float -> float -> float := SFmul prec64 emax64.

(** [x == 0] : true for both zeros, false for NaN. *)
Definition is_zero (x : float) : bool := SFeqb x (S754_zero false).

(** The integer part of a finite value, truncated toward zero. *)
Definition trunc (x : float) : option Z :=
  match x with
  | S754_zero _ => Some 0
  | S754_finite s m e =>
      let mag := if 0 <=? e then Z.pos m * 2 ^ e else Z.pos m / 2 ^ (- e) in
      Some (if s then - mag else mag)
  | S754_infinity _ | S754_nan => None
  end.

(** [(long) x] for a floating value [x]: defined when the truncated value
    is representable in [long], undefined otherwise. *)
Definition to_long (x : float) : option Z :=
  match trunc x with
  | Some z => if C.in_longb z then Some z else None
  | None => None
  end.

End F.

(** ** Orientation scalar of the accelerometer (ml.c, lines 111-148) *)

(** A mounting matrix is the C array [signed char[9]], row-major. *)
Definition matrix : Type := list Z.

(** [inv_row_2_scale(row)]: the entries are read in the order the chain
    of tests needs them. *)
Definition inv_row_2_scale (row : list Z) : option Z :=
  r0 ← row !! 0%nat;
  if 0 <? r0 then Some 0
  else if r0 <? 0 then Some 4
  else
    r1 ← row !! 1%nat;
    if 0 <? r1 then Some 1
    else if r1 <? 0 then Some 5
    else
      r2 ← row !! 2%nat;
      if 0 <? r2 then Some 2
      else if r2 <? 0 then Some 6
      else Some 7 (* error *).

(** [inv_orientation_matrix_to_scalar(mtx)]; [mtx + 3] is [drop 3 mtx]. *)
Definition inv_orientation_matrix_to_scalar (mtx : matrix) : option Z :=
  b0 ← inv_row_2_scale mtx;
  let scalar := C.to_ushort b0 in
  b1 ← inv_row_2_scale (drop 3 mtx);
  let scalar := C.to_ushort (Z.lor scalar (Z.shiftl b1 3)) in
  b2 ← inv_row_2_scale (drop 6 mtx);
  let scalar := C.to_ushort (Z.lor scalar (Z.shiftl b2 6)) in
  Some scalar.

(** The 3-bit group of row [r] inside an orientation scalar, and its two
    parts as the accelerometer calibration uses them: bits 0-1 index the
    opcode table, bit 2 is the sign. *)
Definition scalar_group (orient : Z) (r : Z) : Z :=
  Z.land (Z.shiftr orient (3 * r)) 7.
Definition group_axis (g : Z) : Z := Z.land g 3.
Definition group_sign (g : Z) : bool := negb (Z.land g 4 =? 0).

(** ** Axis dominance of the gyroscope (ml.c, lines 292-308) *)

(** Modelled from the spec: the macro [ABS] of mlmath.h, which gives the
    magnitude of its argument by negating a negative one. Its arguments
    here are [long]: on the most negative one the negation overflows,
    which is undefined. *)
Definition ABS (x : Z) : option Z :=
  if x =? C.LONG_MIN then None else Some (Z.abs x).

(** The selection made by one iteration of the loop over the rows: the
    pair ([maxVal], [tmpSign]) reached at line 309, from the three
    [gyro_orient] entries of the row. Each test evaluates both of its
    magnitudes. *)
Definition gyro_axis_dominance (o0 o1 o2 : Z) : option (Z * Z) :=
  let maxVal := 0 in
  let tmpSign := 0 in
  let tmpSign := if o0 <? 0 then 1 else tmpSign in
  a1 ← ABS o1;
  a0 ← ABS o0;
  let '(maxVal, tmpSign) :=
    if a0 <? a1
    then (1, if o1 <? 0 then 1 else tmpSign)
    else (maxVal, tmpSign) in
  a2 ← ABS o2;
  a1 ← ABS o1;
  let '(maxVal, tmpSign) :=
    if a1 <? a2
    then (2, if o2 <? 0 then 1 else 0)
    else (maxVal, tmpSign) in
  Some (maxVal, tmpSign).

(** [gyro_orient[kk] = (long)((double)orientation[kk] * (1L << 30))]. *)
Definition gyro_orient_entry (o : Z) : option Z :=
  F.to_long (F.dmul (F.dof_Z o) (F.dof_Z (Z.shiftl 1 30))).

(** Scale factors of the gyroscope (ml.c, lines 335-349) and of the
    accelerometer (lines 455-459), as functions of the sensitivity held in
    [inv_obj]. *)

(** [(long)(((long long)gyro_sens * 767603923LL) / 1073741824LL)]. *)
Definition gyro_sf_of (gyro_sens : Z) : option Z :=
  q ← C.div (C.wrap_signed 64 (gyro_sens * 767603923)) 1073741824;
  Some (C.to_long q).

(** The value of [int sf] after lines 345-349. *)
Definition gyro_recip_sf (gyro_sens : Z) : option Z :=
  if negb (gyro_sens =? 0)
  then q ← C.div 23832619764371 gyro_sens; Some (C.to_int (C.to_long q))
  else Some 0.

(** The value of [unsigned long sf] after lines 455-459. *)
Definition accel_sf_of (accel_sens : Z) : option Z :=
  if negb (accel_sens =? 0)
  then q ← C.div 1073741824 accel_sens; Some (C.to_ulong q)
  else Some 0.

(** Modelled from the spec: [inv_int32_to_big8] of mlMathFunc.c, the four
    bytes of a 32-bit word, most significant first. *)
Definition inv_int32_to_big8 (x : Z) : list Z :=
  [ Z.land (Z.shiftr x 24) 255; Z.land (Z.shiftr x 16) 255;
    Z.land (Z.shiftr x 8) 255; Z.land x 255 ].

(** ** Result codes, lifecycle states, device keys *)

(** The result type [inv_error_t]. The numeric codes are those of
    mltypes.h; the code only tests a result against zero and hands it
    on, so the codes it names are constructors and every other non-zero
    code is [INV_ERROR_OTHER]. *)
Inductive inv_error_t : Type :=
| INV_SUCCESS
| INV_ERROR_SM_IMPROPER_STATE
| INV_ERROR_INVALID_PARAMETER
| INV_ERROR_FEATURE_NOT_IMPLEMENTED
| INV_ERROR_SERIAL_DEVICE_NOT_RECOGNIZED
| INV_ERROR_OTHER (code : Z).

(** [if (result)] *)
Definition is_error (r : inv_error_t) : bool :=
  match r with INV_SUCCESS => false | _ => true end.

(** Modelled from the spec: the lifecycle states of mlstates.h, a linear
    order with increasing ordinals. *)
Inductive inv_state : Type :=
| INV_STATE_SERIAL_CLOSED
| INV_STATE_SERIAL_OPENED
| INV_STATE_DMP_OPENED
| INV_STATE_DMP_STARTED.

Definition state_ord (s : inv_state) : Z :=
  match s with
  | INV_STATE_SERIAL_CLOSED => 0
  | INV_STATE_SERIAL_OPENED => 1
  | INV_STATE_DMP_OPENED => 2
  | INV_STATE_DMP_STARTED => 3
  end.

Definition state_eqb (a b : inv_state) : bool := state_ord a =? state_ord b.
Definition state_ltb (a b : inv_state) : bool := state_ord a <? state_ord b.

(** The symbolic device-memory keys that ml.c writes. *)
Inductive dmp_key : Type :=
| KEY_FCFG_1 | KEY_FCFG_2 | KEY_FCFG_3 | KEY_FCFG_7
| KEY_D_0_24 | KEY_D_0_96 | KEY_D_0_104 | KEY_D_0_108
| KEY_D_1_96 | KEY_D_1_106 | KEY_D_1_152
| KEY_CFG_18
| KEY_CPASS_MTX_00 | KEY_CPASS_MTX_01 | KEY_CPASS_MTX_02
| KEY_CPASS_MTX_10 | KEY_CPASS_MTX_11 | KEY_CPASS_MTX_12
| KEY_CPASS_MTX_20 | KEY_CPASS_MTX_21 | KEY_CPASS_MTX_22.

(** The field [full_scale] of the device configuration: the four
    settings the switch of [inv_apply_calibration] names, and any other
    byte. *)
Inductive mpu_fs : Type :=
| MPU_FS_250DPS | MPU_FS_500DPS | MPU_FS_1000DPS | MPU_FS_2000DPS
| MPU_FS_unrecognized (raw : Z).

Definition valid_full_scale (fs : mpu_fs) : Prop :=
  match fs with MPU_FS_unrecognized _ => False | _ => True end.

Inductive int_source : Type := INTSRC_MPU | INTSRC_AUX1.

Inductive slave_config_key : Type :=
| MPU_SLAVE_CONFIG_ODR_RESUME | MPU_SLAVE_CONFIG_IRQ_RESUME.

(** [struct ext_slave_config]; [data] is the [long] it points to. *)
Record ext_slave_config : Type := {
  config_key : slave_config_key;
  config_len : Z;
  config_apply : bool;
  config_data : Z }.

(** ** Device configuration and the Context *)

Record fix_pnt_range : Type := { mantissa : Z; fraction : Z }.

(** The fields of [struct ext_slave_descr] that ml.c reads. *)
Record ext_slave_descr : Type := {
  slave_id : Z;
  slave_range : fix_pnt_range;
  slave_endian : Z }.

(** [struct ext_slave_platform_data]; [get_slave_descr] is a function
    pointer that the code only compares with 0. *)
Record ext_slave_platform_data : Type := {
  get_slave_descr : bool;
  slave_orientation : matrix }.

Record mpu_platform_data : Type := {
  pd_orientation : matrix;
  pd_accel : ext_slave_platform_data;
  pd_compass : ext_slave_platform_data;
  pd_pressure : ext_slave_platform_data }.

(** [struct mldl_cfg]; the slave descriptors are pointers, [None] is
    [NULL]. *)
Record mldl_cfg_t : Type := {
  requested_sensors : Z;
  full_scale : mpu_fs;
  gyro_sens_trim : Z;
  cfg_accel : option ext_slave_descr;
  cfg_compass : option ext_slave_descr;
  pdata : mpu_platform_data }.

(** A function pointer is the identity of the function it points to. *)
Definition func_ptr : Type := nat.

(** The fields of [struct inv_obj_t] that the modelled functions use. *)
Record inv_obj_t : Type := {
  gyro_sens : Z;
  gyro_sf : Z;
  gyro_cal : list Z;
  gyro_orient : list Z;
  accel_sens : Z;
  accel_cal : list Z;
  compass_sens : Z;
  compass_cal : list Z;
  motion_state : Z;
  flags_motion_state_change : Z;
  no_motion_accel_time : Z;
  motion_duration : Z;
  mode_change_func : option func_ptr }.

(** [tMLXCallbackInterrupt]: the counter and the array of
    [MAX_INTERRUPT_PROCESSES] function pointers, [None] being [NULL]. *)
Record tMLXCallbackInterrupt : Type := {
  numInterruptProcesses : Z;
  processInterruptCb : list (option func_ptr) }.

(** ** Constants and services defined outside ml.c *)

(** The DMP opcode bytes of dmpKey.h that ml.c names. *)
Class DmpOpcodes : Type := {
  DINAC9 : Z; DINA2C : Z; DINACB : Z;
  DINA36 : Z; DINA56 : Z; DINA76 : Z;
  DINA4C : Z; DINACD : Z; DINA6C : Z;
  DINA26 : Z; DINA46 : Z; DINA66 : Z;
  DINAD8 : Z; DINA0C : Z }.

(** Bit masks and limits of ml.h and mpu.h that ml.c names. *)
Class MplConstants : Type := {
  INV_THREE_AXIS_ACCEL : Z;
  INV_THREE_AXIS_COMPASS : Z;
  INV_THREE_AXIS_PRESSURE : Z;
  INV_DMP_PROCESSOR : Z;
  INV_MOTION : Z;
  MPU_SLAVE_IRQ_TYPE_NONE : Z;
  MPU_SLAVE_IRQ_TYPE_DATA_READY : Z;
  MAX_INTERRUPT_PROCESSES : nat;
  (** the macro of mpu.h that turns a fixed-point range into a [float] *)
  RANGE_FIXEDPOINT_TO_FLOAT : fix_pnt_range -> F.float }.

(** The services ml.c calls, over the state [W] of everything outside
    this file (device memory, FIFO, interrupt flags, clock). A registered
    function receives what it is called with; an interrupt callback is
    handed the Context and may change it. *)
Class Externals (W : Type) : Type := {
  ext_set_mpu_memory : dmp_key -> Z -> list Z -> W -> inv_error_t * W;
  ext_dmpkey_supported : dmp_key -> W -> bool;
  ext_read_and_process_fifo : Z -> W -> inv_error_t * Z * W;
  ext_get_interrupt_trigger : int_source -> W -> bool;
  ext_clear_interrupt_trigger : int_source -> W -> W;
  ext_get_fifo_status : W -> inv_error_t * W;
  ext_get_fifo_rate : W -> Z;
  ext_set_fifo_rate : Z -> W -> W;
  ext_mpu_get_sampling_rate_hz : mldl_cfg_t -> W -> Z;
  ext_mpu_config_accel : ext_slave_config -> W -> inv_error_t * W;
  ext_init_fifo_hardare : W -> W;
  ext_dl_start : Z -> W -> inv_error_t * W;
  ext_dl_stop : Z -> W -> inv_error_t * W;
  ext_get_tick_count : W -> Z;
  ext_set_motion_state : Z -> inv_obj_t -> W -> inv_obj_t * W;
  ext_interrupt_cb : func_ptr -> inv_obj_t -> W -> inv_obj_t * W;
  ext_mode_change_cb : func_ptr -> Z -> Z -> W -> inv_error_t * W }.

(** One entry per call that leaves ml.c, in call order. *)
Inductive event : Type :=
| EvSetMpuMemory (key : dmp_key) (length : Z) (buffer : list Z)
| EvDmpKeySupported (key : dmp_key)
| EvReadAndProcessFifo (numPackets : Z)
| EvGetInterruptTrigger (src : int_source)
| EvClearInterruptTrigger (src : int_source)
| EvGetFifoStatus
| EvGetFifoRate
| EvSetFifoRate (rate : Z)
| EvGetSamplingRate
| EvConfigAccel (config : ext_slave_config)
| EvInitFifoHardware
| EvDlStart (sensors : Z)
| EvDlStop (sensors : Z)
| EvGetTickCount
| EvSetMotionState (val : Z)
| EvInterruptCb (func : func_ptr)
| EvModeChangeCb (func : func_ptr) (old new : Z).

Definition is_fifo_read (e : event) : bool :=
  match e with EvReadAndProcessFifo _ => true | _ => false end.

(** The interrupt callbacks of a trace, in the order they were called. *)
Definition interrupt_cbs_of (t : list event) : list func_ptr :=
  omap (fun e => match e with EvInterruptCb f => Some f | _ => None end) t.

(** The device-memory writes of a trace, in order. *)
Definition memory_writes_of (t : list event) : list (dmp_key * Z * list Z) :=
  omap (fun e => match e with
                 | EvSetMpuMemory k n b => Some (k, n, b)
                 | _ => None end) t.

(** ** Program state and the monad of the embedding *)

(** The globals of the library ([inv_params_obj.state], [inv_obj], the
    device configuration behind [inv_get_dl_config], the callback
    registry), the outside world and the log of calls made so far. *)
Record mpl (W : Type) : Type := {
  st : inv_state;
  obj : inv_obj_t;
  cfg : mldl_cfg_t;
  mlxCallbackInterrupt : tMLXCallbackInterrupt;
  world : W;
  trace : list event }.

Arguments st {W} _.
Arguments obj {W} _.
Arguments cfg {W} _.
Arguments mlxCallbackInterrupt {W} _.
Arguments world {W} _.
Arguments trace {W} _.

(** What a call does: it returns [a] in state [s], or its behaviour is
    undefined. *)
Inductive outcome (W A : Type) : Type :=
| Done (a : A) (s : mpl W)
| Undef.

Arguments Done {W A} a s.
Arguments Undef {W A}.

Definition M (W A : Type) : Type := mpl W -> outcome W A.

Definition ret {W A} (a : A) : M W A := fun s => Done a s.

Definition bind {W A B} (c : M W A) (k : A -> M W B) : M W B :=
  fun s => match c s with
           | Done a s' => k a s'
           | Undef => Undef
           end.

Definition get {W} : M W (mpl W) := fun s => Done s s.

Definition modify {W} (f : mpl W -> mpl W) : M W unit := fun s => Done tt (f s).

(** A partial read: [None] is undefined behaviour. *)
Definition defined {W A} (o : option A) : M W A :=
  fun s => match o with Some a => Done a s | None => Undef end.

Declare Scope mpl_scope.
Delimit Scope mpl_scope with mpl.

Notation "'let*' x ':=' c 'in' k" := (bind c (fun x => k))
  (at level 10, x name, c at level 100, k at level 200) : mpl_scope.
Notation "'let*' ' p ':=' c 'in' k" := (bind c (fun x => let 'p := x in k))
  (at level 10, p pattern, c at level 100, k at level 200) : mpl_scope.
Notation "c ';;;' k" := (bind c (fun _ => k))
  (at level 100, k at level 200, right associativity) : mpl_scope.

(** [if (result) return result;] followed by the rest of the body. *)
Definition check {W} (result : inv_error_t) (rest : M W inv_error_t)
  : M W inv_error_t :=
  if is_error result then ret result else rest.

(** [for (kk = start; kk < start + n; ++kk) body(kk)], the bound being
    fixed at entry. *)
Fixpoint for_range {W} (start n : nat) (body : nat -> M W unit) : M W unit :=
  match n with
  | O => ret tt
  | S n' => bind (body start) (fun _ => for_range (S start) n' body)
  end.

Definition for_upto {W} (n : nat) (body : nat -> M W unit) : M W unit :=
  for_range 0 n body.

(** Field updates. *)
Definition with_obj {W} (f : inv_obj_t -> inv_obj_t) (s : mpl W) : mpl W :=
  {| st := st s; obj := f (obj s); cfg := cfg s;
     mlxCallbackInterrupt := mlxCallbackInterrupt s;
     world := world s; trace := trace s |}.

Definition with_cfg {W} (f : mldl_cfg_t -> mldl_cfg_t) (s : mpl W) : mpl W :=
  {| st := st s; obj := obj s; cfg := f (cfg s);
     mlxCallbackInterrupt := mlxCallbackInterrupt s;
     world := world s; trace := trace s |}.

(** A call out of ml.c: the world moves on and the call is logged. *)
Definition called {W} (e : event) (w : W) (s : mpl W) : mpl W :=
  {| st := st s; obj := obj s; cfg := cfg s;
     mlxCallbackInterrupt := mlxCallbackInterrupt s;
     world := w; trace := trace s ++ [e] |}.

Definition set_requested_sensors (v : Z) (c : mldl_cfg_t) : mldl_cfg_t :=
  {| requested_sensors := v; full_scale := full_scale c;
     gyro_sens_trim := gyro_sens_trim c; cfg_accel := cfg_accel c;
     cfg_compass := cfg_compass c; pdata := pdata c |}.

Definition set_regs_cal (gc go ac cc : list Z) (o : inv_obj_t) : inv_obj_t :=
  {| gyro_sens := gyro_sens o; gyro_sf := gyro_sf o;
     gyro_cal := gc; gyro_orient := go;
     accel_sens := accel_sens o; accel_cal := ac;
     compass_sens := compass_sens o; compass_cal := cc;
     motion_state := motion_state o;
     flags_motion_state_change := flags_motion_state_change o;
     no_motion_accel_time := no_motion_accel_time o;
     motion_duration := motion_duration o;
     mode_change_func := mode_change_func o |}.

Definition set_gyro_cal (kk : nat) (v : Z) (o : inv_obj_t) : inv_obj_t :=
  set_regs_cal (<[kk := v]> (gyro_cal o)) (gyro_orient o) (accel_cal o)
    (compass_cal o) o.
Definition set_gyro_orient (kk : nat) (v : Z) (o : inv_obj_t) : inv_obj_t :=
  set_regs_cal (gyro_cal o) (<[kk := v]> (gyro_orient o)) (accel_cal o)
    (compass_cal o) o.
Definition set_accel_cal (kk : nat) (v : Z) (o : inv_obj_t) : inv_obj_t :=
  set_regs_cal (gyro_cal o) (gyro_orient o) (<[kk := v]> (accel_cal o))
    (compass_cal o) o.
Definition set_compass_cal (kk : nat) (v : Z) (o : inv_obj_t) : inv_obj_t :=
  set_regs_cal (gyro_cal o) (gyro_orient o) (accel_cal o)
    (<[kk := v]> (compass_cal o)) o.

Definition set_sens (gs gsf asn cs : Z) (o : inv_obj_t) : inv_obj_t :=
  {| gyro_sens := gs; gyro_sf := gsf;
     gyro_cal := gyro_cal o; gyro_orient := gyro_orient o;
     accel_sens := asn; accel_cal := accel_cal o;
     compass_sens := cs; compass_cal := compass_cal o;
     motion_state := motion_state o;
     flags_motion_state_change := flags_motion_state_change o;
     no_motion_accel_time := no_motion_accel_time o;
     motion_duration := motion_duration o;
     mode_change_func := mode_change_func o |}.

Definition set_gyro_sens (v : Z) (o : inv_obj_t) : inv_obj_t :=
  set_sens v (gyro_sf o) (accel_sens o) (compass_sens o) o.
Definition set_gyro_sf (v : Z) (o : inv_obj_t) : inv_obj_t :=
  set_sens (gyro_sens o) v (accel_sens o) (compass_sens o) o.
Definition set_accel_sens (v : Z) (o : inv_obj_t) : inv_obj_t :=
  set_sens (gyro_sens o) (gyro_sf o) v (compass_sens o) o.
Definition set_compass_sens (v : Z) (o : inv_obj_t) : inv_obj_t :=
  set_sens (gyro_sens o) (gyro_sf o) (accel_sens o) v o.

Definition set_motion (ms fl t : Z) (o : inv_obj_t) : inv_obj_t :=
  {| gyro_sens := gyro_sens o; gyro_sf := gyro_sf o;
     gyro_cal := gyro_cal o; gyro_orient := gyro_orient o;
     accel_sens := accel_sens o; accel_cal := accel_cal o;
     compass_sens := compass_sens o; compass_cal := compass_cal o;
     motion_state := ms;
     flags_motion_state_change := fl;
     no_motion_accel_time := t;
     motion_duration := motion_duration o;
     mode_change_func := mode_change_func o |}.

Section Services.

Context {W : Type} `{Externals W}.

Local Open Scope mpl_scope.

(** [inv_get_state()] and [inv_get_dl_config()] read the globals. *)
Definition inv_get_state : M W inv_state := fun s => Done (st s) s.
Definition inv_get_dl_config : M W mldl_cfg_t := fun s => Done (cfg s) s.

(** [inv_set_mpu_memory(key, length, buffer)] reads [length] bytes at
    [buffer]; reading past the end of the array is undefined. *)
Definition inv_set_mpu_memory (key : dmp_key) (length : Z) (buffer : list Z)
  : M W inv_error_t :=
  fun s =>
    let n := Z.to_nat length in
    if (n <=? List.length buffer)%nat then
      let bytes := take n buffer in
      let rw := ext_set_mpu_memory key length bytes (world s) in
      Done (fst rw) (called (EvSetMpuMemory key length bytes) (snd rw) s)
    else Undef.

Definition inv_dmpkey_supported (key : dmp_key) : M W bool :=
  fun s => Done (ext_dmpkey_supported key (world s))
                (called (EvDmpKeySupported key) (world s) s).

Definition inv_read_and_process_fifo (numPackets : Z) : M W (inv_error_t * Z) :=
  fun s =>
    let rw := ext_read_and_process_fifo numPackets (world s) in
    Done (fst rw) (called (EvReadAndProcessFifo numPackets) (snd rw) s).

Definition inv_get_interrupt_trigger (src : int_source) : M W bool :=
  fun s => Done (ext_get_interrupt_trigger src (world s))
                (called (EvGetInterruptTrigger src) (world s) s).

Definition inv_clear_interrupt_trigger (src : int_source) : M W unit :=
  fun s => Done tt (called (EvClearInterruptTrigger src)
                           (ext_clear_interrupt_trigger src (world s)) s).

Definition inv_get_fifo_status : M W inv_error_t :=
  fun s => let rw := ext_get_fifo_status (world s) in
           Done (fst rw) (called EvGetFifoStatus (snd rw) s).

Definition inv_get_fifo_rate : M W Z :=
  fun s => Done (ext_get_fifo_rate (world s)) (called EvGetFifoRate (world s) s).

Definition inv_set_fifo_rate (rate : Z) : M W unit :=
  fun s => Done tt (called (EvSetFifoRate rate)
                           (ext_set_fifo_rate rate (world s)) s).

Definition inv_mpu_get_sampling_rate_hz : M W Z :=
  fun s => Done (ext_mpu_get_sampling_rate_hz (cfg s) (world s))
                (called EvGetSamplingRate (world s) s).

Definition inv_mpu_config_accel (config : ext_slave_config) : M W inv_error_t :=
  fun s => let rw := ext_mpu_config_accel config (world s) in
           Done (fst rw) (called (EvConfigAccel config) (snd rw) s).

Definition inv_init_fifo_hardare : M W unit :=
  fun s => Done tt (called EvInitFifoHardware
                           (ext_init_fifo_hardare (world s)) s).

Definition inv_dl_start (sensors : Z) : M W inv_error_t :=
  fun s => let rw := ext_dl_start sensors (world s) in
           Done (fst rw) (called (EvDlStart sensors) (snd rw) s).

Definition inv_dl_stop (sensors : Z) : M W inv_error_t :=
  fun s => let rw := ext_dl_stop sensors (world s) in
           Done (fst rw) (called (EvDlStop sensors) (snd rw) s).

Definition inv_get_tick_count : M W Z :=
  fun s => Done (ext_get_tick_count (world s))
                (called EvGetTickCount (world s) s).

Definition inv_set_motion_state (val : Z) : M W unit :=
  fun s => let ow := ext_set_motion_state val (obj s) (world s) in
           Done tt (called (EvSetMotionState val) (snd ow)
                           (with_obj (fun _ => fst ow) s)).

(** [func(&inv_obj)] for a registered interrupt callback. *)
Definition call_interrupt_cb (func : func_ptr) : M W unit :=
  fun s => let ow := ext_interrupt_cb func (obj s) (world s) in
           Done tt (called (EvInterruptCb func) (snd ow)
                           (with_obj (fun _ => fst ow) s)).

(** [inv_obj.mode_change_func(old, new)]. *)
Definition call_mode_change (func : func_ptr) (old new : Z) : M W inv_error_t :=
  fun s => let rw := ext_mode_change_cb func old new (world s) in
           Done (fst rw) (called (EvModeChangeCb func old new) (snd rw) s).

End Services.

Section Library.

Context {W : Type} `{DmpOpcodes} `{MplConstants} `{Externals W}.

Local Open Scope mpl_scope.

(** ** Gyroscope calibration (ml.c, lines 250-358) *)

(** Lines 309-321: the opcode of the selected axis goes to
    [regs[tmpPtr++]]; a set sign flag sets bit 0 of [regs[tmpPtr + 2]],
    [tmpPtr] being the incremented index. *)
Definition gyro_emit (maxVal tmpSign : Z) (acc : list Z * nat) : list Z * nat :=
  let '(regs, tmpPtr) := acc in
  let tmpD := DINAC9 in
  let tmpE := DINA2C in
  let tmpF := DINACB in
  let op := if maxVal =? 0 then tmpD else if maxVal =? 1 then tmpE else tmpF in
  let regs := <[tmpPtr := op]> regs in
  let tmpPtr := S tmpPtr in
  let regs :=
    if negb (tmpSign =? 0)
    then alter (fun v => C.to_uchar (Z.lor v 1)) (tmpPtr + 2)%nat regs
    else regs in
  (regs, tmpPtr).

(** The body of the loop of lines 291-322 for row [i]. *)
Definition gyro_row (i : nat) (acc : list Z * nat) : M W (list Z * nat) :=
  let* s := get in
  let* o0 := defined (gyro_orient (obj s) !! (0 + 3 * i)%nat) in
  let* o1 := defined (gyro_orient (obj s) !! (1 + 3 * i)%nat) in
  let* o2 := defined (gyro_orient (obj s) !! (2 + 3 * i)%nat) in
  let* d := defined (gyro_axis_dominance o0 o1 o2) in
  let '(maxVal, tmpSign) := d in
  ret (gyro_emit maxVal tmpSign acc).

Definition inv_set_gyro_calibration (range : F.float) (orientation : matrix)
  : M W inv_error_t :=
  let* mldl_cfg := inv_get_dl_config in
  let regs : list Z := replicate 12 0 in
  let tmpPtr : nat := 0%nat in
  let* state := inv_get_state in
  if negb (state_eqb state INV_STATE_DMP_OPENED)
  then ret INV_ERROR_SM_IMPROPER_STATE
  else
    let range :=
      if negb (gyro_sens_trim mldl_cfg =? 0)
      then F.mul range (F.div (F.div (F.of_Z 32768) (F.of_Z 250))
                              (F.of_Z (gyro_sens_trim mldl_cfg)))
      else range in
    let scale := F.div range (F.of_Z 32768) in
    let* sens := defined (F.to_long (F.mul range (F.of_Z 32768))) in
    modify (with_obj (set_gyro_sens sens)) ;;;
    for_upto 9 (fun kk =>
      let* o := defined (orientation !! kk) in
      let* c := defined (F.to_long (F.mul (F.mul scale (F.of_Z o))
                                          (F.of_Z (Z.shiftl 1 30)))) in
      modify (with_obj (set_gyro_cal kk c)) ;;;
      let* g := defined (gyro_orient_entry o) in
      modify (with_obj (set_gyro_orient kk g))) ;;;
    let regs := <[3%nat := DINA36]> regs in
    let regs := <[4%nat := DINA56]> regs in
    let regs := <[5%nat := DINA76]> regs in
    let* acc := gyro_row 0 (regs, tmpPtr) in
    let* acc := gyro_row 1 acc in
    let* acc := gyro_row 2 acc in
    let regs := fst acc in
    let* result := inv_set_mpu_memory KEY_FCFG_1 3 regs in
    check result (
    let* result := inv_set_mpu_memory KEY_FCFG_3 3 (drop 3 regs) in
    check result (
    let* s := get in
    let* sf0 := defined (gyro_sf_of (gyro_sens (obj s))) in
    modify (with_obj (set_gyro_sf sf0)) ;;;
    let* result := inv_set_mpu_memory KEY_D_0_104 4 (inv_int32_to_big8 sf0) in
    check result (
    let* s := get in
    let* sf := defined (gyro_recip_sf (gyro_sens (obj s))) in
    let* result := inv_set_mpu_memory KEY_D_0_24 4 (inv_int32_to_big8 sf) in
    check result (
    ret INV_SUCCESS)))).

(** ** Accelerometer calibration (ml.c, lines 391-469) *)

(** The block of lines 417-453, entered when [mldl_cfg->accel->id] is
    not zero: the calibration matrix, then the two opcode triples derived
    from the orientation scalar. Its value is the failed [result] that
    the block returns, or INV_SUCCESS when control runs off its end. *)
Definition accel_orientation_block (scale : F.float) (orientation : matrix)
  : M W inv_error_t :=
  let tmp := [DINA4C; DINACD; DINA6C] in
  for_upto 9 (fun kk =>
    let* o := defined (orientation !! kk) in
    let cal := F.mul scale (F.of_Z o) in
    let* c := defined (F.to_long (F.mul cal (F.of_Z (Z.shiftl 1 30)))) in
    modify (with_obj (set_accel_cal kk c))) ;;;
  let* orient := defined (inv_orientation_matrix_to_scalar orientation) in
  let* r0 := defined (tmp !! Z.to_nat (Z.land orient 3)) in
  let* r1 := defined (tmp !! Z.to_nat (Z.land (Z.shiftr orient 3) 3)) in
  let* r2 := defined (tmp !! Z.to_nat (Z.land (Z.shiftr orient 6) 3)) in
  let* result := inv_set_mpu_memory KEY_FCFG_2 3 [r0; r1; r2] in
  check result (
  let r0 := DINA26 in
  let r1 := DINA46 in
  let r2 := DINA66 in
  let r0 := if negb (Z.land orient 4 =? 0)
            then C.to_uchar (Z.lor r0 1) else r0 in
  let r1 := if negb (Z.land orient 32 =? 0)
            then C.to_uchar (Z.lor r1 1) else r1 in
  let r2 := if negb (Z.land orient 256 =? 0)
            then C.to_uchar (Z.lor r2 1) else r2 in
  inv_set_mpu_memory KEY_FCFG_7 3 [r0; r1; r2]).

(** Lines 455-468: the scale factor, from the [accel_sens] that the
    Context holds at that point, written as two bytes. *)
Definition accel_write_sf (regs : list Z) : M W inv_error_t :=
  let* s := get in
  let* sf := defined (accel_sf_of (accel_sens (obj s))) in
  let regs := <[0%nat := C.to_uchar (Z.land (Z.shiftr sf 8) 255)]> regs in
  let regs := <[1%nat := C.to_uchar (Z.land sf 255)]> regs in
  let* result := inv_set_mpu_memory KEY_D_0_108 2 regs in
  check result (
  ret result).

Definition inv_set_accel_calibration (range : F.float) (orientation : matrix)
  : M W inv_error_t :=
  let scale := F.div range (F.of_Z 32768) in
  let regs : list Z := [0; 0; 0; 0] in
  let* mldl_cfg := inv_get_dl_config in
  let* state := inv_get_state in
  if negb (state_eqb state INV_STATE_DMP_OPENED)
  then ret INV_ERROR_SM_IMPROPER_STATE
  else
    let* supported := inv_dmpkey_supported KEY_D_1_152 in
    let* result :=
      (if supported then inv_set_mpu_memory KEY_D_1_152 4 regs
       else ret INV_SUCCESS) in
    check result (
    (if F.is_zero scale then modify (with_obj (set_accel_sens 0))
     else ret tt) ;;;
    let* accel := defined (cfg_accel mldl_cfg) in
    let* result :=
      (if negb (slave_id accel =? 0)
       then accel_orientation_block scale orientation
       else ret INV_SUCCESS) in
    check result (
    accel_write_sf regs)).

(** ** Compass calibration (ml.c, lines 502-541) *)

Definition compass_keyList : list dmp_key :=
  [ KEY_CPASS_MTX_00; KEY_CPASS_MTX_01; KEY_CPASS_MTX_02;
    KEY_CPASS_MTX_10; KEY_CPASS_MTX_11; KEY_CPASS_MTX_12;
    KEY_CPASS_MTX_20; KEY_CPASS_MTX_21; KEY_CPASS_MTX_22 ].

Definition inv_set_compass_calibration (range : F.float) (orientation : matrix)
  : M W inv_error_t :=
  let scale := F.div range (F.of_Z 32768) in
  for_upto 9 (fun kk =>
    let* o := defined (orientation !! kk) in
    let cal := F.mul scale (F.of_Z o) in
    let* c := defined (F.to_long (F.mul cal (F.of_Z (Z.shiftl 1 30)))) in
    modify (with_obj (set_compass_cal kk c))) ;;;
  let* sens := defined (F.to_long (F.mul scale (F.of_Z 1073741824))) in
  modify (with_obj (set_compass_sens sens)) ;;;
  let* supported := inv_dmpkey_supported KEY_CPASS_MTX_00 in
  (if supported then
     let reg0 := [0; 0; 0; 0] in
     let regp := [64; 0; 0; 0] in
     let regn := [64 + 128; 0; 0; 0] in
     for_upto 9 (fun kk =>
       let* o := defined (orientation !! kk) in
       let reg := if o =? 1 then regp else if o =? -1 then regn else reg0 in
       let* key := defined (compass_keyList !! kk) in
       let* _ := inv_set_mpu_memory key 4 reg in
       ret tt)
   else ret tt) ;;;
  ret INV_SUCCESS.

(** ** Apply-all calibration (ml.c, lines 548-625) *)

(** The nine entries of a configured mounting matrix, copied by the loop
    of lines 562-570. *)
Definition read_orientation (src : matrix) : option matrix :=
  mapM (fun ii => src !! ii) (seq 0 9).

(** The switch of lines 572-590. *)
Definition gyro_scale_of (fs : mpu_fs) : option F.float :=
  match fs with
  | MPU_FS_250DPS => Some (F.of_Z 250)
  | MPU_FS_500DPS => Some (F.of_Z 500)
  | MPU_FS_1000DPS => Some (F.of_Z 1000)
  | MPU_FS_2000DPS => Some (F.of_Z 2000)
  | MPU_FS_unrecognized _ => None
  end.

Definition inv_apply_calibration : M W inv_error_t :=
  let zero9 : matrix := replicate 9 0 in
  let accelScale := F.of_Z 0 in
  let magScale := F.of_Z 0 in
  let* mldl_cfg := inv_get_dl_config in
  let* gyroCal := defined (read_orientation (pd_orientation (pdata mldl_cfg))) in
  let* accelCal :=
    (match cfg_accel mldl_cfg with
     | Some _ => defined (read_orientation
                            (slave_orientation (pd_accel (pdata mldl_cfg))))
     | None => ret zero9
     end) in
  let* magCal :=
    (match cfg_compass mldl_cfg with
     | Some _ => defined (read_orientation
                            (slave_orientation (pd_compass (pdata mldl_cfg))))
     | None => ret zero9
     end) in
  match gyro_scale_of (full_scale mldl_cfg) with
  | None => ret INV_ERROR_INVALID_PARAMETER
  | Some gyroScale =>
    let* accelScale :=
      (match cfg_accel mldl_cfg with
       | Some accel =>
           let accelScale := RANGE_FIXEDPOINT_TO_FLOAT (slave_range accel) in
           let* v := defined (F.to_long (F.mul accelScale (F.of_Z 65536))) in
           modify (with_obj (set_accel_sens v)) ;;;
           (* sensitivity adjustment, typically = 2 (for +/- 2 gee) *)
           modify (with_obj (fun o => set_accel_sens (Z.quot (accel_sens o) 2) o)) ;;;
           ret accelScale
       | None => ret accelScale
       end) in
    let* magScale :=
      (match cfg_compass mldl_cfg with
       | Some compass =>
           let magScale := RANGE_FIXEDPOINT_TO_FLOAT (slave_range compass) in
           let* v := defined (F.to_long (F.mul magScale (F.of_Z 32768))) in
           modify (with_obj (set_compass_sens v)) ;;;
           ret magScale
       | None => ret magScale
       end) in
    let* state := inv_get_state in
    if state_eqb state INV_STATE_DMP_OPENED then
      let* result := inv_set_gyro_calibration gyroScale gyroCal in
      check result (
      let* result :=
        (match cfg_accel mldl_cfg with
         | Some _ => inv_set_accel_calibration accelScale accelCal
         | None => ret result
         end) in
      check result (
      let* result :=
        (match cfg_compass mldl_cfg with
         | Some _ => inv_set_compass_calibration magScale magCal
         | None => ret result
         end) in
      check result (
      ret INV_SUCCESS)))
    else ret INV_SUCCESS
  end.

(** ** Interrupt callbacks (ml.c, lines 739-746) *)

(** The callees cannot assign the registry, so the bound that the loop
    test reads is the one read at entry. Entry [kk] lies in an array of
    [MAX_INTERRUPT_PROCESSES] pointers. *)
Definition inv_run_dmp_interupt_cb : M W unit :=
  let* s := get in
  for_upto (Z.to_nat (numInterruptProcesses (mlxCallbackInterrupt s)))
    (fun kk =>
       let* s := get in
       let* entry := defined (processInterruptCb (mlxCallbackInterrupt s) !! kk) in
       match entry with
       | Some func => call_interrupt_cb func
       | None => ret tt
       end).

(** ** Motion-state reset (ml.c, lines 751-792) *)

Definition inv_reset_motion : M W inv_error_t :=
  let regs : list Z := replicate 8 0 in
  modify (with_obj (fun o =>
    set_motion INV_MOTION (flags_motion_state_change o)
               (no_motion_accel_time o) o)) ;;;
  modify (with_obj (fun o =>
    set_motion (motion_state o) INV_MOTION (no_motion_accel_time o) o)) ;;;
  let* t := inv_get_tick_count in
  modify (with_obj (fun o =>
    set_motion (motion_state o) (flags_motion_state_change o) t o)) ;;;
  let regs := <[0%nat := C.to_uchar (DINAD8 + 2)]> regs in
  let regs := <[1%nat := DINA0C]> regs in
  let regs := <[2%nat := C.to_uchar (DINAD8 + 1)]> regs in
  let* result := inv_set_mpu_memory KEY_CFG_18 3 regs in
  check result (
  let* s := get in
  let regs := <[0%nat := C.to_uchar
                  (Z.land (Z.shiftr (motion_duration (obj s)) 8) 255)]> regs in
  let regs := <[1%nat := C.to_uchar (Z.land (motion_duration (obj s)) 255)]> regs in
  let* result := inv_set_mpu_memory KEY_D_1_106 2 regs in
  check result (
  let regs := replicate 8 0 in
  let* result := inv_set_mpu_memory KEY_D_1_96 8 regs in
  check result (
  let* result := inv_set_mpu_memory KEY_D_0_96 4 (inv_int32_to_big8 1073741824) in
  check result (
  inv_set_motion_state INV_MOTION ;;;
  ret result)))).

(** ** The data pump (ml.c, lines 811-853) *)

Definition inv_update_data : M W inv_error_t :=
  let* mldl_cfg := inv_get_dl_config in
  let* state := inv_get_state in
  if negb (state_eqb state INV_STATE_DMP_STARTED)
  then ret INV_ERROR_SM_IMPROPER_STATE
  else
    (* Set the maximum number of FIFO packets we want to process *)
    let ftry :=
      if negb (Z.land (requested_sensors mldl_cfg) INV_DMP_PROCESSOR =? 0)
      then 100 else 1 in
    let* '(result, got) := inv_read_and_process_fifo ftry in
    check result (
    let* mpu_interrupt := inv_get_interrupt_trigger INTSRC_AUX1 in
    (if mpu_interrupt then inv_clear_interrupt_trigger INTSRC_AUX1
     else ret tt) ;;;
    let* mpu_interrupt := inv_get_interrupt_trigger INTSRC_MPU in
    (if mpu_interrupt then inv_clear_interrupt_trigger INTSRC_MPU
     else ret tt) ;;;
    (if mpu_interrupt then inv_run_dmp_interupt_cb else ret tt) ;;;
    inv_get_fifo_status).

(** ** Sensor enable (ml.c, lines 1148-1269) *)

(** [(sensors & group) != group && (sensors & group) != 0] *)
Definition partial_group (sensors group : Z) : bool :=
  negb (Z.land sensors group =? group) && negb (Z.land sensors group =? 0).

Definition inv_set_mpu_sensors (sensors : Z) : M W inv_error_t :=
  let* state := inv_get_state in
  let* mldl_cfg := inv_get_dl_config in
  let result := INV_SUCCESS in
  if state_ltb state INV_STATE_DMP_OPENED
  then ret INV_ERROR_SM_IMPROPER_STATE
  else if partial_group sensors INV_THREE_AXIS_ACCEL
  then ret INV_ERROR_FEATURE_NOT_IMPLEMENTED
  else if negb (Z.land sensors INV_THREE_AXIS_ACCEL =? 0)
          && negb (get_slave_descr (pd_accel (pdata mldl_cfg)))
  then ret INV_ERROR_SERIAL_DEVICE_NOT_RECOGNIZED
  else if partial_group sensors INV_THREE_AXIS_COMPASS
  then ret INV_ERROR_FEATURE_NOT_IMPLEMENTED
  else if negb (Z.land sensors INV_THREE_AXIS_COMPASS =? 0)
          && negb (get_slave_descr (pd_compass (pdata mldl_cfg)))
  then ret INV_ERROR_SERIAL_DEVICE_NOT_RECOGNIZED
  else if partial_group sensors INV_THREE_AXIS_PRESSURE
  then ret INV_ERROR_FEATURE_NOT_IMPLEMENTED
  else if negb (Z.land sensors INV_THREE_AXIS_PRESSURE =? 0)
          && negb (get_slave_descr (pd_pressure (pdata mldl_cfg)))
  then ret INV_ERROR_SERIAL_DEVICE_NOT_RECOGNIZED
  else
    (* DMP was off, and is turning on *)
    let* result :=
      (if negb (Z.land sensors INV_DMP_PROCESSOR =? 0)
          && (Z.land (requested_sensors mldl_cfg) INV_DMP_PROCESSOR =? 0)
       then
         let apply := state_eqb state INV_STATE_DMP_STARTED in
         let* hz := inv_mpu_get_sampling_rate_hz in
         let odr := C.to_long (hz * 1000) in
         let* result := inv_mpu_config_accel
           {| config_key := MPU_SLAVE_CONFIG_ODR_RESUME; config_len := 4;
              config_apply := apply; config_data := odr |} in
         check result (
         let odr := MPU_SLAVE_IRQ_TYPE_NONE in
         let* result := inv_mpu_config_accel
           {| config_key := MPU_SLAVE_CONFIG_IRQ_RESUME; config_len := 4;
              config_apply := apply; config_data := odr |} in
         check result (
         inv_init_fifo_hardare ;;;
         ret result))
       else ret result) in
    check result (
    let* s := get in
    let* result :=
      (match mode_change_func (obj s) with
       | Some func =>
           let* c := inv_get_dl_config in
           call_mode_change func (requested_sensors c) sensors
       | None => ret result
       end) in
    check result (
    (* Get the fifo rate before changing sensors so if we need to match it *)
    let* fifoRate := inv_get_fifo_rate in
    modify (with_cfg (set_requested_sensors sensors)) ;;;
    (* inv_dmp_start will turn the sensors on *)
    let* result :=
      (if state_eqb state INV_STATE_DMP_STARTED then
         let* result := inv_dl_start sensors in
         check result (
         let* result := inv_reset_motion in
         check result (
         inv_dl_stop (C.to_ulong (Z.lnot sensors))))
       else ret result) in
    check result (
    inv_set_fifo_rate fifoRate ;;;
    let* result :=
      (if (Z.land sensors INV_DMP_PROCESSOR =? 0)
          && negb (Z.land sensors INV_THREE_AXIS_ACCEL =? 0)
       then
         inv_mpu_config_accel
           {| config_key := MPU_SLAVE_CONFIG_IRQ_RESUME; config_len := 4;
              config_apply := state_eqb state INV_STATE_DMP_STARTED;
              config_data := MPU_SLAVE_IRQ_TYPE_DATA_READY |}
       else ret result) in
    check result (
    ret result)))).

End Library.

(** ** Definitions used by the statements *)

Definition identity_matrix : matrix := [1; 0; 0; 0; 1; 0; 0; 0; 1].

(** The result and the final state of a call, when it has one. *)
Definition result_of {W A} (o : outcome W A) : option A :=
  match o with Done a _ => Some a | Undef => None end.
Definition state_of {W A} (o : outcome W A) : option (mpl W) :=
  match o with Done _ s => Some s | Undef => None end.

(** The three [gyro_orient] entries of a row of mounting-matrix entries:
    each entry scaled by 2^30. *)
Definition gyro_orient_row (o0 o1 o2 : Z) : option (Z * Z * Z) :=
  g0 ← gyro_orient_entry o0;
  g1 ← gyro_orient_entry o1;
  g2 ← gyro_orient_entry o2;
  Some (g0, g1, g2).

(** The axis dominance of a row of mounting-matrix entries, as the
    calibration computes it. *)
Definition gyro_row_dominance (o0 o1 o2 : Z) : option (Z * Z) :=
  '(g0, g1, g2) ← gyro_orient_row o0 o1 o2;
  gyro_axis_dominance g0 g1 g2.

(** The axis dominance in the words of the design document: the entry of
    largest magnitude wins, a later entry replaces the current winner only
    when its magnitude is strictly larger, and the sign flag is set
    exactly when the winner is negative. *)
Definition dominant_axis_spec (o0 o1 o2 : Z) : Z * Z :=
  let '(axis, best) := (0, o0) in
  let '(axis, best) := if Z.abs best <? Z.abs o1 then (1, o1) else (axis, best) in
  let '(axis, best) := if Z.abs best <? Z.abs o2 then (2, o2) else (axis, best) in
  (axis, if best <? 0 then 1 else 0).

(** A row of a mounting matrix that maps one sensor axis: exactly one
    entry is 1 or -1, the others are 0. *)
Definition unit_row (o0 o1 o2 : Z) : Prop :=
  (Z.abs o0 = 1 /\ o1 = 0 /\ o2 = 0) \/
  (o0 = 0 /\ Z.abs o1 = 1 /\ o2 = 0) \/
  (o0 = 0 /\ o1 = 0 /\ Z.abs o2 = 1).

(** The registry holds the callbacks [cbs], in registration order, in its
    first slots. *)
Definition registered `{MplConstants} (cbs : list func_ptr)
  (reg : tMLXCallbackInterrupt) : Prop :=
  numInterruptProcesses reg = Z.of_nat (length cbs) /\
  length (processInterruptCb reg) = MAX_INTERRUPT_PROCESSES /\
  (length cbs <= MAX_INTERRUPT_PROCESSES)%nat /\
  take (length cbs) (processInterruptCb reg) = map Some cbs.

(** The Context and the world after the callbacks [cbs] have run in
    order, each one on what the previous one left. *)
Definition run_callbacks {W} `{Externals W} (cbs : list func_ptr)
  (o : inv_obj_t) (w : W) : inv_obj_t * W :=
  fold_left (fun ow func => ext_interrupt_cb func (fst ow) (snd ow)) cbs (o, w).

(** The state after the interrupt callbacks [cbs] have been called in
    order from state [s]. *)
Definition after_callbacks {W} `{Externals W} (cbs : list func_ptr)
  (s : mpl W) : mpl W :=
  {| st := st s;
     obj := fst (run_callbacks cbs (obj s) (world s));
     cfg := cfg s;
     mlxCallbackInterrupt := mlxCallbackInterrupt s;
     world := snd (run_callbacks cbs (obj s) (world s));
     trace := trace s ++ map EvInterruptCb cbs |}.

(** The conversions of a calibration matrix are defined: the mounting
    matrix has its nine entries and each scaled entry fits a [long]. *)
Definition cal_defined (scale : F.float) (orientation : matrix) : Prop :=
  forall kk : nat, (kk < 9)%nat ->
    exists o c, orientation !! kk = Some o /\
      F.to_long (F.mul (F.mul scale (F.of_Z o)) (F.of_Z (Z.shiftl 1 30))) = Some c.

(** No row of the matrix is all zero, so that every group of the
    orientation scalar indexes the three-entry opcode table. *)
Definition rows_nonzero (orientation : matrix) : Prop :=
  exists orient, inv_orientation_matrix_to_scalar orientation = Some orient /\
    (Z.land orient 3 < 3) /\
    (Z.land (Z.shiftr orient 3) 3 < 3) /\
    (Z.land (Z.shiftr orient 6) 3 < 3).

(** The states that differ at most in the four calibration matrices of
    the Context. *)
Definition cal_frame {W} (s s' : mpl W) : Prop :=
  st s' = st s /\ cfg s' = cfg s /\
  mlxCallbackInterrupt s' = mlxCallbackInterrupt s /\
  world s' = world s /\ trace s' = trace s /\
  gyro_sens (obj s') = gyro_sens (obj s) /\
  gyro_sf (obj s') = gyro_sf (obj s) /\
  accel_sens (obj s') = accel_sens (obj s) /\
  compass_sens (obj s') = compass_sens (obj s) /\
  motion_state (obj s') = motion_state (obj s) /\
  flags_motion_state_change (obj s') = flags_motion_state_change (obj s) /\
  no_motion_accel_time (obj s') = no_motion_accel_time (obj s) /\
  motion_duration (obj s') = motion_duration (obj s) /\
  mode_change_func (obj s') = mode_change_func (obj s).

(** The reads and conversions that [inv_apply_calibration] makes before
    it tests the state are defined: each configured mounting matrix has
    its nine entries and each sensitivity fits a [long]. *)
Definition apply_defined `{MplConstants} (c : mldl_cfg_t) : Prop :=
  is_Some (read_orientation (pd_orientation (pdata c))) /\
  (forall accel, cfg_accel c = Some accel ->
     is_Some (read_orientation (slave_orientation (pd_accel (pdata c)))) /\
     is_Some (F.to_long (F.mul (RANGE_FIXEDPOINT_TO_FLOAT (slave_range accel))
                               (F.of_Z 65536)))) /\
  (forall compass, cfg_compass c = Some compass ->
     is_Some (read_orientation (slave_orientation (pd_compass (pdata c)))) /\
     is_Some (F.to_long (F.mul (RANGE_FIXEDPOINT_TO_FLOAT (slave_range compass))
                               (F.of_Z 32768)))).

(** The sensitivities that [inv_apply_calibration] stores at lines
    592-601, from the ranges of the configured slaves: the accelerometer
    range times 65536, halved, and the compass range times 32768. A
    slave that is not configured leaves its sensitivity as it was. *)
Definition refreshed_accel_sens `{MplConstants} (c : mldl_cfg_t) (old : Z)
  : option Z :=
  match cfg_accel c with
  | Some accel =>
      v ← F.to_long (F.mul (RANGE_FIXEDPOINT_TO_FLOAT (slave_range accel))
                           (F.of_Z 65536));
      Some (Z.quot v 2)
  | None => Some old
  end.

Definition refreshed_compass_sens `{MplConstants} (c : mldl_cfg_t) (old : Z)
  : option Z :=
  match cfg_compass c with
  | Some compass =>
      F.to_long (F.mul (RANGE_FIXEDPOINT_TO_FLOAT (slave_range compass))
                       (F.of_Z 32768))
  | None => Some old
  end.

(** ** A simulated device, for evaluating the model *)

(** Opcode bytes: each name of dmpKey.h spells its value. *)
Definition hw_opcodes : DmpOpcodes := {|
  DINAC9 := 0xc9; DINA2C := 0x2c; DINACB := 0xcb;
  DINA36 := 0x36; DINA56 := 0x56; DINA76 := 0x76;
  DINA4C := 0x4c; DINACD := 0xcd; DINA6C := 0x6c;
  DINA26 := 0x26; DINA46 := 0x46; DINA66 := 0x66;
  DINAD8 := 0xd8; DINA0C := 0x0c |}.

(** The accelerometer axis bits and the group masks, with a range macro
    that adds the fraction in ten-thousandths to the mantissa. *)
Definition INV_X_ACCEL : Z := 0x10.
Definition INV_Y_ACCEL : Z := 0x20.
Definition INV_Z_ACCEL : Z := 0x40.

Definition hw_constants : MplConstants := {|
  INV_THREE_AXIS_ACCEL := 0x70;
  INV_THREE_AXIS_COMPASS := 0x380;
  INV_THREE_AXIS_PRESSURE := 0x1c00;
  INV_DMP_PROCESSOR := 0x8;
  INV_MOTION := 1;
  MPU_SLAVE_IRQ_TYPE_NONE := 0;
  MPU_SLAVE_IRQ_TYPE_DATA_READY := 1;
  MAX_INTERRUPT_PROCESSES := 5;
  RANGE_FIXEDPOINT_TO_FLOAT := fun r =>
    SFadd F.prec32 F.emax32 (F.of_Z (mantissa r))
          (F.div (F.of_Z (fraction r)) (F.of_Z 10000)) |}.

(** A device whose services answer from fixed fields. *)
Record sim_world : Type := {
  sim_memory : inv_error_t;
  sim_supported : bool;
  sim_fifo : inv_error_t;
  sim_aux1 : bool;
  sim_mpu : bool;
  sim_status : inv_error_t }.

Definition sim_clear (src : int_source) (w : sim_world) : sim_world :=
  {| sim_memory := sim_memory w; sim_supported := sim_supported w;
     sim_fifo := sim_fifo w;
     sim_aux1 := match src with INTSRC_AUX1 => false | _ => sim_aux1 w end;
     sim_mpu := match src with INTSRC_MPU => false | _ => sim_mpu w end;
     sim_status := sim_status w |}.

Definition sim_externals : Externals sim_world := {|
  ext_set_mpu_memory := fun _ _ _ w => (sim_memory w, w);
  ext_dmpkey_supported := fun _ w => sim_supported w;
  ext_read_and_process_fifo := fun n w => (sim_fifo w, n, w);
  ext_get_interrupt_trigger := fun src w =>
    match src with INTSRC_MPU => sim_mpu w | INTSRC_AUX1 => sim_aux1 w end;
  ext_clear_interrupt_trigger := sim_clear;
  ext_get_fifo_status := fun w => (sim_status w, w);
  ext_get_fifo_rate := fun _ => 5;
  ext_set_fifo_rate := fun _ w => w;
  ext_mpu_get_sampling_rate_hz := fun _ _ => 200;
  ext_mpu_config_accel := fun _ w => (INV_SUCCESS, w);
  ext_init_fifo_hardare := fun w => w;
  ext_dl_start := fun _ w => (INV_SUCCESS, w);
  ext_dl_stop := fun _ w => (INV_SUCCESS, w);
  ext_get_tick_count := fun _ => 0;
  ext_set_motion_state := fun _ o w => (o, w);
  ext_interrupt_cb := fun _ o w => (o, w);
  ext_mode_change_cb := fun _ _ _ w => (INV_SUCCESS, w) |}.

Definition sim_quiet : sim_world := {|
  sim_memory := INV_SUCCESS; sim_supported := true; sim_fifo := INV_SUCCESS;
  sim_aux1 := false; sim_mpu := false; sim_status := INV_SUCCESS |}.

Definition sim_interrupted : sim_world := {|
  sim_memory := INV_SUCCESS; sim_supported := true; sim_fifo := INV_SUCCESS;
  sim_aux1 := false; sim_mpu := true; sim_status := INV_SUCCESS |}.

(** A 2 g accelerometer and no compass, everything mounted straight. *)
Definition sim_accel : ext_slave_descr := {|
  slave_id := 1;
  slave_range := {| mantissa := 2; fraction := 0 |};
  slave_endian := 0 |}.

Definition sim_slave (present : bool) : ext_slave_platform_data := {|
  get_slave_descr := present; slave_orientation := identity_matrix |}.

Definition sim_cfg : mldl_cfg_t := {|
  requested_sensors := 0;
  full_scale := MPU_FS_2000DPS;
  gyro_sens_trim := 0;
  cfg_accel := Some sim_accel;
  cfg_compass := None;
  pdata := {| pd_orientation := identity_matrix;
              pd_accel := sim_slave true;
              pd_compass := sim_slave false;
              pd_pressure := sim_slave false |} |}.

(** The Context after [inv_init_ml]: zeroed, with the fields that the
    initialisation sets. *)
Definition sim_obj : inv_obj_t := {|
  gyro_sens := 0; gyro_sf := 0;
  gyro_cal := replicate 9 0; gyro_orient := replicate 9 0;
  accel_sens := 0; accel_cal := replicate 9 0;
  compass_sens := 322122560;
  compass_cal := [322122560; 0; 0; 0; 322122560; 0; 0; 0; 322122560];
  motion_state := 1; flags_motion_state_change := 0;
  no_motion_accel_time := 0; motion_duration := 1536;
  mode_change_func := None |}.

(** The registry with the given callbacks in its first slots. *)
Definition sim_registry (cbs : list func_ptr) : tMLXCallbackInterrupt := {|
  numInterruptProcesses := Z.of_nat (length cbs);
  processInterruptCb := take 5 (map Some cbs ++ replicate 5 None) |}.

Definition sim_state (state : inv_state) (cbs : list func_ptr) (w : sim_world)
  : mpl sim_world := {|
  st := state; obj := sim_obj; cfg := sim_cfg;
  mlxCallbackInterrupt := sim_registry cbs;
  world := w; trace := [] |}.

(** The simulated device with the DMP opened and the sensitivity of the
    2 g accelerometer in the Context, as apply-all leaves it. *)
Definition sim_calibrated (state : inv_state) : mpl sim_world :=
  with_obj (set_accel_sens 65536) (sim_state state [] sim_quiet).

(** The simulated device, DMP opened, with the gyroscope mounted by the
    matrix [m]. *)
Definition sim_mounted (m : matrix) : mpl sim_world :=
  with_cfg (fun c =>
    {| requested_sensors := requested_sensors c;
       full_scale := full_scale c;
       gyro_sens_trim := gyro_sens_trim c;
       cfg_accel := cfg_accel c;
       cfg_compass := cfg_compass c;
       pdata := {| pd_orientation := m;
                   pd_accel := pd_accel (pdata c);
                   pd_compass := pd_compass (pdata c);
                   pd_pressure := pd_pressure (pdata c) |} |})
    (sim_state INV_STATE_DMP_OPENED [] sim_quiet).

(** The smallest positive [float], 2^-149. *)
Definition float_min_subnormal : F.float := S754_finite false 1 (-149).

(** ** Mounting matrices *)

(** A mounting matrix: nine entries, each row mapping one sensor axis. *)
Definition unit_rows (m : matrix) : Prop :=
  exists a0 a1 a2 a3 a4 a5 a6 a7 a8,
    m = [a0; a1; a2; a3; a4; a5; a6; a7; a8] /\
    unit_row a0 a1 a2 /\ unit_row a3 a4 a5 /\ unit_row a6 a7 a8.

(** ** Call sequences *)

(** ** Runs of device writes *)

(** The outcome of a run of device writes: the writes made, in order, the
    result of the last one ([INV_SUCCESS] when none was made) and the
    outside world that the run leaves. *)
Record write_run (W : Type) : Type := {
  made : list (dmp_key * Z * list Z);
  last_result : inv_error_t;
  device_after : W }.
Arguments made {W}.
Arguments last_result {W}.
Arguments device_after {W}.

(** The run that makes the writes of a list in order, each on the world
    that the one before it left, and gives up right after the first
    write whose result is an error: that write is the last one made, and
    its result is the result of the run. *)
Fixpoint writes_until_failure {W} `{Externals W}
  (writes : list (dmp_key * Z * list Z)) (w : W) : write_run W :=
  match writes with
  | [] => {| made := []; last_result := INV_SUCCESS; device_after := w |}
  | (key, length, bytes) :: rest =>
      let rw := ext_set_mpu_memory key length bytes w in
      if is_error (fst rw)
      then {| made := [(key, length, bytes)]; last_result := fst rw;
              device_after := snd rw |}
      else
        let run := writes_until_failure rest (snd rw) in
        {| made := (key, length, bytes) :: made run;
           last_result := last_result run;
           device_after := device_after run |}
  end.

(** The four device writes of [inv_reset_motion] (ml.c, lines 760-786),
    in order, for the [motion_duration] that the Context holds. *)
Definition reset_motion_writes `{DmpOpcodes} (motion_duration : Z)
  : list (dmp_key * Z * list Z) :=
  [ (KEY_CFG_18, 3, [C.to_uchar (DINAD8 + 2); DINA0C; C.to_uchar (DINAD8 + 1)]);
    (KEY_D_1_106, 2, [C.to_uchar (Z.land (Z.shiftr motion_duration 8) 255);
                      C.to_uchar (Z.land motion_duration 255)]);
    (KEY_D_1_96, 8, [0; 0; 0; 0; 0; 0; 0; 0]);
    (KEY_D_0_96, 4, [64; 0; 0; 0]) ].

(** The calls of a complete [inv_reset_motion], in order, for the
    [motion_duration] that the Context holds. *)
Definition reset_motion_calls `{DmpOpcodes} `{MplConstants}
  (motion_duration : Z) : list event :=
  [ EvGetTickCount;
    EvSetMpuMemory KEY_CFG_18 3
      [C.to_uchar (DINAD8 + 2); DINA0C; C.to_uchar (DINAD8 + 1)];
    EvSetMpuMemory KEY_D_1_106 2
      [C.to_uchar (Z.land (Z.shiftr motion_duration 8) 255);
       C.to_uchar (Z.land motion_duration 255)];
    EvSetMpuMemory KEY_D_1_96 8 [0; 0; 0; 0; 0; 0; 0; 0];
    EvSetMpuMemory KEY_D_0_96 4 [64; 0; 0; 0];
    EvSetMotionState INV_MOTION ].


(** The simulated device with a FIFO whose read fails. *)
Definition sim_fifo_failed : sim_world := {|
  sim_memory := INV_SUCCESS; sim_supported := true;
  sim_fifo := INV_ERROR_OTHER 1;
  sim_aux1 := true; sim_mpu := true; sim_status := INV_SUCCESS |}.

(** The simulated device with a [full_scale] byte that the switch of
    [inv_apply_calibration] does not name. *)
Definition sim_unknown_full_scale (state : inv_state) : mpl sim_world :=
  with_cfg (fun c =>
    {| requested_sensors := requested_sensors c;
       full_scale := MPU_FS_unrecognized 7;
       gyro_sens_trim := gyro_sens_trim c;
       cfg_accel := cfg_accel c;
       cfg_compass := cfg_compass c;
       pdata := pdata c |})
    (sim_state state [] sim_quiet).

(** The opcodes that the accelerometer calibration derives from the code
    of a row: the axis opcode is entry [code & 3] of the three-entry
    table of line 418, the sign opcode has bit 0 set when bit 2 of the
    code is set (lines 437-446). *)
Definition accel_axis_opcode `{DmpOpcodes} (code : Z) : option Z :=
  [DINA4C; DINACD; DINA6C] !! Z.to_nat (group_axis code).
Definition accel_sign_opcode (base code : Z) : Z :=
  if group_sign code then C.to_uchar (Z.lor base 1) else base.

(** The device-memory writes of a complete accelerometer calibration. *)
Definition accel_calibration_writes `{DmpOpcodes} (reset : bool)
  (p0 p1 p2 b0 b1 b2 sf : Z) : list (dmp_key * Z * list Z) :=
  (if reset then [(KEY_D_1_152, 4, [0; 0; 0; 0])] else []) ++
  [ (KEY_FCFG_2, 3, [p0; p1; p2]);
    (KEY_FCFG_7, 3, [accel_sign_opcode DINA26 b0; accel_sign_opcode DINA46 b1;
                     accel_sign_opcode DINA66 b2]);
    (KEY_D_0_108, 2, [C.to_uchar (Z.land (Z.shiftr sf 8) 255);
                      C.to_uchar (Z.land sf 255)]) ].

(** The opcodes that the gyroscope calibration derives from the axis
    dominance of a row (lines 309-321): the axis opcode stored at
    [regs[tmpPtr]] and the sign opcode, bit 0 of which is set when
    [tmpSign] is. *)
Definition gyro_axis_opcode `{DmpOpcodes} (maxVal : Z) : Z :=
  if maxVal =? 0 then DINAC9 else if maxVal =? 1 then DINA2C else DINACB.
Definition gyro_sign_opcode (base tmpSign : Z) : Z :=
  if negb (tmpSign =? 0) then C.to_uchar (Z.lor base 1) else base.

(** The device-memory writes of a complete gyroscope calibration, from
    the dominance of the three rows and the two scale factors. *)
Definition gyro_calibration_writes `{DmpOpcodes} (d0 d1 d2 : Z * Z)
  (sf0 sf : Z) : list (dmp_key * Z * list Z) :=
  [ (KEY_FCFG_1, 3, [gyro_axis_opcode (fst d0); gyro_axis_opcode (fst d1);
                     gyro_axis_opcode (fst d2)]);
    (KEY_FCFG_3, 3, [gyro_sign_opcode DINA36 (snd d0);
                     gyro_sign_opcode DINA56 (snd d1);
                     gyro_sign_opcode DINA76 (snd d2)]);
    (KEY_D_0_104, 4, inv_int32_to_big8 sf0);
    (KEY_D_0_24, 4, inv_int32_to_big8 sf) ].

(** The four bytes that compass calibration writes for one entry of the
    mounting matrix (lines 527-532), and the writes of the whole matrix,
    one per key of [keyList]. *)
Definition compass_cell (o : Z) : list Z :=
  if o =? 1 then [64; 0; 0; 0]
  else if o =? -1 then [64 + 128; 0; 0; 0] else [0; 0; 0; 0].
Definition compass_calibration_writes (orientation : matrix)
  : list (dmp_key * Z * list Z) :=
  zip_with (fun key o => (key, 4, compass_cell o)) compass_keyList orientation.

(** The calls of a complete [inv_set_mpu_sensors], in order: the
    accelerometer set-up and the FIFO initialisation when the DMP
    processor is being turned on, the mode-change callback when one is
    registered, the FIFO rate read, then, on a started DMP only, the
    start of the requested sensors, the motion reset and the stop of the
    others, then the FIFO rate write and, for an accelerometer without
    the DMP processor, the data-ready interrupt set-up. *)
Definition set_mpu_sensors_calls `{DmpOpcodes} `{MplConstants}
  (sensors old : Z) (state : inv_state) (cb : option func_ptr)
  (hz rate motion_duration : Z) : list event :=
  (if negb (Z.land sensors INV_DMP_PROCESSOR =? 0)
      && (Z.land old INV_DMP_PROCESSOR =? 0)
   then [ EvGetSamplingRate;
          EvConfigAccel
            {| config_key := MPU_SLAVE_CONFIG_ODR_RESUME; config_len := 4;
               config_apply := state_eqb state INV_STATE_DMP_STARTED;
               config_data := C.to_long (hz * 1000) |};
          EvConfigAccel
            {| config_key := MPU_SLAVE_CONFIG_IRQ_RESUME; config_len := 4;
               config_apply := state_eqb state INV_STATE_DMP_STARTED;
               config_data := MPU_SLAVE_IRQ_TYPE_NONE |};
          EvInitFifoHardware ]
   else []) ++
  (match cb with
   | Some func => [EvModeChangeCb func old sensors]
   | None => []
   end) ++
  [EvGetFifoRate] ++
  (if state_eqb state INV_STATE_DMP_STARTED
   then [EvDlStart sensors] ++ reset_motion_calls motion_duration
        ++ [EvDlStop (C.to_ulong (Z.lnot sensors))]
   else []) ++
  [EvSetFifoRate rate] ++
  (if (Z.land sensors INV_DMP_PROCESSOR =? 0)
      && negb (Z.land sensors INV_THREE_AXIS_ACCEL =? 0)
   then [ EvConfigAccel
            {| config_key := MPU_SLAVE_CONFIG_IRQ_RESUME; config_len := 4;
               config_apply := state_eqb state INV_STATE_DMP_STARTED;
               config_data := MPU_SLAVE_IRQ_TYPE_DATA_READY |} ]
   else []).

(** ** The mode-change callback and the gyroscope query *)

Definition set_mode_change_func (func : option func_ptr) (o : inv_obj_t)
  : inv_obj_t :=
  {| gyro_sens := gyro_sens o; gyro_sf := gyro_sf o;
     gyro_cal := gyro_cal o; gyro_orient := gyro_orient o;
     accel_sens := accel_sens o; accel_cal := accel_cal o;
     compass_sens := compass_sens o; compass_cal := compass_cal o;
     motion_state := motion_state o;
     flags_motion_state_change := flags_motion_state_change o;
     no_motion_accel_time := no_motion_accel_time o;
     motion_duration := motion_duration o;
     mode_change_func := func |}.

(** [inv_set_mode_change(mode_change_func)] (ml.c, lines 1271-1275); a
    null pointer is [None]. *)
Definition inv_set_mode_change {W} (func : option func_ptr) : M W unit :=
  modify (with_obj (set_mode_change_func func)).

(** The gyroscope axis bits of ml.h. *)
Class GyroAxes : Type := {
  INV_X_GYRO : Z;
  INV_Y_GYRO : Z;
  INV_Z_GYRO : Z }.

(** [inv_get_gyro_present()] (ml.c, lines 1131-1135): the masked
    [unsigned long] is returned as an [int]. *)
Definition inv_get_gyro_present {W} `{GyroAxes} : M W Z :=
  bind inv_get_dl_config (fun c =>
  ret (C.to_int (Z.land (requested_sensors c)
                        (Z.lor (Z.lor INV_X_GYRO INV_Y_GYRO) INV_Z_GYRO)))).

(** The gyroscope axis bits of the simulated device, and a device whose
    mode-change callbacks refuse every change. *)
Definition hw_gyro_axes : GyroAxes := {|
  INV_X_GYRO := 0x1; INV_Y_GYRO := 0x2; INV_Z_GYRO := 0x4 |}.

Definition sim_refusing : Externals sim_world := {|
  ext_set_mpu_memory := fun _ _ _ w => (sim_memory w, w);
  ext_dmpkey_supported := fun _ w => sim_supported w;
  ext_read_and_process_fifo := fun n w => (sim_fifo w, n, w);
  ext_get_interrupt_trigger := fun src w =>
    match src with INTSRC_MPU => sim_mpu w | INTSRC_AUX1 => sim_aux1 w end;
  ext_clear_interrupt_trigger := sim_clear;
  ext_get_fifo_status := fun w => (sim_status w, w);
  ext_get_fifo_rate := fun _ => 5;
  ext_set_fifo_rate := fun _ w => w;
  ext_mpu_get_sampling_rate_hz := fun _ _ => 200;
  ext_mpu_config_accel := fun _ w => (INV_SUCCESS, w);
  ext_init_fifo_hardare := fun w => w;
  ext_dl_start := fun _ w => (INV_SUCCESS, w);
  ext_dl_stop := fun _ w => (INV_SUCCESS, w);
  ext_get_tick_count := fun _ => 0;
  ext_set_motion_state := fun _ o w => (o, w);
  ext_interrupt_cb := fun _ o w => (o, w);
  ext_mode_change_cb := fun _ _ _ w => (INV_ERROR_OTHER 38, w) |}.

(** * The control operations of ml.c *)

(** The serial link, the interrupt enables, the endian set-up and the
    initialisation use globals and services beyond those above. These
    globals are kept in a second record, which the program state carries
    in its [world] field together with what lies outside the library and
    the log of the calls that these operations make. *)

(** The device-memory keys of these operations. *)
Inductive ctl_key : Type := KEY_CFG_6 | KEY_CFG_7 | KEY_D_1_236.

(** One entry per call that leaves ml.c from these operations. *)
Inductive call : Type :=
| CallStateTransition (newState : inv_state)
| CallSerialOpen (port : Z)
| CallSerialClose (handle : Z)
| CallGetDlCfgInt (mask : Z)
| CallSetMpuMemory (key : ctl_key) (length : Z) (buffer : list Z)
| CallCompassReadScale.

(** [g_mlsl_handle], [inv_obj.interrupt_sources] and the field [bus] of
    the accelerometer's platform data. The handle and the port are
    addresses, passed on as they are. The interrupt sources are an
    unsigned field whose type holds the two masks the code combines into
    it, so that no update of it truncates. *)
Record globals : Type := {
  g_mlsl_handle : Z;
  interrupt_sources : Z;
  accel_bus : Z }.

Record ctl (W : Type) : Type := {
  globals_of : globals;
  outside : W;
  calls : list call }.

Arguments globals_of {W} _.
Arguments outside {W} _.
Arguments calls {W} _.

(** Constants of mldl.h, ml.h, dmpKey.h and mpu.h that these operations
    name. *)
Class ControlConstants : Type := {
  BIT_DMP_INT_EN : Z;
  INV_INT_MOTION : Z;
  INV_INT_FIFO : Z;
  DINAFE : Z;
  EXT_SLAVE_BUS_SECONDARY : Z;
  EXT_SLAVE_LITTLE_ENDIAN : Z;
  EXT_SLAVE_BIG_ENDIAN : Z }.

(** The services these operations call, over the state [W] of what lies
    outside the library. The state transition of mlstates.c is given the
    current state and answers with the state it leaves; the serial open
    is given the handle variable and answers with what it holds
    afterwards. *)
Class ControlServices (W : Type) : Type := {
  svc_state_transition : inv_state -> inv_state -> W -> inv_error_t * inv_state * W;
  svc_serial_open : Z -> Z -> W -> inv_error_t * Z * W;
  svc_serial_close : Z -> W -> inv_error_t * W;
  svc_get_dl_cfg_int : Z -> W -> inv_error_t * W;
  svc_set_mpu_memory : ctl_key -> Z -> list Z -> W -> inv_error_t * W;
  svc_compass_read_scale : W -> inv_error_t * W }.

(** Field updates. *)
Definition with_st {W} (v : inv_state) (s : mpl W) : mpl W :=
  {| st := v; obj := obj s; cfg := cfg s;
     mlxCallbackInterrupt := mlxCallbackInterrupt s;
     world := world s; trace := trace s |}.

Definition with_registry {W}
  (f : tMLXCallbackInterrupt -> tMLXCallbackInterrupt) (s : mpl W) : mpl W :=
  {| st := st s; obj := obj s; cfg := cfg s;
     mlxCallbackInterrupt := f (mlxCallbackInterrupt s);
     world := world s; trace := trace s |}.

Definition with_world {W} (f : W -> W) (s : mpl W) : mpl W :=
  {| st := st s; obj := obj s; cfg := cfg s;
     mlxCallbackInterrupt := mlxCallbackInterrupt s;
     world := f (world s); trace := trace s |}.

Definition with_globals {W} (f : globals -> globals) (s : mpl (ctl W))
  : mpl (ctl W) :=
  with_world (fun c => {| globals_of := f (globals_of c);
                          outside := outside c; calls := calls c |}) s.

(** A call out of ml.c: the outside moves on and the call is logged. *)
Definition logged {W} (c : call) (w : W) (s : mpl (ctl W)) : mpl (ctl W) :=
  with_world (fun x => {| globals_of := globals_of x;
                          outside := w; calls := calls x ++ [c] |}) s.

Definition set_handle (v : Z) (g : globals) : globals :=
  {| g_mlsl_handle := v; interrupt_sources := interrupt_sources g;
     accel_bus := accel_bus g |}.

Definition set_interrupt_sources (v : Z) (g : globals) : globals :=
  {| g_mlsl_handle := g_mlsl_handle g; interrupt_sources := v;
     accel_bus := accel_bus g |}.

Definition set_motion_duration (v : Z) (o : inv_obj_t) : inv_obj_t :=
  {| gyro_sens := gyro_sens o; gyro_sf := gyro_sf o;
     gyro_cal := gyro_cal o; gyro_orient := gyro_orient o;
     accel_sens := accel_sens o; accel_cal := accel_cal o;
     compass_sens := compass_sens o; compass_cal := compass_cal o;
     motion_state := motion_state o;
     flags_motion_state_change := flags_motion_state_change o;
     no_motion_accel_time := no_motion_accel_time o;
     motion_duration := v;
     mode_change_func := mode_change_func o |}.

Section ControlCalls.

Context {W : Type} `{ControlServices W}.

Local Open Scope mpl_scope.

Definition inv_state_transition (newState : inv_state)
  : M (ctl W) inv_error_t :=
  fun s => let r := svc_state_transition newState (st s) (outside (world s)) in
           Done (fst (fst r))
                (with_st (snd (fst r))
                   (logged (CallStateTransition newState) (snd r) s)).

(** [inv_serial_open(port, &g_mlsl_handle)] *)
Definition inv_serial_open (port : Z) : M (ctl W) inv_error_t :=
  fun s => let r := svc_serial_open port (g_mlsl_handle (globals_of (world s)))
                      (outside (world s)) in
           Done (fst (fst r))
                (with_globals (set_handle (snd (fst r)))
                   (logged (CallSerialOpen port) (snd r) s)).

Definition inv_serial_close (handle : Z) : M (ctl W) inv_error_t :=
  fun s => let r := svc_serial_close handle (outside (world s)) in
           Done (fst r) (logged (CallSerialClose handle) (snd r) s).

Definition inv_get_dl_cfg_int (mask : Z) : M (ctl W) inv_error_t :=
  fun s => let r := svc_get_dl_cfg_int mask (outside (world s)) in
           Done (fst r) (logged (CallGetDlCfgInt mask) (snd r) s).

(** [inv_set_mpu_memory(key, length, buffer)] for the keys of these
    operations; reading past the end of the array is undefined. *)
Definition inv_set_mpu_memory' (key : ctl_key) (length : Z) (buffer : list Z)
  : M (ctl W) inv_error_t :=
  fun s =>
    let n := Z.to_nat length in
    if (n <=? List.length buffer)%nat then
      let bytes := take n buffer in
      let r := svc_set_mpu_memory key length bytes (outside (world s)) in
      Done (fst r) (logged (CallSetMpuMemory key length bytes) (snd r) s)
    else Undef.

Definition inv_compass_read_scale : M (ctl W) inv_error_t :=
  fun s => let r := svc_compass_read_scale (outside (world s)) in
           Done (fst r) (logged CallCompassReadScale (snd r) s).

End ControlCalls.

Section ControlLibrary.

Context {W : Type} `{DmpOpcodes} `{MplConstants} `{ControlConstants}
        `{ControlServices W} `{Externals (ctl W)}.

Local Open Scope mpl_scope.

(** ** The serial link (ml.c, lines 161-217) *)

Definition inv_serial_start (port : Z) : M (ctl W) inv_error_t :=
  let* state := inv_get_state in
  if negb (state_ltb state INV_STATE_SERIAL_OPENED)
  then ret INV_SUCCESS
  else
    let* result := inv_state_transition INV_STATE_SERIAL_OPENED in
    check result (
    let* result := inv_serial_open port in
    (if is_error result
     then let* _ := inv_state_transition INV_STATE_SERIAL_CLOSED in ret tt
     else ret tt) ;;;
    ret result).

Definition inv_serial_stop : M (ctl W) inv_error_t :=
  let* state := inv_get_state in
  if state_eqb state INV_STATE_SERIAL_CLOSED
  then ret INV_SUCCESS
  else
    (* a failed transition is logged and nothing else *)
    let* result := inv_state_transition INV_STATE_SERIAL_CLOSED in
    let* s := get in
    let* result := inv_serial_close (g_mlsl_handle (globals_of (world s))) in
    ret result.

Definition inv_get_serial_handle : M (ctl W) Z :=
  let* s := get in
  ret (g_mlsl_handle (globals_of (world s))).

(** ** Accelerometer endianness (ml.c, lines 631-657) *)

Definition inv_apply_endian_accel : M (ctl W) inv_error_t :=
  let regs : list Z := [0; 0; 0; 0] in
  let* mldl_cfg := inv_get_dl_config in
  let* accel := defined (cfg_accel mldl_cfg) in
  let endian := slave_endian accel in
  let* s := get in
  let endian :=
    if negb (accel_bus (globals_of (world s)) =? EXT_SLAVE_BUS_SECONDARY)
    then EXT_SLAVE_BIG_ENDIAN else endian in
  let regs :=
    if endian =? EXT_SLAVE_LITTLE_ENDIAN
    then <[3%nat := 0]> (<[2%nat := 0]> (<[1%nat := 64]> (<[0%nat := 0]> regs)))
    else <[3%nat := 0]> (<[2%nat := 64]> (<[1%nat := 0]> (<[0%nat := 0]> regs))) in
  inv_set_mpu_memory' KEY_D_1_236 4 regs.

(** ** Initialisation (ml.c, lines 664-731) *)

(** The fields of the Context and the globals modelled here, as the two
    [memset] calls and the assignments leave them; the other assignments
    of the function go to fields that no modelled function reads. The
    scale read from the compass goes to one of those. *)
Definition inv_init_ml : M (ctl W) unit :=
  modify (with_obj (fun o =>
    {| gyro_sens := 0; gyro_sf := 0;
       gyro_cal := map (fun _ => 0) (gyro_cal o);
       gyro_orient := map (fun _ => 0) (gyro_orient o);
       accel_sens := 0; accel_cal := map (fun _ => 0) (accel_cal o);
       compass_sens := 0; compass_cal := map (fun _ => 0) (compass_cal o);
       motion_state := 0; flags_motion_state_change := 0;
       no_motion_accel_time := 0; motion_duration := 0;
       mode_change_func := None |})) ;;;
  modify (with_globals (set_interrupt_sources 0)) ;;;
  modify (with_registry (fun r =>
    {| numInterruptProcesses := 0;
       processInterruptCb := map (fun _ => None) (processInterruptCb r) |})) ;;;
  modify (with_obj (set_motion_duration 1536)) ;;;
  modify (with_obj (fun o =>
    set_motion INV_MOTION (flags_motion_state_change o)
               (no_motion_accel_time o) o)) ;;;
  let* _ := inv_get_tick_count in
  modify (with_obj (set_compass_cal 0 322122560)) ;;;
  modify (with_obj (set_compass_cal 4 322122560)) ;;;
  modify (with_obj (set_compass_cal 8 322122560)) ;;;
  modify (with_obj (set_compass_sens 322122560)) ;;;
  let* _ := inv_compass_read_scale in
  ret tt.

(** ** Interrupt enables (ml.c, lines 862-947) *)

Definition inv_set_motion_interrupt (on : Z) : M (ctl W) inv_error_t :=
  let regs : list Z := [0; 0] in
  let* state := inv_get_state in
  if state_ltb state INV_STATE_DMP_OPENED
  then ret INV_ERROR_SM_IMPROPER_STATE
  else
    let* result :=
      (if negb (on =? 0) then
         let* result := inv_get_dl_cfg_int BIT_DMP_INT_EN in
         check result (
         modify (with_globals (fun g =>
           set_interrupt_sources
             (Z.lor (interrupt_sources g) INV_INT_MOTION) g)) ;;;
         ret result)
       else
         modify (with_globals (fun g =>
           set_interrupt_sources
             (Z.land (interrupt_sources g) (Z.lnot INV_INT_MOTION)) g)) ;;;
         let* s := get in
         if interrupt_sources (globals_of (world s)) =? 0 then
           let* result := inv_get_dl_cfg_int 0 in
           check result (ret result)
         else ret INV_SUCCESS) in
    check result (
    let regs :=
      if negb (on =? 0) then <[0%nat := DINAFE]> regs
      else <[0%nat := DINAD8]> regs in
    let* result := inv_set_mpu_memory' KEY_CFG_7 1 regs in
    check result (
    ret result)).

Definition inv_set_fifo_interrupt (on : Z) : M (ctl W) inv_error_t :=
  let regs : list Z := [0; 0] in
  let* state := inv_get_state in
  if state_ltb state INV_STATE_DMP_OPENED
  then ret INV_ERROR_SM_IMPROPER_STATE
  else
    let* result :=
      (if negb (on =? 0) then
         let* result := inv_get_dl_cfg_int BIT_DMP_INT_EN in
         check result (
         modify (with_globals (fun g =>
           set_interrupt_sources
             (Z.lor (interrupt_sources g) INV_INT_FIFO) g)) ;;;
         ret result)
       else
         modify (with_globals (fun g =>
           set_interrupt_sources
             (Z.land (interrupt_sources g) (Z.lnot INV_INT_FIFO)) g)) ;;;
         let* s := get in
         if interrupt_sources (globals_of (world s)) =? 0 then
           let* result := inv_get_dl_cfg_int 0 in
           check result (ret result)
         else ret INV_SUCCESS) in
    check result (
    let regs :=
      if negb (on =? 0) then <[0%nat := DINAFE]> regs
      else <[0%nat := DINAD8]> regs in
    let* result := inv_set_mpu_memory' KEY_CFG_6 1 regs in
    check result (
    ret result)).

End ControlLibrary.

(** ** A simulated outside for the control operations *)

(** Values for evaluation: one bit per interrupt source, the opcode as
    its name spells it. *)
Definition hw_control : ControlConstants := {|
  BIT_DMP_INT_EN := 0x2;
  INV_INT_MOTION := 0x1;
  INV_INT_FIFO := 0x2;
  DINAFE := 0xfe;
  EXT_SLAVE_BUS_SECONDARY := 1;
  EXT_SLAVE_LITTLE_ENDIAN := 0;
  EXT_SLAVE_BIG_ENDIAN := 1 |}.

(** Services that succeed, apart from the opening of port 0: a state
    transition reaches its target and an opened port gives the handle
    1000 more than the port. *)
Definition sim_control : ControlServices unit := {|
  svc_state_transition := fun target _ w => (INV_SUCCESS, target, w);
  svc_serial_open := fun port handle w =>
    if port =? 0 then (INV_ERROR_OTHER 2, handle, w)
    else (INV_SUCCESS, port + 1000, w);
  svc_serial_close := fun _ w => (INV_SUCCESS, w);
  svc_get_dl_cfg_int := fun _ w => (INV_SUCCESS, w);
  svc_set_mpu_memory := fun _ _ _ w => (INV_SUCCESS, w);
  svc_compass_read_scale := fun w => (INV_SUCCESS, w) |}.

Definition sim_globals : globals := {|
  g_mlsl_handle := 0; interrupt_sources := 0; accel_bus := 1 |}.

Definition sim_ctl (state : inv_state) (g : globals) : mpl (ctl unit) := {|
  st := state; obj := sim_obj; cfg := sim_cfg;
  mlxCallbackInterrupt := sim_registry [];
  world := {| globals_of := g; outside := tt; calls := [] |};
  trace := [] |}.

(** The services of the first part over this state: they answer from
    constants and leave the globals alone. *)
Definition sim_ctl_externals : Externals (ctl unit) := {|
  ext_set_mpu_memory := fun _ _ _ w => (INV_SUCCESS, w);
  ext_dmpkey_supported := fun _ _ => true;
  ext_read_and_process_fifo := fun n w => (INV_SUCCESS, n, w);
  ext_get_interrupt_trigger := fun _ _ => false;
  ext_clear_interrupt_trigger := fun _ w => w;
  ext_get_fifo_status := fun w => (INV_SUCCESS, w);
  ext_get_fifo_rate := fun _ => 5;
  ext_set_fifo_rate := fun _ w => w;
  ext_mpu_get_sampling_rate_hz := fun _ _ => 200;
  ext_mpu_config_accel := fun _ w => (INV_SUCCESS, w);
  ext_init_fifo_hardare := fun w => w;
  ext_dl_start := fun _ w => (INV_SUCCESS, w);
  ext_dl_stop := fun _ w => (INV_SUCCESS, w);
  ext_get_tick_count := fun _ => 0;
  ext_set_motion_state := fun _ o w => (o, w);
  ext_interrupt_cb := fun _ o w => (o, w);
  ext_mode_change_cb := fun _ _ _ w => (INV_SUCCESS, w) |}.

(** * Properties *)

(** ** Orientation scalar *)

Lemma inv_row_2_scale_cases (a b c : Z) :
  exists v, inv_row_2_scale [a; b; c] = Some v /\
            In v [0; 1; 2; 4; 5; 6; 7].
Proof.
  unfold inv_row_2_scale; simpl.
  destruct (0 <? a); [eexists; split; [reflexivity | simpl; tauto] |].
  destruct (a <? 0); [eexists; split; [reflexivity | simpl; tauto] |].
  destruct (0 <? b); [eexists; split; [reflexivity | simpl; tauto] |].
  destruct (b <? 0); [eexists; split; [reflexivity | simpl; tauto] |].
  destruct (0 <? c); [eexists; split; [reflexivity | simpl; tauto] |].
  destruct (c <? 0); eexists; (split; [reflexivity | simpl; tauto]).
Qed.

Lemma inv_row_2_scale_zero : inv_row_2_scale [0; 0; 0] = Some 7.
Proof. reflexivity. Qed.

(** The three groups of a packed scalar are the three row codes. *)
Lemma scalar_group_pack (b0 b1 b2 : Z) :
  In b0 [0; 1; 2; 4; 5; 6; 7] ->
  In b1 [0; 1; 2; 4; 5; 6; 7] ->
  In b2 [0; 1; 2; 4; 5; 6; 7] ->
  let orient :=
    C.to_ushort (Z.lor (C.to_ushort (Z.lor (C.to_ushort b0) (Z.shiftl b1 3)))
                       (Z.shiftl b2 6)) in
  scalar_group orient 0 = b0 /\
  scalar_group orient 1 = b1 /\
  scalar_group orient 2 = b2.
Proof.
  simpl In. intros H0 H1 H2.
  repeat match goal with
         | H : _ \/ _ |- _ => destruct H
         | H : False |- _ => destruct H
         end; subst; vm_compute; auto.
Qed.

(** The scalar of a nine-entry matrix exists and its groups are the codes
    of the rows. *)
Lemma orientation_scalar_groups (a0 a1 a2 a3 a4 a5 a6 a7 a8 : Z) :
  exists orient b0 b1 b2,
    inv_orientation_matrix_to_scalar [a0; a1; a2; a3; a4; a5; a6; a7; a8]
      = Some orient /\
    inv_row_2_scale [a0; a1; a2] = Some b0 /\
    inv_row_2_scale [a3; a4; a5] = Some b1 /\
    inv_row_2_scale [a6; a7; a8] = Some b2 /\
    scalar_group orient 0 = b0 /\
    scalar_group orient 1 = b1 /\
    scalar_group orient 2 = b2.
Proof.
  destruct (inv_row_2_scale_cases a0 a1 a2) as (b0 & E0 & I0).
  destruct (inv_row_2_scale_cases a3 a4 a5) as (b1 & E1 & I1).
  destruct (inv_row_2_scale_cases a6 a7 a8) as (b2 & E2 & I2).
  exists (C.to_ushort (Z.lor (C.to_ushort (Z.lor (C.to_ushort b0)
                     (Z.shiftl b1 3))) (Z.shiftl b2 6))), b0, b1, b2.
  split.
  - unfold inv_orientation_matrix_to_scalar.
    assert (R0 : inv_row_2_scale [a0; a1; a2; a3; a4; a5; a6; a7; a8]
                 = inv_row_2_scale [a0; a1; a2]) by reflexivity.
    assert (R1 : inv_row_2_scale (drop 3 [a0; a1; a2; a3; a4; a5; a6; a7; a8])
                 = inv_row_2_scale [a3; a4; a5]) by reflexivity.
    assert (R2 : inv_row_2_scale (drop 6 [a0; a1; a2; a3; a4; a5; a6; a7; a8])
                 = inv_row_2_scale [a6; a7; a8]) by reflexivity.
    rewrite R0, R1, R2, E0, E1, E2. reflexivity.
  - repeat split; try assumption; apply (scalar_group_pack b0 b1 b2 I0 I1 I2).
Qed.

(** C2 (counterexample): the identity matrix does not encode to the
    orientation scalar 0. *)
Lemma C2_identity_scalar_not_zero :
  inv_orientation_matrix_to_scalar identity_matrix <> Some 0.
Proof. vm_compute. discriminate. Qed.

(** C2 (amended): the identity matrix {1,0,0,0,1,0,0,0,1} encodes to the
    orientation scalar 136, binary 010_001_000: group 0 for the first
    row, group 1 for the second and group 2 for the third. *)
Theorem C2_identity_scalar :
  inv_orientation_matrix_to_scalar identity_matrix = Some 136 /\
  scalar_group 136 0 = 0 /\ scalar_group 136 1 = 1 /\ scalar_group 136 2 = 2.
Proof. vm_compute. auto. Qed.

(** ** All-zero rows *)

(** C3 (counterexample): for the all-zero row the gyroscope encoding does
    not select axis-index 2, and the accelerometer group is not the code
    of axis 2 without sign. *)
Lemma C3_zero_row_not_axis_2 :
  gyro_row_dominance 0 0 0 <> Some (2, 0) /\
  inv_row_2_scale [0; 0; 0] <> Some 2.
Proof. split; vm_compute; discriminate. Qed.

(** C3 (amended): for every row of a mounting matrix whose three entries
    are all zero, the gyroscope axis-dominance encoding selects axis-index
    0 with no sign flag, and the accelerometer 3-bit group of that row is
    7, the error code: its axis bits are 3, outside the three-entry opcode
    table, and its sign bit is set. *)
Theorem C3_zero_row (mtx : matrix) (r : nat) :
  length mtx = 9%nat ->
  (r < 3)%nat ->
  (forall k : nat, (k < 3)%nat -> mtx !! (3 * r + k)%nat = Some 0) ->
  (exists o0 o1 o2,
      mtx !! (3 * r)%nat = Some o0 /\
      mtx !! (3 * r + 1)%nat = Some o1 /\
      mtx !! (3 * r + 2)%nat = Some o2 /\
      gyro_row_dominance o0 o1 o2 = Some (0, 0)) /\
  (exists orient,
      inv_orientation_matrix_to_scalar mtx = Some orient /\
      scalar_group orient (Z.of_nat r) = 7 /\
      group_axis (scalar_group orient (Z.of_nat r)) = 3 /\
      group_sign (scalar_group orient (Z.of_nat r)) = true).
Proof.
  intros Hlen Hr Hzero.
  pose proof (Hzero 0%nat ltac:(lia)) as Z0.
  pose proof (Hzero 1%nat ltac:(lia)) as Z1.
  pose proof (Hzero 2%nat ltac:(lia)) as Z2.
  replace (3 * r + 0)%nat with (3 * r)%nat in Z0 by lia.
  split.
  - exists 0, 0, 0. repeat split; assumption.
  - do 10 (destruct mtx as [| ? mtx]; try discriminate Hlen).
    destruct (orientation_scalar_groups z z0 z1 z2 z3 z4 z5 z6 z7)
      as (orient & b0 & b1 & b2 & E & E0 & E1 & E2 & G0 & G1 & G2).
    exists orient. split; [exact E |].
    assert (Hcase : r = 0%nat \/ r = 1%nat \/ r = 2%nat) by lia.
    destruct Hcase as [-> | [-> | ->]]; simpl in Z0, Z1, Z2;
      injection Z0 as ->; injection Z1 as ->; injection Z2 as ->;
      rewrite inv_row_2_scale_zero in *.
    + injection E0 as <-. change (Z.of_nat 0) with 0. rewrite G0. repeat split.
    + injection E1 as <-. change (Z.of_nat 1) with 1. rewrite G1. repeat split.
    + injection E2 as <-. change (Z.of_nat 2) with 2. rewrite G2. repeat split.
Qed.

Lemma C3_zero_row_witness :
  exists orient,
    inv_orientation_matrix_to_scalar [1; 0; 0; 0; 0; 0; 0; 0; 1] = Some orient /\
    scalar_group orient 1 = 7.
Proof.
  destruct (C3_zero_row [1; 0; 0; 0; 0; 0; 0; 0; 1] 1) as [_ (orient & E & G & _)].
  - reflexivity.
  - lia.
  - intros k Hk.
    assert (Hcase : k = 0%nat \/ k = 1%nat \/ k = 2%nat) by lia.
    destruct Hcase as [-> | [-> | ->]]; reflexivity.
  - exists orient. split; [exact E | exact G].
Defined.

(** ** Axis dominance of the gyroscope *)

(** On a row that maps one sensor axis the selection is the one the
    design document describes. *)
Lemma gyro_dominance_unit_row (o0 o1 o2 : Z) :
  unit_row o0 o1 o2 ->
  gyro_row_dominance o0 o1 o2 = Some (dominant_axis_spec o0 o1 o2).
Proof.
  unfold unit_row. intros Hrow.
  assert (Hcases :
    (o0 = 1 \/ o0 = -1) /\ o1 = 0 /\ o2 = 0 \/
    o0 = 0 /\ (o1 = 1 \/ o1 = -1) /\ o2 = 0 \/
    o0 = 0 /\ o1 = 0 /\ (o2 = 1 \/ o2 = -1)) by lia.
  clear Hrow.
  destruct Hcases as [([-> | ->] & -> & ->) | [(-> & [-> | ->] & ->)
                     | (-> & -> & [-> | ->])]]; reflexivity.
Qed.

(** C4 (the code at the failing input): on the row (1, 0, 1) the code
    selects axis-index 2, the third entry having been compared with the
    second one only, where the entry of largest magnitude with ties kept
    at the lower index is axis-index 0. Apply-all on a device mounted by
    {1,0,1, 0,1,0, 0,0,1} therefore writes the opcode of axis 2 (0xcb) for
    the first row to KEY_FCFG_1, not that of axis 0 (0xc9). *)
Theorem C4_gyro_row_tie :
  gyro_row_dominance 1 0 1 = Some (2, 0) /\
  dominant_axis_spec 1 0 1 = (0, 0) /\
  option_map (fun s => head (trace s))
    (state_of (@inv_apply_calibration sim_world hw_opcodes hw_constants
                 sim_externals (sim_mounted [1; 0; 1; 0; 1; 0; 0; 0; 1])))
  = Some (Some (EvSetMpuMemory KEY_FCFG_1 3 [0xcb; 0x2c; 0xcb])).
Proof. split; [| split]; vm_compute; reflexivity. Qed.

(** ** Scale factors *)

Lemma wrap_signed_small (w z : Z) :
  0 < w -> - 2 ^ (w - 1) <= z < 2 ^ (w - 1) -> C.wrap_signed w z = z.
Proof.
  intros Hw Hz. unfold C.wrap_signed.
  assert (E : 2 ^ w = 2 * 2 ^ (w - 1)).
  { replace w with (Z.succ (w - 1)) at 1 by lia. apply Z.pow_succ_r. lia. }
  rewrite Z.mod_small; lia.
Qed.

(** No sensitivity makes a scale factor divide by zero. *)
Lemma scale_factors_defined (gyro_sens accel_sens : Z) :
  is_Some (gyro_sf_of gyro_sens) /\
  is_Some (gyro_recip_sf gyro_sens) /\
  is_Some (accel_sf_of accel_sens).
Proof.
  unfold gyro_sf_of, gyro_recip_sf, accel_sf_of, C.div; simpl.
  repeat split.
  - eexists; reflexivity.
  - destruct (gyro_sens =? 0); simpl; eexists; reflexivity.
  - destruct (accel_sens =? 0); simpl; eexists; reflexivity.
Qed.

(** C5 (counterexample): the reciprocal factor of the sensitivity 1 does
    not fit the 32-bit [sf], and for a negative sensitivity the quotients
    are truncated toward zero, not floored. *)
Lemma C5_floor_fails :
  gyro_recip_sf 1 <> Some (23832619764371 / 1) /\
  gyro_sf_of (-1) <> Some (-1 * 767603923 / 2 ^ 30) /\
  accel_sf_of (-3) <> Some (2 ^ 30 / -3).
Proof. repeat split; vm_compute; discriminate. Qed.

(** C5 (amended): for a non-negative sensitivity the gyroscope
    calibration computes gyro_sf = floor(gyro_sens * 767603923 / 2^30)
    with a 64-bit intermediate; the second factor is 0 when gyro_sens = 0
    and floor(23832619764371 / gyro_sens) when gyro_sens >= 11098, the
    sensitivities for which the quotient fits the 32-bit [sf]; the
    accelerometer factor is 0 when accel_sens = 0 and
    floor(2^30 / accel_sens) when accel_sens > 0; no sensitivity at all
    makes any of the three divide by zero. *)
Theorem C5_scale_factors (gyro_sens accel_sens : Z) :
  0 <= gyro_sens <= C.LONG_MAX ->
  0 <= accel_sens <= C.LONG_MAX ->
  gyro_sf_of gyro_sens = Some (gyro_sens * 767603923 / 2 ^ 30) /\
  (gyro_sens = 0 -> gyro_recip_sf gyro_sens = Some 0) /\
  (11098 <= gyro_sens ->
   gyro_recip_sf gyro_sens = Some (23832619764371 / gyro_sens)) /\
  (accel_sens = 0 -> accel_sf_of accel_sens = Some 0) /\
  (0 < accel_sens -> accel_sf_of accel_sens = Some (2 ^ 30 / accel_sens)) /\
  (forall g a : Z,
      is_Some (gyro_sf_of g) /\ is_Some (gyro_recip_sf g) /\
      is_Some (accel_sf_of a)).
Proof.
  unfold C.LONG_MAX. intros Hg Ha.
  refine (conj _ (conj _ (conj _ (conj _ (conj _ _)))));
    [| | | | | intros g a; apply scale_factors_defined].
  - unfold gyro_sf_of, C.div. simpl (1073741824 =? 0). cbv iota.
    rewrite wrap_signed_small by lia. simpl.
    rewrite Z.quot_div_nonneg by lia.
    unfold C.to_long. rewrite wrap_signed_small; [reflexivity | lia |].
    change (2 ^ 30) with 1073741824. change (2 ^ (32 - 1)) with 2147483648.
    split.
    + apply Z.le_trans with 0; [lia |]. apply Z.div_pos; lia.
    + apply Z.div_lt_upper_bound; lia.
  - intros ->. reflexivity.
  - intros Hbig. unfold gyro_recip_sf, C.div.
    destruct (gyro_sens =? 0) eqn:E; [apply Z.eqb_eq in E; lia |].
    simpl. rewrite Z.quot_div_nonneg by lia.
    unfold C.to_int, C.to_long.
    assert (0 <= 23832619764371 / gyro_sens < 2147483648).
    { split; [apply Z.div_pos; lia |].
      apply Z.div_lt_upper_bound; lia. }
    assert (E32 : C.wrap_signed 32 (23832619764371 / gyro_sens)
                  = 23832619764371 / gyro_sens).
    { apply wrap_signed_small; [lia |].
      change (2 ^ (32 - 1)) with 2147483648. lia. }
    rewrite !E32. reflexivity.
  - intros ->. reflexivity.
  - intros Hpos. unfold accel_sf_of, C.div.
    destruct (accel_sens =? 0) eqn:E; [apply Z.eqb_eq in E; lia |].
    simpl. rewrite Z.quot_div_nonneg by lia.
    unfold C.to_ulong, C.wrap_unsigned.
    change (2 ^ 30) with 1073741824. change (2 ^ 32) with 4294967296.
    rewrite Z.mod_small; [reflexivity |].
    split; [apply Z.div_pos; lia |].
    apply Z.div_lt_upper_bound; lia.
Qed.

(** The factors of the 2000 dps full scale (gyro_sens = 65536000) and of
    the 2 g accelerometer (accel_sens = 65536). *)
Lemma C5_scale_factors_witness :
  gyro_sf_of 65536000 = Some 46850825 /\
  gyro_recip_sf 65536000 = Some 363656 /\
  accel_sf_of 65536 = Some 16384.
Proof.
  destruct (C5_scale_factors 65536000 65536) as (G & _ & R & _ & A & _).
  - unfold C.LONG_MAX; lia.
  - unfold C.LONG_MAX; lia.
  - split; [exact G |]. split; [apply R; lia | apply A; lia].
Defined.

(** The sensitivities that apply-all hands to the gyroscope calibration
    for the four full-scale settings, the trim being absent, lie where
    both factors are the floors. *)
Lemma full_scale_gyro_sens (fs : mpu_fs) (range : F.float) :
  gyro_scale_of fs = Some range ->
  exists sens,
    F.to_long (F.mul range (F.of_Z 32768)) = Some sens /\
    11098 <= sens <= C.LONG_MAX.
Proof.
  destruct fs; simpl; intros E; try discriminate; injection E as <-;
    eexists; (split; [vm_compute; reflexivity | unfold C.LONG_MAX; lia]).
Qed.

(** The calls that apply-all makes on the simulated device with the DMP
    opened: 46850825 and 363656 are the two gyroscope factors of the
    2000 dps range, 16384 the accelerometer factor of the 2 g range. *)
Lemma apply_calibration_trace_2000dps :
  option_map trace
    (state_of (@inv_apply_calibration sim_world hw_opcodes hw_constants
                 sim_externals (sim_state INV_STATE_DMP_OPENED [] sim_quiet)))
  = Some [ EvSetMpuMemory KEY_FCFG_1 3 [0xc9; 0x2c; 0xcb];
           EvSetMpuMemory KEY_FCFG_3 3 [0x36; 0x56; 0x76];
           EvSetMpuMemory KEY_D_0_104 4 (inv_int32_to_big8 46850825);
           EvSetMpuMemory KEY_D_0_24 4 (inv_int32_to_big8 363656);
           EvDmpKeySupported KEY_D_1_152;
           EvSetMpuMemory KEY_D_1_152 4 [0; 0; 0; 0];
           EvSetMpuMemory KEY_FCFG_2 3 [0x4c; 0xcd; 0x6c];
           EvSetMpuMemory KEY_FCFG_7 3 [0x26; 0x46; 0x66];
           EvSetMpuMemory KEY_D_0_108 2 [16384 / 256; 16384 mod 256] ].
Proof. vm_compute. reflexivity. Qed.

(** ** Early returns of the state machine *)

Section StateChecks.

Context {W : Type} `{DmpOpcodes} `{MplConstants} `{Externals W}.

(** C8: in every state below DMP_STARTED, [inv_update_data] returns
    ImproperState and leaves the whole program state as it was: the log
    of calls gains no entry, so no FIFO read is performed and no callback
    is dispatched. *)
Theorem C8_update_data_improper_state (s : mpl W) :
  state_ltb (st s) INV_STATE_DMP_STARTED = true ->
  exists s',
    inv_update_data s = Done INV_ERROR_SM_IMPROPER_STATE s' /\
    s' = s /\
    filter is_fifo_read (trace s') = filter is_fifo_read (trace s) /\
    interrupt_cbs_of (trace s') = interrupt_cbs_of (trace s).
Proof.
  intros Hlt. exists s.
  unfold inv_update_data, bind, inv_get_dl_config, inv_get_state, ret.
  unfold state_ltb, state_eqb in *.
  destruct (st s); simpl in *; try discriminate; auto.
Qed.

(** Two of three disjoint non-empty axis masks are a partial cover of
    the group. *)
Lemma two_axes_partial (a b c sensors group : Z) :
  a <> 0 -> c <> 0 ->
  Z.land a c = 0 -> Z.land b c = 0 ->
  group = Z.lor (Z.lor a b) c ->
  Z.land sensors group = Z.lor a b ->
  partial_group sensors group = true.
Proof.
  intros Ha Hc Hac Hbc -> Hcov. unfold partial_group. rewrite Hcov.
  apply andb_true_intro. split; apply negb_true_iff, Z.eqb_neq.
  - intros E. apply Hc.
    assert (E' : Z.land (Z.lor a b) c = Z.land (Z.lor (Z.lor a b) c) c)
      by (rewrite <- E; reflexivity).
    rewrite (Z.land_lor_distr_l (Z.lor a b) c c) in E'.
    rewrite Z.land_lor_distr_l, Hac, Hbc, Z.land_diag in E'.
    simpl in E'. symmetry. exact E'.
  - intros E. apply Z.lor_eq_0_iff in E. tauto.
Qed.

(** C7: for every sensor bitmask that covers exactly two of the three
    accelerometer axes, [inv_set_mpu_sensors] in any state from
    DMP_OPENED on returns FeatureNotImplemented and leaves the program
    state, and with it the stored [requested_sensors], unchanged. The
    three axis bits [x], [y], [z] are any non-zero disjoint masks whose
    union is INV_THREE_AXIS_ACCEL. *)
Theorem C7_two_accel_axes_not_implemented (x y z sensors : Z) (s : mpl W) :
  x <> 0 -> y <> 0 -> z <> 0 ->
  Z.land x y = 0 -> Z.land x z = 0 -> Z.land y z = 0 ->
  INV_THREE_AXIS_ACCEL = Z.lor (Z.lor x y) z ->
  Z.land sensors INV_THREE_AXIS_ACCEL = Z.lor x y \/
  Z.land sensors INV_THREE_AXIS_ACCEL = Z.lor x z \/
  Z.land sensors INV_THREE_AXIS_ACCEL = Z.lor y z ->
  state_ltb (st s) INV_STATE_DMP_OPENED = false ->
  exists s',
    inv_set_mpu_sensors sensors s = Done INV_ERROR_FEATURE_NOT_IMPLEMENTED s' /\
    s' = s /\
    requested_sensors (cfg s') = requested_sensors (cfg s).
Proof.
  intros Hx Hy Hz Hxy Hxz Hyz Hgroup Hcov Hstate.
  assert (Hpartial : partial_group sensors INV_THREE_AXIS_ACCEL = true).
  { destruct Hcov as [E | [E | E]].
    - apply (two_axes_partial x y z); assumption.
    - apply (two_axes_partial x z y); try assumption.
      + rewrite Z.land_comm. assumption.
      + rewrite Hgroup, <- !Z.lor_assoc, (Z.lor_comm y z). reflexivity.
    - apply (two_axes_partial y z x); try assumption.
      + rewrite Z.land_comm. assumption.
      + rewrite Z.land_comm. assumption.
      + rewrite Hgroup, (Z.lor_comm x y), <- !Z.lor_assoc, (Z.lor_comm x z).
        reflexivity. }
  exists s.
  unfold inv_set_mpu_sensors, bind, inv_get_state, inv_get_dl_config, ret.
  rewrite Hstate, Hpartial. auto.
Qed.

End StateChecks.

Lemma C8_update_data_improper_state_witness :
  result_of (@inv_update_data sim_world hw_constants sim_externals
               (sim_state INV_STATE_DMP_OPENED [3%nat] sim_interrupted))
  = Some INV_ERROR_SM_IMPROPER_STATE.
Proof.
  destruct (@C8_update_data_improper_state sim_world hw_constants sim_externals
              (sim_state INV_STATE_DMP_OPENED [3%nat] sim_interrupted))
    as (s' & E & _).
  - reflexivity.
  - rewrite E. reflexivity.
Defined.

Lemma C7_two_accel_axes_not_implemented_witness :
  result_of (@inv_set_mpu_sensors sim_world hw_opcodes hw_constants sim_externals
               (Z.lor INV_X_ACCEL INV_Z_ACCEL)
               (sim_state INV_STATE_DMP_STARTED [] sim_quiet))
  = Some INV_ERROR_FEATURE_NOT_IMPLEMENTED.
Proof.
  destruct (@C7_two_accel_axes_not_implemented
              sim_world hw_opcodes hw_constants sim_externals
              INV_X_ACCEL INV_Y_ACCEL INV_Z_ACCEL
              (Z.lor INV_X_ACCEL INV_Z_ACCEL)
              (sim_state INV_STATE_DMP_STARTED [] sim_quiet))
    as (s' & E & _);
    [ first [ right; left; reflexivity | vm_compute; congruence ] ..
    | rewrite E; reflexivity ].
Defined.

(** ** Apply-all outside DMP_OPENED *)

Section ApplyAll.

Context {W : Type} `{DmpOpcodes} `{MplConstants} `{Externals W}.

(** C1 (amended): for every valid full-scale range enum and every state
    below DMP_OPENED, [inv_apply_calibration] returns INV_SUCCESS, not
    ImproperState: the three calibrations are skipped, no call leaves
    the library, so no device memory is written, and in the Context only
    accel_sens and compass_sens are refreshed from the device
    configuration; every other field of the Context, the callback
    registry, the configuration, the state and the outside world are as
    they were. *)
Theorem C1_apply_calibration_below_dmp_opened (s : mpl W) :
  valid_full_scale (full_scale (cfg s)) ->
  state_ltb (st s) INV_STATE_DMP_OPENED = true ->
  apply_defined (cfg s) ->
  exists s' a c,
    inv_apply_calibration s = Done INV_SUCCESS s' /\
    trace s' = trace s /\
    memory_writes_of (trace s') = memory_writes_of (trace s) /\
    world s' = world s /\ st s' = st s /\ cfg s' = cfg s /\
    mlxCallbackInterrupt s' = mlxCallbackInterrupt s /\
    refreshed_accel_sens (cfg s) (accel_sens (obj s)) = Some a /\
    refreshed_compass_sens (cfg s) (compass_sens (obj s)) = Some c /\
    obj s' = set_sens (gyro_sens (obj s)) (gyro_sf (obj s)) a c (obj s).
Proof.
  intros Hfs Hlt (Hg & Ha & Hc).
  assert (Hneq : state_eqb (st s) INV_STATE_DMP_OPENED = false).
  { unfold state_ltb, state_eqb in *. lia. }
  destruct Hg as [g Hg].
  unfold inv_apply_calibration, refreshed_accel_sens, refreshed_compass_sens.
  unfold bind, inv_get_dl_config, inv_get_state, defined, ret, modify.
  rewrite Hg.
  destruct (gyro_scale_of (full_scale (cfg s))) as [gyroScale |] eqn:Hscale;
    [| destruct (full_scale (cfg s)); simpl in Hfs, Hscale;
       try discriminate; contradiction].
  destruct s as [st0 o0 cfg0 reg0 w0 t0]. destruct o0.
  cbn [st obj cfg world trace mlxCallbackInterrupt] in *.
  destruct (cfg_accel cfg0) as [accel |] eqn:Eaccel;
    destruct (cfg_compass cfg0) as [compass |] eqn:Ecompass.
  - destruct (Ha accel eq_refl) as [[ao ->] [v ->]].
    destruct (Hc compass eq_refl) as [[co ->] [c ->]].
    cbn [st with_obj]. rewrite Hneq. do 3 eexists. repeat split.
  - destruct (Ha accel eq_refl) as [[ao ->] [v ->]].
    cbn [st with_obj]. rewrite Hneq. do 3 eexists. repeat split.
  - destruct (Hc compass eq_refl) as [[co ->] [c ->]].
    cbn [st with_obj]. rewrite Hneq. do 3 eexists. repeat split.
  - cbn [st with_obj]. rewrite Hneq. do 3 eexists. repeat split.
Qed.

End ApplyAll.

(** C1 (counterexample): with the serial link open, the DMP not yet
    opened and the 2000 dps full scale, [inv_apply_calibration] returns
    INV_SUCCESS. *)
Lemma C1_apply_calibration_returns_success :
  valid_full_scale (full_scale (cfg (sim_state INV_STATE_SERIAL_OPENED [] sim_quiet))) /\
  state_ltb (st (sim_state INV_STATE_SERIAL_OPENED [] sim_quiet))
            INV_STATE_DMP_OPENED = true /\
  result_of (@inv_apply_calibration sim_world hw_opcodes hw_constants sim_externals
               (sim_state INV_STATE_SERIAL_OPENED [] sim_quiet))
  = Some INV_SUCCESS /\
  result_of (@inv_apply_calibration sim_world hw_opcodes hw_constants sim_externals
               (sim_state INV_STATE_SERIAL_OPENED [] sim_quiet))
  <> Some INV_ERROR_SM_IMPROPER_STATE.
Proof.
  split; [exact I |]. split; [reflexivity |].
  split; [vm_compute; reflexivity | vm_compute; discriminate].
Qed.

Lemma C1_apply_calibration_below_dmp_opened_witness :
  exists s',
    @inv_apply_calibration sim_world hw_opcodes hw_constants sim_externals
      (sim_state INV_STATE_SERIAL_CLOSED [] sim_quiet) = Done INV_SUCCESS s' /\
    trace s' = [] /\
    obj s' = set_accel_sens 65536 sim_obj.
Proof.
  destruct (@C1_apply_calibration_below_dmp_opened
              sim_world hw_opcodes hw_constants sim_externals
              (sim_state INV_STATE_SERIAL_CLOSED [] sim_quiet))
    as (s' & a & c & E & T & _ & _ & _ & _ & _ & Ea & Ec & O).
  - exact I.
  - reflexivity.
  - split; [eexists; vm_compute; reflexivity |].
    split.
    + intros accel Ea. injection Ea as <-.
      split; eexists; vm_compute; reflexivity.
    + intros compass Ec. discriminate Ec.
  - exists s'. split; [exact E |]. split; [exact T |].
    vm_compute in Ea. vm_compute in Ec.
    injection Ea as <-. injection Ec as <-. exact O.
Defined.

(** ** Loops and frames *)

Section Loops.

Context {W : Type}.

(** A loop whose body is defined in every state and keeps a preorder
    between the states it links is defined and keeps it. *)
Lemma for_range_total (R : mpl W -> mpl W -> Prop) (body : nat -> M W unit) :
  (forall s, R s s) ->
  (forall a b c, R a b -> R b c -> R a c) ->
  forall (n start : nat),
    (forall kk s, (start <= kk < start + n)%nat ->
                  exists s', body kk s = Done tt s' /\ R s s') ->
    forall s, exists s', for_range start n body s = Done tt s' /\ R s s'.
Proof.
  intros Hrefl Htrans n.
  induction n as [| n IH]; intros start Hbody s.
  - exists s. split; [reflexivity | apply Hrefl].
  - destruct (Hbody start s ltac:(lia)) as (s1 & E1 & R1).
    destruct (IH (S start) (fun kk s Hk => Hbody kk s ltac:(lia)) s1)
      as (s2 & E2 & R2).
    exists s2. split; [| exact (Htrans _ _ _ R1 R2)].
    simpl. unfold bind at 1. rewrite E1. exact E2.
Qed.

Lemma cal_frame_refl (s : mpl W) : cal_frame s s.
Proof. unfold cal_frame. tauto. Qed.

Lemma cal_frame_trans (a b c : mpl W) :
  cal_frame a b -> cal_frame b c -> cal_frame a c.
Proof. unfold cal_frame. intuition congruence. Qed.

(** The loop that fills one calibration matrix. *)
Lemma cal_loop_total (setter : nat -> Z -> inv_obj_t -> inv_obj_t)
  (scale : F.float) (orientation : matrix) :
  (forall kk c (s : mpl W), cal_frame s (with_obj (setter kk c) s)) ->
  cal_defined scale orientation ->
  forall s : mpl W, exists s',
    for_upto 9 (fun kk =>
      bind (defined (orientation !! kk)) (fun o =>
      let cal := F.mul scale (F.of_Z o) in
      bind (defined (F.to_long (F.mul cal (F.of_Z (Z.shiftl 1 30))))) (fun c =>
      modify (with_obj (setter kk c))))) s = Done tt s' /\
    cal_frame s s'.
Proof.
  intros Hsetter Hdef s. unfold for_upto.
  apply (for_range_total cal_frame); [apply cal_frame_refl | apply cal_frame_trans |].
  intros kk s0 Hk.
  destruct (Hdef kk ltac:(lia)) as (o & c & Eo & Ec).
  exists (with_obj (setter kk c) s0). split; [| apply Hsetter].
  unfold bind, defined, modify. rewrite Eo. cbv zeta. rewrite Ec. reflexivity.
Qed.

Lemma set_accel_cal_frame (kk : nat) (c : Z) (s : mpl W) :
  cal_frame s (with_obj (set_accel_cal kk c) s).
Proof. unfold cal_frame. simpl. tauto. Qed.

Lemma set_compass_cal_frame (kk : nat) (c : Z) (s : mpl W) :
  cal_frame s (with_obj (set_compass_cal kk c) s).
Proof. unfold cal_frame. simpl. tauto. Qed.

End Loops.

(** Replace a loop of the goal by its outcome. *)
Ltac rewrite_loop E :=
  match type of E with
  | _ = ?rhs =>
      match goal with
      | |- context [for_upto 9 ?b ?st] =>
          replace (for_upto 9 b st) with rhs by (symmetry; exact E)
      end
  end.

(** ** State checks of the three calibrations *)

Section Calibrations.

Context {W : Type} `{DmpOpcodes} `{MplConstants} `{Externals W}.






End Calibrations.




(** ** Running a body step by step *)

Lemma bind_Done {W A B} (c : M W A) (k : A -> M W B) (s s1 : mpl W) (a : A) :
  c s = Done a s1 -> bind c k s = k a s1.
Proof. intros E. unfold bind. rewrite E. reflexivity. Qed.

(** Run the first statement of the body in the goal, when its outcome
    is found by computation or among the hypotheses. *)
Ltac mstep :=
  erewrite bind_Done; [| first [eassumption | reflexivity]]; cbv beta.

(** ** What accelerometer calibration does to the sensitivity *)

Section AccelSensitivity.

Context {W : Type} `{DmpOpcodes} `{Externals W}.

(** The two bytes of the accelerometer scale factor, as lines 460-461
    store them. *)
Lemma accel_write_sf_spec (s : mpl W) :
  exists r sf w,
    accel_sf_of (accel_sens (obj s)) = Some sf /\
    accel_write_sf [0; 0; 0; 0] s
    = Done r (called (EvSetMpuMemory KEY_D_0_108 2
                        [C.to_uchar (Z.land (Z.shiftr sf 8) 255);
                         C.to_uchar (Z.land sf 255)]) w s).
Proof.
  destruct (scale_factors_defined 0 (accel_sens (obj s))) as (_ & _ & [sf Esf]).
  unfold accel_write_sf. mstep. rewrite Esf. mstep. mstep.
  do 3 eexists. split; [reflexivity |].
  unfold check. destruct (is_error _); reflexivity.
Qed.

Lemma opcode_table_lookup (tmp : list Z) (i : Z) :
  length tmp = 3%nat -> Z.land i 3 < 3 ->
  is_Some (tmp !! Z.to_nat (Z.land i 3)).
Proof.
  intros Hlen Hlt. apply lookup_lt_is_Some. rewrite Hlen.
  assert (0 <= Z.land i 3) by (apply Z.land_nonneg; lia).
  lia.
Qed.

(** The orientation block leaves the sensitivity alone. *)
Lemma accel_orientation_block_spec (scale : F.float) (orientation : matrix)
  (s : mpl W) :
  cal_defined scale orientation ->
  rows_nonzero orientation ->
  exists r s',
    accel_orientation_block scale orientation s = Done r s' /\
    accel_sens (obj s') = accel_sens (obj s).
Proof.
  intros Hcal (orient & Eorient & L0 & L1 & L2).
  destruct (cal_loop_total set_accel_cal scale orientation
              set_accel_cal_frame Hcal s) as (s1 & E1 & F1).
  assert (Hsens : accel_sens (obj s1) = accel_sens (obj s)).
  { unfold cal_frame in F1. tauto. }
  destruct (opcode_table_lookup [DINA4C; DINACD; DINA6C] orient eq_refl L0)
    as [r0 E0].
  destruct (opcode_table_lookup [DINA4C; DINACD; DINA6C] (Z.shiftr orient 3)
              eq_refl L1) as [r1 E1'].
  destruct (opcode_table_lookup [DINA4C; DINACD; DINA6C] (Z.shiftr orient 6)
              eq_refl L2) as [r2 E2].
  unfold accel_orientation_block. cbv zeta.
  rewrite (bind_Done _ _ s s1 tt E1).
  rewrite Eorient. mstep. rewrite E0. mstep. rewrite E1'. mstep.
  rewrite E2. mstep. mstep.
  unfold check. destruct (is_error _).
  - do 2 eexists. split; [reflexivity | exact Hsens].
  - do 2 eexists. split; [reflexivity | exact Hsens].
Qed.

(** C10 (amended): in state DMP_OPENED, once the optional reset write to
    KEY_D_1_152 has not failed, accelerometer calibration sets accel_sens
    to 0 when range / 32768 evaluates to zero in single precision and
    leaves accel_sens unchanged otherwise; the scale factor of its write
    to KEY_D_0_108, the last call of a successful run, is computed from
    that accel_sens and not from the range argument. *)
Theorem C10_accel_sens_frame (range : F.float) (orientation : matrix)
  (accel : ext_slave_descr) (s : mpl W) :
  st s = INV_STATE_DMP_OPENED ->
  (ext_dmpkey_supported KEY_D_1_152 (world s) = true ->
   is_error (fst (ext_set_mpu_memory KEY_D_1_152 4 [0; 0; 0; 0] (world s)))
   = false) ->
  cfg_accel (cfg s) = Some accel ->
  (slave_id accel <> 0 ->
   cal_defined (F.div range (F.of_Z 32768)) orientation /\
   rows_nonzero orientation) ->
  exists r s' sf,
    inv_set_accel_calibration range orientation s = Done r s' /\
    accel_sens (obj s')
    = (if F.is_zero (F.div range (F.of_Z 32768)) then 0
       else accel_sens (obj s)) /\
    accel_sf_of (accel_sens (obj s')) = Some sf /\
    (r = INV_SUCCESS ->
     exists t, trace s' =
       t ++ [EvSetMpuMemory KEY_D_0_108 2
               [C.to_uchar (Z.land (Z.shiftr sf 8) 255);
                C.to_uchar (Z.land sf 255)]]).
Proof.
  intros Hst Hreset Haccel Hblock.
  set (scale := F.div range (F.of_Z 32768)) in *.
  set (sens' := if F.is_zero scale then 0 else accel_sens (obj s)).
  (* the rest of the body, from the orientation block on *)
  assert (Htail : forall s3 : mpl W,
    accel_sens (obj s3) = sens' ->
    exists r s' sf,
      bind (if negb (slave_id accel =? 0)
            then accel_orientation_block scale orientation
            else ret INV_SUCCESS)
           (fun result => check result (accel_write_sf [0; 0; 0; 0])) s3
      = Done r s' /\
      accel_sens (obj s') = sens' /\
      accel_sf_of (accel_sens (obj s')) = Some sf /\
      (r = INV_SUCCESS ->
       exists t, trace s' =
         t ++ [EvSetMpuMemory KEY_D_0_108 2
                 [C.to_uchar (Z.land (Z.shiftr sf 8) 255);
                  C.to_uchar (Z.land sf 255)]])).
  { intros s3 Hs3.
    assert (Hmid : exists rb s4,
      (if negb (slave_id accel =? 0)
       then accel_orientation_block scale orientation
       else ret INV_SUCCESS) s3 = Done rb s4 /\
      accel_sens (obj s4) = sens').
    { destruct (slave_id accel =? 0) eqn:Eid; simpl negb; cbv iota.
      - exists INV_SUCCESS, s3. split; [reflexivity | exact Hs3].
      - apply Z.eqb_neq in Eid. destruct (Hblock Eid) as [Hcal Hrows].
        destruct (accel_orientation_block_spec scale orientation s3 Hcal Hrows)
          as (rb & s4 & E4 & S4).
        exists rb, s4. split; [exact E4 | congruence]. }
    destruct Hmid as (rb & s4 & E4 & Hs4).
    rewrite (bind_Done _ _ s3 s4 rb E4).
    destruct (scale_factors_defined 0 sens') as (_ & _ & [sf0 Esf0]).
    unfold check at 1. destruct (is_error rb) eqn:Erb.
    - exists rb, s4, sf0. split; [reflexivity |].
      split; [exact Hs4 |]. split; [rewrite Hs4; exact Esf0 |].
      intros ->. discriminate Erb.
    - destruct (accel_write_sf_spec s4) as (r & sf & w & Esf & Ewrite).
      rewrite Ewrite.
      exists r, (called (EvSetMpuMemory KEY_D_0_108 2
                           [C.to_uchar (Z.land (Z.shiftr sf 8) 255);
                            C.to_uchar (Z.land sf 255)]) w s4), sf.
      split; [reflexivity |]. split; [exact Hs4 |].
      split; [exact Esf |]. intros _. exists (trace s4). reflexivity. }
  unfold inv_set_accel_calibration. cbv zeta. fold scale.
  mstep. mstep. rewrite Hst.
  change (negb (state_eqb INV_STATE_DMP_OPENED INV_STATE_DMP_OPENED)) with false.
  cbv iota.
  mstep.
  assert (Hfirst : exists s2,
    (if ext_dmpkey_supported KEY_D_1_152 (world s)
     then inv_set_mpu_memory KEY_D_1_152 4 [0; 0; 0; 0]
     else ret INV_SUCCESS)
      (called (EvDmpKeySupported KEY_D_1_152) (world s) s)
    = Done (if ext_dmpkey_supported KEY_D_1_152 (world s)
            then fst (ext_set_mpu_memory KEY_D_1_152 4 [0; 0; 0; 0] (world s))
            else INV_SUCCESS) s2 /\
    obj s2 = obj s).
  { destruct (ext_dmpkey_supported KEY_D_1_152 (world s));
      eexists; split; reflexivity. }
  destruct Hfirst as (s2 & E2 & O2).
  rewrite (bind_Done _ _ _ _ _ E2).
  unfold check at 1.
  replace (is_error _) with false
    by (destruct (ext_dmpkey_supported KEY_D_1_152 (world s));
        [symmetry; apply Hreset; reflexivity | reflexivity]).
  assert (Hzero : exists s3,
    (if F.is_zero scale then modify (with_obj (set_accel_sens 0)) else ret tt) s2
    = Done tt s3 /\ accel_sens (obj s3) = sens').
  { subst sens'. destruct (F.is_zero scale).
    - eexists. split; reflexivity.
    - eexists. split; [reflexivity |]. rewrite O2. reflexivity. }
  destruct Hzero as (s3 & E3 & Hs3).
  rewrite (bind_Done _ _ _ _ _ E3).
  rewrite Haccel. mstep.
  apply Htail. exact Hs3.
Qed.

End AccelSensitivity.

(** C10 (counterexample): the smallest positive [float], 2^-149, is not
    zero, yet accelerometer calibration called with that range in state
    DMP_OPENED sets accel_sens, 65536 before the call, to 0: the quotient
    range / 32768 underflows to zero. *)
Lemma C10_accel_sens_counterexample :
  F.is_zero float_min_subnormal = false /\
  accel_sens (obj (sim_calibrated INV_STATE_DMP_OPENED)) = 65536 /\
  option_map (fun s => accel_sens (obj s))
    (state_of (@inv_set_accel_calibration sim_world hw_opcodes sim_externals
                 float_min_subnormal identity_matrix
                 (sim_calibrated INV_STATE_DMP_OPENED)))
  = Some 0.
Proof. vm_compute. repeat split. Qed.

Lemma cal_defined_identity_2g :
  cal_defined (F.div (F.of_Z 2) (F.of_Z 32768)) identity_matrix.
Proof.
  intros kk Hk.
  do 9 (destruct kk as [| kk];
        [do 2 eexists; split; [reflexivity | vm_compute; reflexivity] |]).
  lia.
Qed.

Lemma rows_nonzero_identity : rows_nonzero identity_matrix.
Proof. exists 136. vm_compute. repeat split; congruence. Qed.

Lemma C10_accel_sens_frame_witness :
  exists r s',
    @inv_set_accel_calibration sim_world hw_opcodes sim_externals
      (F.of_Z 2) identity_matrix (sim_calibrated INV_STATE_DMP_OPENED)
    = Done r s' /\
    accel_sens (obj s') = 65536.
Proof.
  destruct (@C10_accel_sens_frame sim_world hw_opcodes sim_externals
              (F.of_Z 2) identity_matrix sim_accel
              (sim_calibrated INV_STATE_DMP_OPENED))
    as (r & s' & sf & E & S & _).
  - reflexivity.
  - intros _. reflexivity.
  - reflexivity.
  - intros _. split; [exact cal_defined_identity_2g | exact rows_nonzero_identity].
  - exists r, s'. split; [exact E |]. rewrite S. vm_compute. reflexivity.
Defined.

(** ** Dispatch of the interrupt callbacks *)

Section DataPump.

Context {W : Type} `{MplConstants} `{Externals W}.

Lemma after_callbacks_nil (s : mpl W) : after_callbacks [] s = s.
Proof.
  destruct s. unfold after_callbacks, run_callbacks. simpl.
  rewrite app_nil_r. reflexivity.
Qed.

Lemma after_callbacks_cons (c : func_ptr) (cbs : list func_ptr) (s : mpl W) :
  after_callbacks cbs
    (called (EvInterruptCb c)
       (snd (ext_interrupt_cb c (obj s) (world s)))
       (with_obj (fun _ => fst (ext_interrupt_cb c (obj s) (world s))) s))
  = after_callbacks (c :: cbs) s.
Proof.
  unfold after_callbacks, run_callbacks. simpl.
  rewrite <- app_assoc. simpl.
  destruct (ext_interrupt_cb c (obj s) (world s)) as [o w]. reflexivity.
Qed.

(** The loop over the slots that hold [cbs] calls each of them once, in
    slot order. *)
Lemma callbacks_range (cbs : list func_ptr) :
  forall (start : nat) (s : mpl W),
    (forall (i : nat) (c : func_ptr), cbs !! i = Some c ->
       processInterruptCb (mlxCallbackInterrupt s) !! (start + i)%nat
       = Some (Some c)) ->
    for_range start (length cbs)
      (fun kk =>
         bind get (fun s =>
         bind (defined (processInterruptCb (mlxCallbackInterrupt s) !! kk))
           (fun entry =>
              match entry with
              | Some func => call_interrupt_cb func
              | None => ret tt
              end))) s
    = Done tt (after_callbacks cbs s).
Proof.
  induction cbs as [| c cbs IH]; intros start s Hslots.
  - simpl. rewrite after_callbacks_nil. reflexivity.
  - simpl length. simpl for_range.
    pose proof (Hslots 0%nat c eq_refl) as Hc.
    rewrite Nat.add_0_r in Hc.
    erewrite bind_Done; [| erewrite bind_Done; [| reflexivity]; cbv beta;
                           rewrite Hc; erewrite bind_Done; [| reflexivity];
                           cbv beta; reflexivity].
    cbv beta. rewrite IH.
    + rewrite after_callbacks_cons. reflexivity.
    + intros i c' Hi. simpl.
      replace (S (start + i)) with (start + S i)%nat by lia.
      apply Hslots. exact Hi.
Qed.

Lemma registered_slots (cbs : list func_ptr) (reg : tMLXCallbackInterrupt) :
  registered cbs reg ->
  forall (i : nat) (c : func_ptr), cbs !! i = Some c ->
    processInterruptCb reg !! (0 + i)%nat = Some (Some c).
Proof.
  intros (_ & _ & _ & Htake) i c Hi. simpl.
  assert (Hlt : (i < length cbs)%nat) by (apply lookup_lt_Some in Hi; exact Hi).
  rewrite <- (lookup_take_lt _ (length cbs)) by exact Hlt.
  rewrite Htake, list_lookup_fmap, Hi. reflexivity.
Qed.

Lemma run_dmp_interupt_cb_spec (cbs : list func_ptr) (s : mpl W) :
  registered cbs (mlxCallbackInterrupt s) ->
  inv_run_dmp_interupt_cb s = Done tt (after_callbacks cbs s).
Proof.
  intros Hreg. unfold inv_run_dmp_interupt_cb.
  erewrite bind_Done; [| reflexivity]. cbv beta.
  destruct Hreg as (Hnum & Hrest). rewrite Hnum, Nat2Z.id.
  unfold for_upto. apply callbacks_range.
  apply registered_slots. split; assumption.
Qed.

Lemma interrupt_cbs_of_callbacks (cbs : list func_ptr) :
  interrupt_cbs_of (map EvInterruptCb cbs) = cbs.
Proof.
  induction cbs as [| c cbs IH]; [reflexivity |].
  change (c :: interrupt_cbs_of (map EvInterruptCb cbs) = c :: cbs).
  f_equal. exact IH.
Qed.

(** C9: for every list of N callbacks held by the registry in
    registration order, N within the capacity, a call of
    [inv_update_data] in state DMP_STARTED whose FIFO read succeeds and
    which finds the primary interrupt source fired invokes exactly these
    N callbacks, each once and in registration order; each receives the
    Context, as the previous one left it. *)
Theorem C9_callbacks_in_registration_order (cbs : list func_ptr) (s : mpl W)
  (got : Z) (w1 : W) :
  st s = INV_STATE_DMP_STARTED ->
  registered cbs (mlxCallbackInterrupt s) ->
  ext_read_and_process_fifo
    (if negb (Z.land (requested_sensors (cfg s)) INV_DMP_PROCESSOR =? 0)
     then 100 else 1) (world s) = (INV_SUCCESS, got, w1) ->
  let w2 := if ext_get_interrupt_trigger INTSRC_AUX1 w1
            then ext_clear_interrupt_trigger INTSRC_AUX1 w1 else w1 in
  ext_get_interrupt_trigger INTSRC_MPU w2 = true ->
  let ow := run_callbacks cbs (obj s)
              (ext_clear_interrupt_trigger INTSRC_MPU w2) in
  exists s',
    inv_update_data s = Done (fst (ext_get_fifo_status (snd ow))) s' /\
    interrupt_cbs_of (trace s') = interrupt_cbs_of (trace s) ++ cbs /\
    obj s' = fst ow /\
    world s' = snd (ext_get_fifo_status (snd ow)).
Proof.
  intros Hst Hreg Hfifo w2 Hmpu ow.
  unfold inv_update_data.
  mstep. mstep. rewrite Hst.
  change (negb (state_eqb INV_STATE_DMP_STARTED INV_STATE_DMP_STARTED))
    with false.
  cbv iota zeta.
  mstep. cbn [world]. rewrite Hfifo. cbn [fst snd].
  unfold check at 1. cbn [is_error].
  mstep. cbn [world called].
  (* the auxiliary source *)
  assert (Haux : exists s2,
    (if ext_get_interrupt_trigger INTSRC_AUX1 w1
     then inv_clear_interrupt_trigger INTSRC_AUX1 else ret tt)
      (called (EvGetInterruptTrigger INTSRC_AUX1) w1
         (called (EvReadAndProcessFifo
                    (if negb (Z.land (requested_sensors (cfg s))
                                     INV_DMP_PROCESSOR =? 0)
                     then 100 else 1)) w1 s))
    = Done tt s2 /\
    world s2 = w2 /\ obj s2 = obj s /\
    mlxCallbackInterrupt s2 = mlxCallbackInterrupt s /\
    interrupt_cbs_of (trace s2) = interrupt_cbs_of (trace s)).
  { subst w2. unfold interrupt_cbs_of.
    destruct (ext_get_interrupt_trigger INTSRC_AUX1 w1);
      eexists; (split; [reflexivity |]); cbn [world obj trace called
        mlxCallbackInterrupt]; repeat split;
      rewrite !omap_app; simpl; rewrite ?app_nil_r; reflexivity. }
  destruct Haux as (s2 & E2 & Hw2 & Ho2 & Hr2 & Ht2).
  rewrite (bind_Done _ _ _ _ _ E2).
  mstep. cbn [world called]. rewrite Hw2, Hmpu.
  mstep.
  rewrite <- Hr2 in Hreg.
  erewrite bind_Done;
    [| apply (run_dmp_interupt_cb_spec cbs); cbn [mlxCallbackInterrupt called];
       exact Hreg].
  eexists. split; [| split; [| split]].
  - unfold inv_get_fifo_status. cbn [world after_callbacks called obj].
    rewrite Ho2. reflexivity.
  - cbn [trace called after_callbacks]. unfold interrupt_cbs_of in *.
    rewrite !omap_app. simpl. rewrite !app_nil_r.
    rewrite Ht2. f_equal. apply interrupt_cbs_of_callbacks.
  - cbn [obj called after_callbacks world with_obj]. rewrite ?Ho2. reflexivity.
  - cbn [obj called after_callbacks world with_obj]. rewrite ?Ho2. reflexivity.
Qed.

End DataPump.

Lemma C9_callbacks_in_registration_order_witness :
  exists s',
    @inv_update_data sim_world hw_constants sim_externals
      (sim_state INV_STATE_DMP_STARTED [7; 8; 9]%nat sim_interrupted)
    = Done INV_SUCCESS s' /\
    interrupt_cbs_of (trace s') = [7; 8; 9]%nat.
Proof.
  destruct (@C9_callbacks_in_registration_order
              sim_world hw_constants sim_externals [7; 8; 9]%nat
              (sim_state INV_STATE_DMP_STARTED [7; 8; 9]%nat sim_interrupted)
              1 sim_interrupted)
    as (s' & E & T & _).
  - reflexivity.
  - repeat split; vm_compute; lia.
  - reflexivity.
  - reflexivity.
  - exists s'. split; [exact E | exact T].
Defined.

(** * Further properties of the encoders *)

(** ** Row codes and the orientation scalar *)

(** X1: negating a row that is not all zero flips the sign bit of its
    code and nothing else. *)
Theorem row_code_negation (a b c : Z) :
  (a, b, c) <> (0, 0, 0) ->
  exists v, inv_row_2_scale [a; b; c] = Some v /\
            inv_row_2_scale [- a; - b; - c] = Some (Z.lxor v 4).
Proof.
  intros Hnz. unfold inv_row_2_scale. simpl.
  destruct (Z.ltb_spec 0 a); [| destruct (Z.ltb_spec a 0)].
  - replace (0 <? - a) with false by (symmetry; apply Z.ltb_ge; lia).
    replace (- a <? 0) with true by (symmetry; apply Z.ltb_lt; lia).
    eexists; split; reflexivity.
  - replace (0 <? - a) with true by (symmetry; apply Z.ltb_lt; lia).
    eexists; split; reflexivity.
  - assert (a = 0) by lia. subst a. simpl.
    destruct (Z.ltb_spec 0 b); [| destruct (Z.ltb_spec b 0)].
    + replace (0 <? - b) with false by (symmetry; apply Z.ltb_ge; lia).
      replace (- b <? 0) with true by (symmetry; apply Z.ltb_lt; lia).
      eexists; split; reflexivity.
    + replace (0 <? - b) with true by (symmetry; apply Z.ltb_lt; lia).
      eexists; split; reflexivity.
    + assert (b = 0) by lia. subst b. simpl.
      destruct (Z.ltb_spec 0 c); [| destruct (Z.ltb_spec c 0)].
      * replace (0 <? - c) with false by (symmetry; apply Z.ltb_ge; lia).
        replace (- c <? 0) with true by (symmetry; apply Z.ltb_lt; lia).
        eexists; split; reflexivity.
      * replace (0 <? - c) with true by (symmetry; apply Z.ltb_lt; lia).
        eexists; split; reflexivity.
      * assert (c = 0) by lia. subst c. contradiction Hnz. reflexivity.
Qed.

Lemma row_code_negation_witness :
  inv_row_2_scale [0; 1; 0] = Some 1 /\ inv_row_2_scale [0; -1; 0] = Some 5.
Proof.
  destruct (row_code_negation 0 1 0) as (v & E & N).
  - discriminate.
  - injection E as <-. split; [reflexivity | exact N].
Defined.

(** The packing of three row codes never loses a bit. *)
Lemma scalar_pack_sum (b0 b1 b2 : Z) :
  In b0 [0; 1; 2; 4; 5; 6; 7] ->
  In b1 [0; 1; 2; 4; 5; 6; 7] ->
  In b2 [0; 1; 2; 4; 5; 6; 7] ->
  C.to_ushort (Z.lor (C.to_ushort (Z.lor (C.to_ushort b0) (Z.shiftl b1 3)))
                     (Z.shiftl b2 6))
  = b0 + 8 * b1 + 64 * b2.
Proof.
  simpl In. intros H0 H1 H2.
  repeat match goal with
         | H : _ \/ _ |- _ => destruct H
         | H : False |- _ => destruct H
         end; subst; vm_compute; reflexivity.
Qed.

(** X2: the orientation scalar of every nine-entry matrix is defined, is
    the sum of its three row codes weighted by 1, 8 and 64, and lies
    below 512: the 16-bit accumulator never truncates. *)
Theorem orientation_scalar_sum (mtx : matrix) :
  length mtx = 9%nat ->
  exists orient b0 b1 b2,
    inv_orientation_matrix_to_scalar mtx = Some orient /\
    inv_row_2_scale (take 3 mtx) = Some b0 /\
    inv_row_2_scale (take 3 (drop 3 mtx)) = Some b1 /\
    inv_row_2_scale (take 3 (drop 6 mtx)) = Some b2 /\
    orient = b0 + 8 * b1 + 64 * b2 /\
    0 <= orient < 512.
Proof.
  intros Hlen.
  do 10 (destruct mtx as [| ? mtx]; try discriminate Hlen).
  destruct (inv_row_2_scale_cases z z0 z1) as (b0 & E0 & I0).
  destruct (inv_row_2_scale_cases z2 z3 z4) as (b1 & E1 & I1).
  destruct (inv_row_2_scale_cases z5 z6 z7) as (b2 & E2 & I2).
  destruct (orientation_scalar_groups z z0 z1 z2 z3 z4 z5 z6 z7)
    as (orient & c0 & c1 & c2 & E & F0 & F1 & F2 & _).
  assert (c0 = b0) by congruence. assert (c1 = b1) by congruence.
  assert (c2 = b2) by congruence. subst c0 c1 c2.
  exists orient, b0, b1, b2.
  assert (Hsum : orient = b0 + 8 * b1 + 64 * b2).
  { unfold inv_orientation_matrix_to_scalar in E.
    change (inv_row_2_scale [z; z0; z1; z2; z3; z4; z5; z6; z7])
      with (inv_row_2_scale [z; z0; z1]) in E.
    change (inv_row_2_scale (drop 3 [z; z0; z1; z2; z3; z4; z5; z6; z7]))
      with (inv_row_2_scale [z2; z3; z4]) in E.
    change (inv_row_2_scale (drop 6 [z; z0; z1; z2; z3; z4; z5; z6; z7]))
      with (inv_row_2_scale [z5; z6; z7]) in E.
    rewrite E0, E1, E2 in E. simpl in E. injection E as <-.
    apply scalar_pack_sum; assumption. }
  repeat split; try assumption.
  - simpl in I0, I1, I2. lia.
  - simpl in I0, I1, I2. lia.
Qed.

Lemma orientation_scalar_sum_witness :
  inv_orientation_matrix_to_scalar [0; -1; 0; 1; 0; 0; 0; 0; 1] = Some 133.
Proof.
  destruct (orientation_scalar_sum [0; -1; 0; 1; 0; 0; 0; 0; 1] eq_refl)
    as (orient & b0 & b1 & b2 & E & E0 & E1 & E2 & S & _).
  injection E0 as <-. injection E1 as <-. injection E2 as <-.
  rewrite E, S. reflexivity.
Defined.

Lemma unit_row_cases (a b c : Z) :
  unit_row a b c ->
  (a = 1 \/ a = -1) /\ b = 0 /\ c = 0 \/
  a = 0 /\ (b = 1 \/ b = -1) /\ c = 0 \/
  a = 0 /\ b = 0 /\ (c = 1 \/ c = -1).
Proof. unfold unit_row. lia. Qed.

(** The code of a row that maps one axis tells the row. *)
Lemma unit_row_code_injective (a b c a' b' c' : Z) :
  unit_row a b c -> unit_row a' b' c' ->
  inv_row_2_scale [a; b; c] = inv_row_2_scale [a'; b'; c'] ->
  a = a' /\ b = b' /\ c = c'.
Proof.
  intros H H'.
  pose proof (unit_row_cases _ _ _ H) as Hc.
  pose proof (unit_row_cases _ _ _ H') as Hc'.
  clear H H'.
  destruct Hc as [([-> | ->] & -> & ->) | [(-> & [-> | ->] & ->)
                 | (-> & -> & [-> | ->])]];
  destruct Hc' as [([-> | ->] & -> & ->) | [(-> & [-> | ->] & ->)
                  | (-> & -> & [-> | ->])]];
  vm_compute; intros E; try discriminate E; auto.
Qed.

(** X3: two mounting matrices with the same orientation scalar are the
    same matrix: the scalar identifies the mounting. *)
Theorem orientation_scalar_injective (m1 m2 : matrix) :
  unit_rows m1 -> unit_rows m2 ->
  inv_orientation_matrix_to_scalar m1 = inv_orientation_matrix_to_scalar m2 ->
  m1 = m2.
Proof.
  intros (a0 & a1 & a2 & a3 & a4 & a5 & a6 & a7 & a8 & -> & U0 & U1 & U2)
         (c0 & c1 & c2 & c3 & c4 & c5 & c6 & c7 & c8 & -> & V0 & V1 & V2) E.
  destruct (orientation_scalar_groups a0 a1 a2 a3 a4 a5 a6 a7 a8)
    as (o & x0 & x1 & x2 & Eo & X0 & X1 & X2 & G0 & G1 & G2).
  destruct (orientation_scalar_groups c0 c1 c2 c3 c4 c5 c6 c7 c8)
    as (o' & y0 & y1 & y2 & Eo' & Y0 & Y1 & Y2 & G0' & G1' & G2').
  rewrite Eo, Eo' in E. injection E as <-.
  assert (R0 : inv_row_2_scale [a0; a1; a2] = inv_row_2_scale [c0; c1; c2])
    by congruence.
  assert (R1 : inv_row_2_scale [a3; a4; a5] = inv_row_2_scale [c3; c4; c5])
    by congruence.
  assert (R2 : inv_row_2_scale [a6; a7; a8] = inv_row_2_scale [c6; c7; c8])
    by congruence.
  destruct (unit_row_code_injective _ _ _ _ _ _ U0 V0 R0) as (-> & -> & ->).
  destruct (unit_row_code_injective _ _ _ _ _ _ U1 V1 R1) as (-> & -> & ->).
  destruct (unit_row_code_injective _ _ _ _ _ _ U2 V2 R2) as (-> & -> & ->).
  reflexivity.
Qed.

Lemma unit_rows_identity : unit_rows identity_matrix.
Proof.
  exists 1, 0, 0, 0, 1, 0, 0, 0, 1. unfold unit_row.
  repeat split; try reflexivity; simpl; lia.
Qed.

Lemma unit_rows_swap_xy : unit_rows [0; 1; 0; 1; 0; 0; 0; 0; 1].
Proof.
  exists 0, 1, 0, 1, 0, 0, 0, 0, 1. unfold unit_row.
  repeat split; try reflexivity; simpl; lia.
Qed.

(** The X-Y swap and the straight mounting have different scalars. *)
Lemma orientation_scalar_injective_witness :
  inv_orientation_matrix_to_scalar [0; 1; 0; 1; 0; 0; 0; 0; 1]
  <> inv_orientation_matrix_to_scalar identity_matrix.
Proof.
  intros E.
  pose proof (orientation_scalar_injective _ _ unit_rows_swap_xy
                unit_rows_identity E) as Hsame.
  discriminate Hsame.
Defined.

(** ** The two encoders side by side *)

(** X4: on a row that maps one axis the two encoders agree: the
    accelerometer code of the row is the axis that the gyroscope encoding
    selects, plus 4 when it sets the sign flag. *)
Theorem encoders_agree_on_unit_rows (o0 o1 o2 : Z) :
  unit_row o0 o1 o2 ->
  exists axis sign,
    gyro_row_dominance o0 o1 o2 = Some (axis, sign) /\
    inv_row_2_scale [o0; o1; o2] = Some (axis + 4 * sign).
Proof.
  intros H. pose proof (unit_row_cases _ _ _ H) as Hc. clear H.
  destruct Hc as [([-> | ->] & -> & ->) | [(-> & [-> | ->] & ->)
                 | (-> & -> & [-> | ->])]];
    do 2 eexists; split; vm_compute; reflexivity.
Qed.

Lemma encoders_agree_on_unit_rows_witness :
  gyro_row_dominance 0 0 (-1) = Some (2, 1) /\
  inv_row_2_scale [0; 0; -1] = Some 6.
Proof.
  destruct (encoders_agree_on_unit_rows 0 0 (-1)) as (axis & sign & G & A).
  - right; right. repeat split; reflexivity.
  - vm_compute in G. injection G as <- <-. split; [reflexivity | exact A].
Defined.

(** Away from the most negative [long] the magnitude is the absolute
    value. *)
Lemma ABS_defined (x : Z) : C.LONG_MIN < x -> ABS x = Some (Z.abs x).
Proof.
  intros H. unfold ABS.
  destruct (Z.eqb_spec x C.LONG_MIN); [lia | reflexivity].
Qed.

(** A row holding the most negative [long] has no selection: one of the
    magnitudes overflows. *)
Lemma gyro_axis_dominance_overflow (o0 o1 o2 : Z) :
  o0 = C.LONG_MIN \/ o1 = C.LONG_MIN \/ o2 = C.LONG_MIN ->
  gyro_axis_dominance o0 o1 o2 = None.
Proof.
  unfold gyro_axis_dominance, ABS. intros H.
  destruct (Z.eqb_spec o1 C.LONG_MIN); [reflexivity |].
  destruct (Z.eqb_spec o0 C.LONG_MIN); [reflexivity |].
  destruct (Z.eqb_spec o2 C.LONG_MIN); [| lia].
  cbn. destruct (Z.abs o0 <? Z.abs o1); reflexivity.
Qed.

(** X5: what the gyroscope selection guarantees on every row of [long]
    entries other than the most negative one, where no magnitude
    overflows. The selection is defined and the axis is 0, 1 or 2. A
    selected axis 0 or 1 holds an entry of largest magnitude of the row,
    no entry of lower index reaching it; a selected axis 2 only exceeds
    the second entry. With axis 0 or 2 the sign flag is 1 exactly when the
    selected entry is negative; with axis 1 it is 1 also when the first
    entry is negative. *)
Theorem gyro_axis_dominance_cases (o0 o1 o2 : Z) :
  C.LONG_MIN < o0 <= C.LONG_MAX ->
  C.LONG_MIN < o1 <= C.LONG_MAX ->
  C.LONG_MIN < o2 <= C.LONG_MAX ->
  (gyro_axis_dominance o0 o1 o2 = Some (0, if o0 <? 0 then 1 else 0) /\
   Z.abs o1 <= Z.abs o0 /\ Z.abs o2 <= Z.abs o1) \/
  (gyro_axis_dominance o0 o1 o2
   = Some (1, if (o1 <? 0) || (o0 <? 0) then 1 else 0) /\
   Z.abs o0 < Z.abs o1 /\ Z.abs o2 <= Z.abs o1) \/
  (gyro_axis_dominance o0 o1 o2 = Some (2, if o2 <? 0 then 1 else 0) /\
   Z.abs o1 < Z.abs o2).
Proof.
  intros H0 H1 H2. unfold gyro_axis_dominance.
  rewrite !ABS_defined by lia. cbn [mbind option_bind].
  destruct (Z.ltb_spec (Z.abs o1) (Z.abs o2)).
  - right; right. split; [| assumption].
    destruct (Z.abs o0 <? Z.abs o1); reflexivity.
  - destruct (Z.ltb_spec (Z.abs o0) (Z.abs o1)).
    + right; left. split; [| lia].
      destruct (o1 <? 0), (o0 <? 0); reflexivity.
    + left. split; [reflexivity | lia].
Qed.

(** A row whose first two entries tie in magnitude selects axis 0, with
    the sign of the first entry. *)
Lemma gyro_axis_dominance_cases_witness :
  gyro_axis_dominance (- 2 ^ 30) (2 ^ 30) 0 = Some (0, 1).
Proof.
  destruct (gyro_axis_dominance_cases (- 2 ^ 30) (2 ^ 30) 0)
    as [(E & _) | [(_ & L & _) | (_ & L)]].
  - unfold C.LONG_MIN, C.LONG_MAX. lia.
  - unfold C.LONG_MIN, C.LONG_MAX. lia.
  - unfold C.LONG_MIN, C.LONG_MAX. lia.
  - exact E.
  - exfalso. lia.
  - exfalso. lia.
Defined.

(** X6: on rows of [long] entries other than the most negative one, the
    selection departs from "largest magnitude, ties to the lower index"
    on exactly the rows whose third entry exceeds the second in magnitude
    without exceeding the first: there axis 2 is selected instead of
    axis 0. *)
Theorem gyro_axis_largest_iff (o0 o1 o2 : Z) :
  C.LONG_MIN < o0 <= C.LONG_MAX ->
  C.LONG_MIN < o1 <= C.LONG_MAX ->
  C.LONG_MIN < o2 <= C.LONG_MAX ->
  exists axis sign,
    gyro_axis_dominance o0 o1 o2 = Some (axis, sign) /\
    let largest :=
      if Z.abs (if Z.abs o0 <? Z.abs o1 then o1 else o0) <? Z.abs o2 then 2
      else if Z.abs o0 <? Z.abs o1 then 1 else 0 in
    (axis <> largest <-> Z.abs o1 < Z.abs o2 <= Z.abs o0) /\
    (axis <> largest -> axis = 2 /\ largest = 0).
Proof.
  intros H0 H1 H2. unfold gyro_axis_dominance.
  rewrite !ABS_defined by lia. cbn [mbind option_bind]. cbv zeta.
  destruct (Z.ltb_spec (Z.abs o0) (Z.abs o1));
    destruct (Z.ltb_spec (Z.abs o1) (Z.abs o2)); simpl;
    try (destruct (Z.ltb_spec (Z.abs o0) (Z.abs o2)); simpl);
    do 2 eexists; (split; [reflexivity |]);
    split; try split; intros; try lia; try contradiction; auto.
Qed.

(** The row (3, 1, 2) selects axis 2, although its first entry is the
    largest. *)
Lemma gyro_axis_largest_iff_witness :
  exists sign, gyro_axis_dominance 3 1 2 = Some (2, sign).
Proof.
  destruct (gyro_axis_largest_iff 3 1 2) as (axis & sign & E & D & F).
  - unfold C.LONG_MIN, C.LONG_MAX. lia.
  - unfold C.LONG_MIN, C.LONG_MAX. lia.
  - unfold C.LONG_MIN, C.LONG_MAX. lia.
  - exists sign. rewrite E. f_equal. f_equal.
    apply F. apply D. simpl. lia.
Defined.

(** ** Scale factors in their fields *)

(** X7: for every sensitivity a [long] can hold, neither the 64-bit
    product nor the conversion back to [long] overflows in the gyroscope
    scale factor: it is the quotient of gyro_sens * 767603923 by 2^30
    truncated toward zero, of magnitude at most that of gyro_sens. *)
Theorem gyro_sf_never_overflows (gyro_sens : Z) :
  C.LONG_MIN <= gyro_sens <= C.LONG_MAX ->
  gyro_sf_of gyro_sens = Some (Z.quot (gyro_sens * 767603923) (2 ^ 30)) /\
  Z.abs (Z.quot (gyro_sens * 767603923) (2 ^ 30)) <= Z.abs gyro_sens.
Proof.
  unfold C.LONG_MIN, C.LONG_MAX. intros Hg.
  change (2 ^ 30) with 1073741824.
  assert (Habs : Z.abs (Z.quot (gyro_sens * 767603923) 1073741824)
                 = Z.abs gyro_sens * 767603923 / 1073741824).
  { rewrite <- Z.quot_abs by lia. rewrite Z.abs_mul.
    change (Z.abs 767603923) with 767603923.
    change (Z.abs 1073741824) with 1073741824.
    apply Z.quot_div_nonneg; lia. }
  assert (Hle : Z.abs gyro_sens * 767603923 / 1073741824 <= Z.abs gyro_sens).
  { apply Z.div_le_upper_bound; lia. }
  assert (Hlt : Z.abs gyro_sens * 767603923 / 1073741824 < 2147483648).
  { apply Z.div_lt_upper_bound; lia. }
  split; [| lia].
  unfold gyro_sf_of, C.div. simpl (1073741824 =? 0). cbv iota.
  rewrite wrap_signed_small
    by (change (2 ^ (64 - 1)) with 9223372036854775808; lia).
  simpl. unfold C.to_long. rewrite wrap_signed_small; [reflexivity | lia |].
  change (2 ^ (32 - 1)) with 2147483648. lia.
Qed.

Lemma gyro_sf_never_overflows_witness :
  gyro_sf_of (- 2 ^ 31) = Some (-1535207846).
Proof.
  destruct (gyro_sf_never_overflows (- 2 ^ 31)) as [E _].
  - unfold C.LONG_MIN, C.LONG_MAX. lia.
  - rewrite E. reflexivity.
Defined.

Lemma two_bytes_value (sf : Z) :
  0 <= sf ->
  256 * C.to_uchar (Z.land (Z.shiftr sf 8) 255) + C.to_uchar (Z.land sf 255)
  = sf mod 65536.
Proof.
  intros Hsf. unfold C.to_uchar, C.wrap_unsigned.
  change 255 with (Z.ones 8). rewrite !Z.land_ones by lia.
  rewrite Z.shiftr_div_pow2 by lia.
  change (2 ^ 8) with 256. rewrite !Z.mod_mod by lia.
  pose proof (Z.div_mod sf 256 ltac:(lia)).
  pose proof (Z.div_mod (sf / 256) 256 ltac:(lia)).
  pose proof (Z.mod_pos_bound sf 256 ltac:(lia)).
  pose proof (Z.mod_pos_bound (sf / 256) 256 ltac:(lia)).
  apply Z.mod_unique_pos with (q := sf / 256 / 256); lia.
Qed.

Lemma accel_sf_nonneg (accel_sens sf : Z) :
  accel_sf_of accel_sens = Some sf -> 0 <= sf < 2 ^ 32.
Proof.
  unfold accel_sf_of, C.div.
  destruct (accel_sens =? 0); simpl; intros E; injection E as <-.
  - lia.
  - unfold C.to_ulong, C.wrap_unsigned. apply Z.mod_pos_bound. lia.
Qed.

(** X8: the accelerometer scale factor reaches the device through a
    16-bit field: the two bytes written to KEY_D_0_108 are, most
    significant first, the factor reduced modulo 65536. They hold the
    factor itself, floor(2^30 / accel_sens), when accel_sens exceeds
    16384. *)
Theorem accel_sf_two_bytes {W : Type} `{Externals W} (s : mpl W) :
  exists r w sf hi lo,
    accel_sf_of (accel_sens (obj s)) = Some sf /\
    accel_write_sf [0; 0; 0; 0] s
    = Done r (called (EvSetMpuMemory KEY_D_0_108 2 [hi; lo]) w s) /\
    0 <= hi < 256 /\ 0 <= lo < 256 /\
    256 * hi + lo = sf mod 65536 /\
    (16384 < accel_sens (obj s) <= C.LONG_MAX ->
     256 * hi + lo = 2 ^ 30 / accel_sens (obj s)).
Proof.
  destruct (accel_write_sf_spec s) as (r & sf & w & Esf & Ewrite).
  pose proof (accel_sf_nonneg _ _ Esf) as Hsf.
  exists r, w, sf, (C.to_uchar (Z.land (Z.shiftr sf 8) 255)),
    (C.to_uchar (Z.land sf 255)).
  split; [exact Esf |]. split; [exact Ewrite |].
  split; [unfold C.to_uchar, C.wrap_unsigned; apply Z.mod_pos_bound; lia |].
  split; [unfold C.to_uchar, C.wrap_unsigned; apply Z.mod_pos_bound; lia |].
  split; [apply two_bytes_value; lia |].
  intros Hbig. rewrite two_bytes_value by lia.
  unfold accel_sf_of, C.div in Esf.
  destruct (accel_sens (obj s) =? 0) eqn:E0; [apply Z.eqb_eq in E0; lia |].
  simpl in Esf. injection Esf as <-.
  rewrite Z.quot_div_nonneg by lia.
  unfold C.to_ulong, C.wrap_unsigned. unfold C.LONG_MAX in Hbig.
  change (2 ^ 30) with 1073741824. change (2 ^ 32) with 4294967296.
  assert (0 <= 1073741824 / accel_sens (obj s) < 65536).
  { split; [apply Z.div_pos; lia | apply Z.div_lt_upper_bound; lia]. }
  rewrite (Z.mod_small _ 4294967296) by lia.
  apply Z.mod_small. lia.
Qed.

Lemma accel_sf_two_bytes_witness :
  exists r w,
    @accel_write_sf sim_world sim_externals [0; 0; 0; 0]
      (sim_calibrated INV_STATE_DMP_OPENED)
    = Done r (called (EvSetMpuMemory KEY_D_0_108 2 [64; 0]) w
                (sim_calibrated INV_STATE_DMP_OPENED)).
Proof.
  destruct (@accel_sf_two_bytes sim_world sim_externals
              (sim_calibrated INV_STATE_DMP_OPENED))
    as (r & w & sf & hi & lo & Esf & E & Hhi & Hlo & _ & Hexact).
  specialize (Hexact ltac:(vm_compute; split; [reflexivity | discriminate])).
  change (2 ^ 30 / accel_sens (obj (sim_calibrated INV_STATE_DMP_OPENED)))
    with 16384 in Hexact.
  assert (hi = 64) by lia. assert (lo = 0) by lia. subst hi lo.
  exists r, w. exact E.
Defined.
(** * Further properties of the operations *)

(** ** Motion-state reset *)

(** A result that is not an error is [INV_SUCCESS]. *)
Lemma not_error_success (r : inv_error_t) :
  is_error r = false -> r = INV_SUCCESS.
Proof. destruct r; intros E; try discriminate E; reflexivity. Qed.

(** A device write of exactly the bytes of its buffer. *)
Lemma set_mpu_memory_exact {W} `{Externals W} (key : dmp_key) (len : Z)
  (bytes : list Z) (s : mpl W) :
  Z.to_nat len = length bytes ->
  inv_set_mpu_memory key len bytes s
  = Done (fst (ext_set_mpu_memory key len bytes (world s)))
         (called (EvSetMpuMemory key len bytes)
                 (snd (ext_set_mpu_memory key len bytes (world s))) s).
Proof.
  intros E. unfold inv_set_mpu_memory. rewrite E, Nat.leb_refl, firstn_all.
  reflexivity.
Qed.

(** Run the device write that is the first statement of the body. *)
Ltac wstep :=
  erewrite bind_Done; [| apply set_mpu_memory_exact; reflexivity]; cbv beta.

(** Resolve the tests of a run of writes with the results recorded among
    the hypotheses. *)
Ltac resolve_run :=
  repeat match goal with
         | |- context [if is_error ?t then _ else _] =>
             first [ replace (is_error t) with true by (symmetry; eassumption)
                   | replace (is_error t) with false by (symmetry; eassumption) ];
             cbv beta iota zeta
         end.

(** Close a goal about a run that stops after [n] calls of a sequence. *)
Ltac exists_done n :=
  do 2 eexists; exists n; split; [reflexivity |];
  split; [lia |];
  split; [cbn; rewrite <- ?app_assoc; reflexivity |];
  split; [split; [intros Hok;
           match goal with E : is_error _ = true |- _ => rewrite E in Hok end;
           discriminate Hok | intros Hn; lia] |];
  split; [intros _; cbn; auto |];
  split; [reflexivity |];
  split; [reflexivity |];
  cbn [writes_until_failure reset_motion_writes world called with_obj obj
       trace];
  resolve_run;
  cbn [made last_result device_after map length];
  split; [reflexivity |];
  split; [rewrite <- ?app_assoc; reflexivity |];
  split; [reflexivity |];
  split; [intros _; split; reflexivity | intros F; discriminate F].

(** Split on the test of the first [check] of the goal. *)
Ltac split_check E :=
  unfold check at 1;
  match goal with
  | |- context [if is_error ?r then _ else _] => destruct (is_error r) eqn:E
  end.

Section MotionReset.

Context {W : Type} `{DmpOpcodes} `{MplConstants} `{Externals W}.

(** X9: [inv_reset_motion] always returns, and it fails fast. It sets
    the motion state and the state-change flag to INV_MOTION, reads the
    tick count, and then makes its four device writes as the run that
    gives up at the first failing write: the writes made, the result
    returned and the outside world left are those of that run. The
    motion-state setter is called exactly when no write failed, on the
    Context and the world that the writes left. So the calls are an
    initial part of the fixed sequence (tick count, four writes, setter),
    cut right after the first write that fails, and the result is success
    exactly when the whole sequence ran. *)
Theorem reset_motion_fails_fast (s : mpl W) :
  let run :=
    writes_until_failure (reset_motion_writes (motion_duration (obj s)))
                         (world s) in
  let o := set_motion INV_MOTION INV_MOTION (ext_get_tick_count (world s))
                      (obj s) in
  exists r s' n,
    inv_reset_motion s = Done r s' /\
    (2 <= n <= 6)%nat /\
    trace s' = trace s ++ take n (reset_motion_calls (motion_duration (obj s))) /\
    (is_error r = false <-> n = 6%nat) /\
    (is_error r = true ->
     motion_state (obj s') = INV_MOTION /\
     flags_motion_state_change (obj s') = INV_MOTION /\
     no_motion_accel_time (obj s') = ext_get_tick_count (world s)) /\
    st s' = st s /\ cfg s' = cfg s /\
    r = last_result run /\
    trace s'
    = trace s ++ [EvGetTickCount]
      ++ map (fun x => EvSetMpuMemory (fst (fst x)) (snd (fst x)) (snd x))
             (made run)
      ++ (if is_error r then [] else [EvSetMotionState INV_MOTION]) /\
    n = (1 + length (made run) + (if is_error r then 0 else 1))%nat /\
    (is_error r = true -> obj s' = o /\ world s' = device_after run) /\
    (is_error r = false ->
     obj s' = fst (ext_set_motion_state INV_MOTION o (device_after run)) /\
     world s' = snd (ext_set_motion_state INV_MOTION o (device_after run))).
Proof.
  cbv zeta. unfold inv_reset_motion. cbv zeta.
  mstep. mstep. mstep. mstep. mstep.
  split_check E1.
  { exists_done 2%nat. }
  cbv beta iota.
  mstep. mstep.
  split_check E2.
  { exists_done 3%nat. }
  cbv beta iota.
  mstep.
  split_check E3.
  { exists_done 4%nat. }
  cbv beta iota.
  mstep.
  split_check E4.
  { exists_done 5%nat. }
  cbv beta iota.
  mstep.
  do 2 eexists. exists 6%nat. split; [reflexivity |].
  split; [lia |]. split.
  { cbn [trace called with_obj take reset_motion_calls].
    rewrite <- !app_assoc. reflexivity. }
  split; [rewrite E4; tauto |].
  split; [rewrite E4; discriminate |].
  split; [reflexivity |].
  split; [reflexivity |].
  cbn [writes_until_failure reset_motion_writes world called with_obj obj
       trace].
  resolve_run.
  cbn [made last_result device_after map length].
  split; [apply not_error_success; exact E4 |].
  split; [rewrite <- ?app_assoc; reflexivity |].
  split; [reflexivity |].
  split; [intros F; discriminate F | intros _; split; reflexivity].
Qed.

End MotionReset.

(** ** Sensor enable *)

Section SensorEnable.

Context {W : Type} `{DmpOpcodes} `{MplConstants} `{Externals W}.


(** Every leaf of a body whose services have all been unfolded. *)
Ltac split_ifs :=
  repeat (cbv beta iota zeta;
          match goal with
          | E : ?b = _ |- context [if ?b then _ else _] => rewrite E
          | |- context [if ?b then _ else _] =>
              lazymatch b with
              | true => fail
              | false => fail
              | _ => destruct b eqn:?
              end
          | |- context [match ?o with Some _ => _ | None => _ end] =>
              destruct o eqn:?
          end);
  cbv beta iota zeta.

(** X11: while the DMP is opened but not started, [inv_set_mpu_sensors]
    only records the request: whatever the mask and whatever the services
    answer, it writes no device memory, starts and stops no sensor and
    leaves the Context alone; when it returns success the mask is stored
    in [requested_sensors]. *)
Theorem set_mpu_sensors_records_when_not_running (sensors : Z) (s : mpl W) :
  st s = INV_STATE_DMP_OPENED ->
  exists r s',
    inv_set_mpu_sensors sensors s = Done r s' /\
    memory_writes_of (trace s') = memory_writes_of (trace s) /\
    Forall (fun e => match e with
                     | EvDlStart _ | EvDlStop _ | EvSetMotionState _ => False
                     | _ => True
                     end) (drop (length (trace s)) (trace s')) /\
    st s' = st s /\ obj s' = obj s /\
    (is_error r = false -> requested_sensors (cfg s') = sensors).
Proof.
  intros Hst.
  unfold inv_set_mpu_sensors, check, bind, ret, modify, get, inv_get_state,
    inv_get_dl_config, inv_mpu_get_sampling_rate_hz, inv_mpu_config_accel,
    inv_init_fifo_hardare, call_mode_change, inv_get_fifo_rate,
    inv_set_fifo_rate.
  rewrite Hst.
  change (state_ltb INV_STATE_DMP_OPENED INV_STATE_DMP_OPENED) with false.
  change (state_eqb INV_STATE_DMP_OPENED INV_STATE_DMP_STARTED) with false.
  cbv beta iota zeta.
  split_ifs;
    (do 2 eexists; split; [reflexivity |];
     cbn [trace called with_cfg st obj cfg];
     split; [unfold memory_writes_of; rewrite ?omap_app;
             cbn [omap list_omap]; rewrite ?app_nil_r; reflexivity |];
     split; [rewrite <- ?app_assoc, ?drop_app_length, ?drop_all;
             repeat constructor |];
     split; [first [reflexivity | exact Hst] |]; split; [reflexivity |];
     intros Hok;
     first [ reflexivity
           | discriminate Hok
           | match goal with
             | E : is_error _ = true |- _ => rewrite E in Hok
             end; discriminate Hok
           | cbn in Hok; discriminate Hok
           | cbn [trace called with_cfg st obj cfg world] in *; congruence ]).
Qed.

End SensorEnable.


Lemma set_mpu_sensors_records_when_not_running_witness :
  exists r s',
    @inv_set_mpu_sensors sim_world hw_opcodes hw_constants sim_externals
      0x78 (sim_state INV_STATE_DMP_OPENED [] sim_quiet) = Done r s' /\
    memory_writes_of (trace s') = [] /\
    obj s' = sim_obj.
Proof.
  destruct (@set_mpu_sensors_records_when_not_running
              sim_world hw_opcodes hw_constants sim_externals
              0x78 (sim_state INV_STATE_DMP_OPENED [] sim_quiet))
    as (r & s' & E & Hm & _ & _ & Ho & _);
    [ reflexivity
    | exists r, s'; split; [exact E | split; [exact Hm | exact Ho]] ].
Defined.

(** ** The data pump and apply-all: early returns *)

Section EarlyReturns.

Context {W : Type} `{DmpOpcodes} `{MplConstants} `{Externals W}.

(** X12: when the FIFO read of a started DMP fails, [inv_update_data]
    returns that error at once: the FIFO read is its only call, so no
    interrupt trigger is read or cleared, no callback runs and the FIFO
    status is not asked for. The packet limit passed is 100 with the DMP
    processor among the requested sensors and 1 without. *)
Theorem update_data_fifo_error (s : mpl W) :
  st s = INV_STATE_DMP_STARTED ->
  let ftry :=
    if Z.land (requested_sensors (cfg s)) INV_DMP_PROCESSOR =? 0
    then 1 else 100 in
  let rw := ext_read_and_process_fifo ftry (world s) in
  is_error (fst (fst rw)) = true ->
  inv_update_data s
  = Done (fst (fst rw)) (called (EvReadAndProcessFifo ftry) (snd rw) s).
Proof.
  intros Hst ftry rw Herr.
  unfold inv_update_data.
  mstep. mstep. rewrite Hst.
  change (negb (state_eqb INV_STATE_DMP_STARTED INV_STATE_DMP_STARTED))
    with false.
  cbv iota zeta.
  replace (if negb (Z.land (requested_sensors (cfg s)) INV_DMP_PROCESSOR =? 0)
           then 100 else 1) with ftry
    by (subst ftry;
        destruct (Z.land (requested_sensors (cfg s)) INV_DMP_PROCESSOR =? 0);
        reflexivity).
  mstep. fold rw.
  destruct (fst rw) as [result got] eqn:E. cbn [fst] in Herr |- *.
  unfold check. rewrite Herr. reflexivity.
Qed.

(** X13: with the FIFO read successful and no MPU interrupt pending,
    [inv_update_data] runs no callback, whatever the registry holds: it
    reads both triggers, clears the auxiliary one when it was pending,
    and returns the FIFO status with the Context untouched. *)
Theorem update_data_without_mpu_interrupt (s : mpl W) (got : Z) (w1 : W) :
  st s = INV_STATE_DMP_STARTED ->
  let ftry :=
    if Z.land (requested_sensors (cfg s)) INV_DMP_PROCESSOR =? 0
    then 1 else 100 in
  ext_read_and_process_fifo ftry (world s) = (INV_SUCCESS, got, w1) ->
  let aux := ext_get_interrupt_trigger INTSRC_AUX1 w1 in
  let w2 := if aux then ext_clear_interrupt_trigger INTSRC_AUX1 w1 else w1 in
  ext_get_interrupt_trigger INTSRC_MPU w2 = false ->
  exists s',
    inv_update_data s = Done (fst (ext_get_fifo_status w2)) s' /\
    trace s' = trace s
               ++ [EvReadAndProcessFifo ftry; EvGetInterruptTrigger INTSRC_AUX1]
               ++ (if aux then [EvClearInterruptTrigger INTSRC_AUX1] else [])
               ++ [EvGetInterruptTrigger INTSRC_MPU; EvGetFifoStatus] /\
    obj s' = obj s /\ st s' = st s /\ cfg s' = cfg s /\
    world s' = snd (ext_get_fifo_status w2).
Proof.
  intros Hst ftry Hfifo aux w2 Hmpu.
  unfold inv_update_data.
  mstep. mstep. rewrite Hst.
  change (negb (state_eqb INV_STATE_DMP_STARTED INV_STATE_DMP_STARTED))
    with false.
  cbv iota zeta.
  replace (if negb (Z.land (requested_sensors (cfg s)) INV_DMP_PROCESSOR =? 0)
           then 100 else 1) with ftry
    by (subst ftry;
        destruct (Z.land (requested_sensors (cfg s)) INV_DMP_PROCESSOR =? 0);
        reflexivity).
  mstep. cbn [world]. rewrite Hfifo. cbn [fst snd].
  unfold check at 1. cbn [is_error].
  mstep. cbn [world called]. fold aux.
  unfold inv_update_data, inv_get_interrupt_trigger,
    inv_clear_interrupt_trigger, inv_get_fifo_status, bind, ret.
  subst w2. destruct aux; cbn [world called] in *; rewrite Hmpu;
    (eexists; split; [reflexivity |]);
    cbn [trace called obj st cfg world]; rewrite <- ?app_assoc;
    repeat split; try reflexivity; exact Hst.
Qed.

(** X14: a [full_scale] setting outside the four that the switch names
    makes [inv_apply_calibration] return INV_ERROR_INVALID_PARAMETER in
    every lifecycle state, before any sensitivity is stored and before
    any calibration routine is called: the program state is unchanged. *)
Theorem apply_calibration_invalid_full_scale (s : mpl W) :
  ~ valid_full_scale (full_scale (cfg s)) ->
  is_Some (read_orientation (pd_orientation (pdata (cfg s)))) ->
  (is_Some (cfg_accel (cfg s)) ->
   is_Some (read_orientation (slave_orientation (pd_accel (pdata (cfg s)))))) ->
  (is_Some (cfg_compass (cfg s)) ->
   is_Some (read_orientation (slave_orientation (pd_compass (pdata (cfg s)))))) ->
  inv_apply_calibration s = Done INV_ERROR_INVALID_PARAMETER s.
Proof.
  intros Hfs [g Hg] Ha Hc.
  unfold inv_apply_calibration.
  mstep. rewrite Hg. mstep.
  assert (Ea : exists a,
    (match cfg_accel (cfg s) with
     | Some _ => defined (read_orientation
                            (slave_orientation (pd_accel (pdata (cfg s)))))
     | None => ret (replicate 9 0)
     end) s = Done a s).
  { destruct (cfg_accel (cfg s)).
    - destruct Ha as [a Ea]; [eexists; reflexivity |].
      rewrite Ea. eexists. reflexivity.
    - eexists. reflexivity. }
  destruct Ea as [a Ea]. rewrite (bind_Done _ _ _ _ _ Ea).
  assert (Ec : exists c,
    (match cfg_compass (cfg s) with
     | Some _ => defined (read_orientation
                            (slave_orientation (pd_compass (pdata (cfg s)))))
     | None => ret (replicate 9 0)
     end) s = Done c s).
  { destruct (cfg_compass (cfg s)).
    - destruct Hc as [c Ec]; [eexists; reflexivity |].
      rewrite Ec. eexists. reflexivity.
    - eexists. reflexivity. }
  destruct Ec as [c Ec]. rewrite (bind_Done _ _ _ _ _ Ec).
  destruct (full_scale (cfg s)); try (exfalso; apply Hfs; exact I).
  reflexivity.
Qed.

End EarlyReturns.

Lemma update_data_fifo_error_witness :
  result_of (@inv_update_data sim_world hw_constants sim_externals
               (sim_state INV_STATE_DMP_STARTED [3%nat] sim_fifo_failed))
  = Some (INV_ERROR_OTHER 1) /\
  option_map trace
    (state_of (@inv_update_data sim_world hw_constants sim_externals
                 (sim_state INV_STATE_DMP_STARTED [3%nat] sim_fifo_failed)))
  = Some [EvReadAndProcessFifo 1].
Proof.
  rewrite (@update_data_fifo_error sim_world hw_constants sim_externals
             (sim_state INV_STATE_DMP_STARTED [3%nat] sim_fifo_failed));
    [ split; reflexivity | reflexivity | reflexivity ].
Defined.

Lemma update_data_without_mpu_interrupt_witness :
  exists s',
    @inv_update_data sim_world hw_constants sim_externals
      (sim_state INV_STATE_DMP_STARTED [7; 8]%nat sim_quiet)
    = Done INV_SUCCESS s' /\
    interrupt_cbs_of (trace s') = [].
Proof.
  destruct (@update_data_without_mpu_interrupt
              sim_world hw_constants sim_externals
              (sim_state INV_STATE_DMP_STARTED [7; 8]%nat sim_quiet)
              1 sim_quiet)
    as (s' & E & Ht & _);
    [ reflexivity | reflexivity | reflexivity
    | exists s'; split; [exact E | rewrite Ht; reflexivity] ].
Defined.

Lemma apply_calibration_invalid_full_scale_witness :
  @inv_apply_calibration sim_world hw_opcodes hw_constants sim_externals
    (sim_unknown_full_scale INV_STATE_DMP_OPENED)
  = Done INV_ERROR_INVALID_PARAMETER (sim_unknown_full_scale INV_STATE_DMP_OPENED).
Proof.
  apply (@apply_calibration_invalid_full_scale
           sim_world hw_opcodes hw_constants sim_externals
           (sim_unknown_full_scale INV_STATE_DMP_OPENED)).
  - intros F. exact F.
  - eexists. reflexivity.
  - intros _. eexists. reflexivity.
  - intros [c Hc]. discriminate Hc.
Defined.

(** ** The opcodes of accelerometer calibration *)

(** The bits of the orientation scalar that the accelerometer
    calibration tests are the axis and the sign of the row codes. *)
Lemma orientation_scalar_bits (a0 a1 a2 a3 a4 a5 a6 a7 a8 : Z) :
  exists orient b0 b1 b2,
    inv_orientation_matrix_to_scalar [a0; a1; a2; a3; a4; a5; a6; a7; a8]
      = Some orient /\
    inv_row_2_scale [a0; a1; a2] = Some b0 /\
    inv_row_2_scale [a3; a4; a5] = Some b1 /\
    inv_row_2_scale [a6; a7; a8] = Some b2 /\
    Z.land orient 3 = group_axis b0 /\
    Z.land (Z.shiftr orient 3) 3 = group_axis b1 /\
    Z.land (Z.shiftr orient 6) 3 = group_axis b2 /\
    negb (Z.land orient 4 =? 0) = group_sign b0 /\
    negb (Z.land orient 32 =? 0) = group_sign b1 /\
    negb (Z.land orient 256 =? 0) = group_sign b2.
Proof.
  destruct (inv_row_2_scale_cases a0 a1 a2) as (b0 & E0 & I0).
  destruct (inv_row_2_scale_cases a3 a4 a5) as (b1 & E1 & I1).
  destruct (inv_row_2_scale_cases a6 a7 a8) as (b2 & E2 & I2).
  exists (C.to_ushort (Z.lor (C.to_ushort (Z.lor (C.to_ushort b0)
                     (Z.shiftl b1 3))) (Z.shiftl b2 6))), b0, b1, b2.
  split.
  - unfold inv_orientation_matrix_to_scalar.
    assert (R0 : inv_row_2_scale [a0; a1; a2; a3; a4; a5; a6; a7; a8]
                 = inv_row_2_scale [a0; a1; a2]) by reflexivity.
    assert (R1 : inv_row_2_scale (drop 3 [a0; a1; a2; a3; a4; a5; a6; a7; a8])
                 = inv_row_2_scale [a3; a4; a5]) by reflexivity.
    assert (R2 : inv_row_2_scale (drop 6 [a0; a1; a2; a3; a4; a5; a6; a7; a8])
                 = inv_row_2_scale [a6; a7; a8]) by reflexivity.
    rewrite R0, R1, R2, E0, E1, E2. reflexivity.
  - do 3 (split; [assumption |]).
    clear E0 E1 E2. simpl in I0, I1, I2.
    repeat match goal with
           | H : _ \/ _ |- _ => destruct H
           | H : False |- _ => destruct H
           end; subst; vm_compute; auto 7.
Qed.

(** Close the part of a goal that compares the trace, the result and
    the world of a calibration with the run of its writes. *)
Ltac writes_leaf defs :=
  cbv zeta;
  cbn [trace world called take Z.to_nat Pos.to_nat Pos.iter_op Nat.add] in *;
  unfold memory_writes_of; rewrite ?omap_app; cbn [omap list_omap];
  rewrite <- ?app_assoc;
  unfold defs;
  cbn [writes_until_failure app take length world called];
  resolve_run;
  cbn [made last_result device_after];
  repeat split;
  try reflexivity; try (cbn; lia);
  try (intros; first [congruence | reflexivity
                     | exfalso; eapply eq_true_false_abs; eassumption ]);
  try (apply not_error_success; assumption).

Ltac accel_leaf := writes_leaf accel_calibration_writes.

Section AccelOpcodes.

Context {W : Type} `{DmpOpcodes} `{Externals W}.

(** The orientation block on a matrix with an all-zero row reads past
    the opcode table. *)
Lemma accel_orientation_block_zero_row (scale : F.float)
  (a0 a1 a2 a3 a4 a5 a6 a7 a8 : Z) (s : mpl W) :
  cal_defined scale [a0; a1; a2; a3; a4; a5; a6; a7; a8] ->
  (a0 = 0 /\ a1 = 0 /\ a2 = 0) \/ (a3 = 0 /\ a4 = 0 /\ a5 = 0) \/
  (a6 = 0 /\ a7 = 0 /\ a8 = 0) ->
  accel_orientation_block scale [a0; a1; a2; a3; a4; a5; a6; a7; a8] s = Undef.
Proof.
  intros Hcal Hzero.
  destruct (cal_loop_total set_accel_cal scale _ set_accel_cal_frame Hcal s)
    as (s1 & E1 & _).
  destruct (orientation_scalar_bits a0 a1 a2 a3 a4 a5 a6 a7 a8)
    as (orient & b0 & b1 & b2 & Eo & R0 & R1 & R2 & A0 & A1 & A2 & _).
  unfold accel_orientation_block. cbv zeta.
  rewrite (bind_Done _ _ s s1 tt E1).
  rewrite Eo. mstep. rewrite A0, A1, A2.
  assert (Z7 : group_axis 7 = 3) by reflexivity.
  assert (Hb : b0 = 7 \/ b1 = 7 \/ b2 = 7).
  { destruct Hzero as [(-> & -> & ->) | [(-> & -> & ->) | (-> & -> & ->)]];
      rewrite inv_row_2_scale_zero in *; [left | right; left | right; right];
      congruence. }
  unfold bind.
  destruct ([DINA4C; DINACD; DINA6C] !! Z.to_nat (group_axis b0)) eqn:L0;
    [| reflexivity].
  cbn [defined].
  destruct ([DINA4C; DINACD; DINA6C] !! Z.to_nat (group_axis b1)) eqn:L1;
    [| reflexivity].
  destruct ([DINA4C; DINACD; DINA6C] !! Z.to_nat (group_axis b2)) eqn:L2;
    [| reflexivity].
  exfalso.
  destruct Hb as [-> | [-> | ->]]; rewrite Z7 in *; discriminate.
Qed.

(** X15: in state DMP_OPENED, with an accelerometer whose id is not
    zero and the optional reset write not failing, accelerometer
    calibration of a mounting matrix that has an all-zero row has no
    defined result: the row's code 7 makes line 428, 429 or 430 read
    entry 3 of the three-entry opcode table. *)
Theorem accel_calibration_zero_row_undefined (range : F.float)
  (a0 a1 a2 a3 a4 a5 a6 a7 a8 : Z) (accel : ext_slave_descr) (s : mpl W) :
  st s = INV_STATE_DMP_OPENED ->
  (ext_dmpkey_supported KEY_D_1_152 (world s) = true ->
   is_error (fst (ext_set_mpu_memory KEY_D_1_152 4 [0; 0; 0; 0] (world s)))
   = false) ->
  cfg_accel (cfg s) = Some accel ->
  slave_id accel <> 0 ->
  cal_defined (F.div range (F.of_Z 32768)) [a0; a1; a2; a3; a4; a5; a6; a7; a8] ->
  (a0 = 0 /\ a1 = 0 /\ a2 = 0) \/ (a3 = 0 /\ a4 = 0 /\ a5 = 0) \/
  (a6 = 0 /\ a7 = 0 /\ a8 = 0) ->
  inv_set_accel_calibration range [a0; a1; a2; a3; a4; a5; a6; a7; a8] s
  = Undef.
Proof.
  intros Hst Hreset Haccel Hid Hcal Hzero.
  unfold inv_set_accel_calibration. cbv zeta.
  mstep. mstep. rewrite Hst.
  change (negb (state_eqb INV_STATE_DMP_OPENED INV_STATE_DMP_OPENED)) with false.
  cbv iota.
  mstep.
  assert (Hfirst : exists s2,
    (if ext_dmpkey_supported KEY_D_1_152 (world s)
     then inv_set_mpu_memory KEY_D_1_152 4 [0; 0; 0; 0]
     else ret INV_SUCCESS)
      (called (EvDmpKeySupported KEY_D_1_152) (world s) s)
    = Done (if ext_dmpkey_supported KEY_D_1_152 (world s)
            then fst (ext_set_mpu_memory KEY_D_1_152 4 [0; 0; 0; 0] (world s))
            else INV_SUCCESS) s2).
  { destruct (ext_dmpkey_supported KEY_D_1_152 (world s));
      eexists; reflexivity. }
  destruct Hfirst as (s2 & E2).
  rewrite (bind_Done _ _ _ _ _ E2).
  unfold check at 1.
  replace (is_error _) with false
    by (destruct (ext_dmpkey_supported KEY_D_1_152 (world s));
        [symmetry; apply Hreset; reflexivity | reflexivity]).
  assert (Hz : exists s3,
    (if F.is_zero (F.div range (F.of_Z 32768))
     then modify (with_obj (set_accel_sens 0)) else ret tt) s2 = Done tt s3).
  { destruct (F.is_zero _); eexists; reflexivity. }
  destruct Hz as (s3 & E3).
  rewrite (bind_Done _ _ _ _ _ E3).
  rewrite Haccel. mstep.
  apply Z.eqb_neq in Hid. rewrite Hid. cbn [negb].
  unfold bind at 1.
  rewrite (accel_orientation_block_zero_row _ _ _ _ _ _ _ _ _ _ _ Hcal Hzero).
  reflexivity.
Qed.

(** The orientation block of a matrix without an all-zero row: the
    calibration matrix is stored, then the two opcode writes are made. *)
Lemma accel_orientation_block_run (scale : F.float)
  (a0 a1 a2 a3 a4 a5 a6 a7 a8 b0 b1 b2 p0 p1 p2 : Z) (s : mpl W) :
  cal_defined scale [a0; a1; a2; a3; a4; a5; a6; a7; a8] ->
  inv_row_2_scale [a0; a1; a2] = Some b0 ->
  inv_row_2_scale [a3; a4; a5] = Some b1 ->
  inv_row_2_scale [a6; a7; a8] = Some b2 ->
  accel_axis_opcode b0 = Some p0 ->
  accel_axis_opcode b1 = Some p1 ->
  accel_axis_opcode b2 = Some p2 ->
  exists s1,
    cal_frame s s1 /\
    accel_orientation_block scale [a0; a1; a2; a3; a4; a5; a6; a7; a8] s
    = bind (inv_set_mpu_memory KEY_FCFG_2 3 [p0; p1; p2]) (fun result =>
      check result
        (inv_set_mpu_memory KEY_FCFG_7 3
           [accel_sign_opcode DINA26 b0; accel_sign_opcode DINA46 b1;
            accel_sign_opcode DINA66 b2])) s1.
Proof.
  intros Hcal R0 R1 R2 P0 P1 P2.
  destruct (cal_loop_total set_accel_cal scale _ set_accel_cal_frame Hcal s)
    as (s1 & E1 & F1).
  exists s1. split; [exact F1 |].
  destruct (orientation_scalar_bits a0 a1 a2 a3 a4 a5 a6 a7 a8)
    as (orient & c0 & c1 & c2 & Eo & R0' & R1' & R2'
        & A0 & A1 & A2 & S0 & S1 & S2).
  assert (c0 = b0) by congruence. assert (c1 = b1) by congruence.
  assert (c2 = b2) by congruence. subst c0 c1 c2.
  unfold accel_axis_opcode in P0, P1, P2.
  unfold accel_orientation_block. cbv zeta.
  rewrite (bind_Done _ _ s s1 tt E1).
  rewrite Eo. mstep. rewrite A0, A1, A2, P0, P1, P2.
  mstep. mstep. mstep.
  rewrite S0, S1, S2. reflexivity.
Qed.

(** X16: in state DMP_OPENED, accelerometer calibration of a matrix
    without an all-zero row makes its device writes as the run that
    gives up at the first failing write. The writes are, in this order,
    the optional reset of KEY_D_1_152, the axis opcodes of the three rows
    to KEY_FCFG_2, their sign opcodes to KEY_FCFG_7 and the two bytes of
    the scale factor to KEY_D_0_108; the writes made, the result returned
    and the outside world left are those of that run on the world at
    entry, so the calibration stops at the first write that fails and a
    run that returns success has made them all. *)
Theorem accel_calibration_write_sequence (range : F.float)
  (a0 a1 a2 a3 a4 a5 a6 a7 a8 b0 b1 b2 p0 p1 p2 : Z)
  (accel : ext_slave_descr) (s : mpl W) :
  st s = INV_STATE_DMP_OPENED ->
  cfg_accel (cfg s) = Some accel ->
  slave_id accel <> 0 ->
  cal_defined (F.div range (F.of_Z 32768)) [a0; a1; a2; a3; a4; a5; a6; a7; a8] ->
  inv_row_2_scale [a0; a1; a2] = Some b0 ->
  inv_row_2_scale [a3; a4; a5] = Some b1 ->
  inv_row_2_scale [a6; a7; a8] = Some b2 ->
  accel_axis_opcode b0 = Some p0 ->
  accel_axis_opcode b1 = Some p1 ->
  accel_axis_opcode b2 = Some p2 ->
  exists r s' sf n,
    inv_set_accel_calibration range [a0; a1; a2; a3; a4; a5; a6; a7; a8] s
    = Done r s' /\
    accel_sf_of (accel_sens (obj s')) = Some sf /\
    let writes :=
      accel_calibration_writes (ext_dmpkey_supported KEY_D_1_152 (world s))
        p0 p1 p2 b0 b1 b2 sf in
    let run := writes_until_failure writes (world s) in
    memory_writes_of (trace s')
    = memory_writes_of (trace s) ++ take n writes /\
    (1 <= n <= length writes)%nat /\
    (is_error r = false -> n = length writes) /\
    made run = take n writes /\
    r = last_result run /\
    world s' = device_after run.
Proof.
  intros Hst Haccel Hid Hcal R0 R1 R2 P0 P1 P2.
  unfold inv_set_accel_calibration. cbv zeta.
  mstep. mstep. rewrite Hst.
  change (negb (state_eqb INV_STATE_DMP_OPENED INV_STATE_DMP_OPENED)) with false.
  cbv iota.
  mstep.
  apply Z.eqb_neq in Hid.
  destruct (ext_dmpkey_supported KEY_D_1_152 (world s)) eqn:Esup.
  - (* the reset write is made *)
    wstep. cbn [world called]. split_check E0.
    { destruct (scale_factors_defined 0 (accel_sens (obj s)))
        as (_ & _ & [sf Esf]).
      do 2 eexists. exists sf, 1%nat.
      split; [reflexivity |]. split; [exact Esf |]. accel_leaf. }
    match goal with
    | |- context [bind ?c _ ?s2] =>
        assert (Hz : exists s3, c s2 = Done tt s3 /\ trace s3 = trace s2 /\
                                world s3 = world s2)
          by (destruct (F.is_zero _); eexists; repeat split)
    end.
    destruct Hz as (s3 & E3 & T3 & W3).
    rewrite (bind_Done _ _ _ _ _ E3).
    rewrite Haccel. mstep. rewrite Hid. cbn [negb].
    destruct (accel_orientation_block_run _ _ _ _ _ _ _ _ _ _ _ _ _ _ _ _ s3
                Hcal R0 R1 R2 P0 P1 P2) as (s4 & F4 & E4).
    assert (T4 : trace s4 = trace s3) by (unfold cal_frame in F4; tauto).
    assert (W4 : world s4 = world s3) by (unfold cal_frame in F4; tauto).
    rewrite T3 in T4. rewrite W3 in W4. cbn [trace world called] in T4, W4.
    unfold bind at 1. rewrite E4. clear E4 E3.
    wstep. rewrite W4. split_check E1.
    { unfold ret. cbv beta iota. unfold check. rewrite E1.
      destruct (scale_factors_defined 0 (accel_sens (obj s4)))
        as (_ & _ & [sf Esf]).
      do 2 eexists. exists sf, 2%nat.
      split; [reflexivity |]. split; [exact Esf |].
      cbn [trace called]. rewrite T4. accel_leaf. }
    rewrite set_mpu_memory_exact by reflexivity. cbn [world called].
    unfold check at 1.
    match goal with
    | |- context [if is_error ?r then _ else _] => destruct (is_error r) eqn:E2
    end.
    { destruct (scale_factors_defined 0 (accel_sens (obj s4)))
        as (_ & _ & [sf Esf]).
      do 2 eexists. exists sf, 3%nat.
      split; [reflexivity |]. split; [exact Esf |].
      cbn [trace called]. rewrite T4. accel_leaf. }
    destruct (scale_factors_defined 0 (accel_sens (obj s4)))
      as (_ & _ & [sf Esf]).
    unfold accel_write_sf. mstep. cbn [obj called]. rewrite Esf. mstep. mstep.
    split_check E3;
      (do 2 eexists; exists sf, 4%nat;
       split; [reflexivity |];
       split; [exact Esf |];
       cbn [trace called]; rewrite T4; accel_leaf).
  - (* no reset write *)
    mstep. unfold check at 1. cbv iota beta. cbn [is_error].
    match goal with
    | |- context [bind ?c _ ?s2] =>
        assert (Hz : exists s3, c s2 = Done tt s3 /\ trace s3 = trace s2 /\
                                world s3 = world s2)
          by (destruct (F.is_zero _); eexists; repeat split)
    end.
    destruct Hz as (s3 & E3 & T3 & W3).
    rewrite (bind_Done _ _ _ _ _ E3).
    rewrite Haccel. mstep. rewrite Hid. cbn [negb].
    destruct (accel_orientation_block_run _ _ _ _ _ _ _ _ _ _ _ _ _ _ _ _ s3
                Hcal R0 R1 R2 P0 P1 P2) as (s4 & F4 & E4).
    assert (T4 : trace s4 = trace s3) by (unfold cal_frame in F4; tauto).
    assert (W4 : world s4 = world s3) by (unfold cal_frame in F4; tauto).
    rewrite T3 in T4. rewrite W3 in W4. cbn [trace world called] in T4, W4.
    unfold bind at 1. rewrite E4. clear E4 E3.
    wstep. rewrite W4. split_check E1.
    { unfold ret. cbv beta iota. unfold check. rewrite E1.
      destruct (scale_factors_defined 0 (accel_sens (obj s4)))
        as (_ & _ & [sf Esf]).
      do 2 eexists. exists sf, 1%nat.
      split; [reflexivity |]. split; [exact Esf |].
      cbn [trace called]. rewrite T4. accel_leaf. }
    rewrite set_mpu_memory_exact by reflexivity. cbn [world called].
    unfold check at 1.
    match goal with
    | |- context [if is_error ?r then _ else _] => destruct (is_error r) eqn:E2
    end.
    { destruct (scale_factors_defined 0 (accel_sens (obj s4)))
        as (_ & _ & [sf Esf]).
      do 2 eexists. exists sf, 2%nat.
      split; [reflexivity |]. split; [exact Esf |].
      cbn [trace called]. rewrite T4. accel_leaf. }
    destruct (scale_factors_defined 0 (accel_sens (obj s4)))
      as (_ & _ & [sf Esf]).
    unfold accel_write_sf. mstep. cbn [obj called]. rewrite Esf. mstep. mstep.
    split_check E3;
      (do 2 eexists; exists sf, 3%nat;
       split; [reflexivity |];
       split; [exact Esf |];
       cbn [trace called]; rewrite T4; accel_leaf).
Qed.

End AccelOpcodes.

(** The conversions of a 2 g calibration are defined for every matrix
    with entries -1, 0 and 1. *)
Lemma cal_defined_2g_signs (m : matrix) :
  length m = 9%nat ->
  Forall (fun a => a = -1 \/ a = 0 \/ a = 1) m ->
  cal_defined (F.div (F.of_Z 2) (F.of_Z 32768)) m.
Proof.
  intros Hlen Hall kk Hk.
  destruct (lookup_lt_is_Some_2 m kk) as [o Eo]; [lia |].
  exists o.
  pose proof (proj1 (Forall_lookup _ _) Hall kk o Eo) as Ho.
  destruct Ho as [-> | [-> | ->]];
    eexists; (split; [exact Eo | vm_compute; reflexivity]).
Qed.

Lemma accel_calibration_zero_row_undefined_witness :
  @inv_set_accel_calibration sim_world hw_opcodes sim_externals
    (F.of_Z 2) [1; 0; 0; 0; 0; 0; 0; 0; 1] (sim_calibrated INV_STATE_DMP_OPENED)
  = Undef.
Proof.
  apply (@accel_calibration_zero_row_undefined sim_world hw_opcodes
           sim_externals (F.of_Z 2) 1 0 0 0 0 0 0 0 1 sim_accel
           (sim_calibrated INV_STATE_DMP_OPENED)).
  - reflexivity.
  - intros _. reflexivity.
  - reflexivity.
  - discriminate.
  - apply cal_defined_2g_signs; [reflexivity |].
    repeat (constructor; [lia |]); constructor.
  - right. left. repeat split.
Defined.

Lemma accel_calibration_write_sequence_witness :
  exists r s' sf n,
    @inv_set_accel_calibration sim_world hw_opcodes sim_externals
      (F.of_Z 2) [0; -1; 0; 1; 0; 0; 0; 0; 1]
      (sim_calibrated INV_STATE_DMP_OPENED) = Done r s' /\
    memory_writes_of (trace s')
    = take n [ (KEY_D_1_152, 4, [0; 0; 0; 0]);
               (KEY_FCFG_2, 3, [0xcd; 0x4c; 0x6c]);
               (KEY_FCFG_7, 3, [0x27; 0x46; 0x66]);
               (KEY_D_0_108, 2, [C.to_uchar (Z.land (Z.shiftr sf 8) 255);
                                 C.to_uchar (Z.land sf 255)]) ].
Proof.
  destruct (@accel_calibration_write_sequence sim_world hw_opcodes
              sim_externals (F.of_Z 2) 0 (-1) 0 1 0 0 0 0 1 5 0 2
              0xcd 0x4c 0x6c sim_accel (sim_calibrated INV_STATE_DMP_OPENED))
    as (r & s' & sf & n & E & _ & T & _);
    [ reflexivity | reflexivity | discriminate
    | apply cal_defined_2g_signs; [reflexivity | repeat (constructor; [lia |]); constructor]
    | reflexivity | reflexivity | reflexivity
    | reflexivity | reflexivity | reflexivity
    | exists r, s', sf, n; split; [exact E | exact T] ].
Defined.

(** ** The writes of gyroscope calibration *)

Ltac gyro_leaf := writes_leaf gyro_calibration_writes.

Section GyroWrites.

Context {W : Type} `{DmpOpcodes} `{Externals W}.

(** One iteration of the loop of lines 279-282. *)
Lemma gyro_fill_step (scale : F.float) (orientation : matrix) (kk : nat)
  (o c g : Z) (s : mpl W) :
  orientation !! kk = Some o ->
  F.to_long (F.mul (F.mul scale (F.of_Z o)) (F.of_Z (Z.shiftl 1 30))) = Some c ->
  gyro_orient_entry o = Some g ->
  bind (defined (orientation !! kk)) (fun o =>
  bind (defined (F.to_long (F.mul (F.mul scale (F.of_Z o))
                                  (F.of_Z (Z.shiftl 1 30))))) (fun c =>
  bind (modify (with_obj (set_gyro_cal kk c))) (fun _ =>
  bind (defined (gyro_orient_entry o)) (fun g =>
  modify (with_obj (set_gyro_orient kk g)))))) s
  = Done tt (with_obj (set_gyro_orient kk g) (with_obj (set_gyro_cal kk c) s)).
Proof.
  intros Eo Ec Eg. unfold bind, defined, modify.
  rewrite Eo, Ec, Eg. reflexivity.
Qed.

(** The loop of lines 279-282 fills [gyro_orient] with the scaled
    entries and changes nothing but the two gyroscope matrices. *)
Lemma gyro_fill_loop (scale : F.float)
  (a0 a1 a2 a3 a4 a5 a6 a7 a8 g0 g1 g2 g3 g4 g5 g6 g7 g8 : Z) (s : mpl W) :
  cal_defined scale [a0; a1; a2; a3; a4; a5; a6; a7; a8] ->
  gyro_orient_row a0 a1 a2 = Some (g0, g1, g2) ->
  gyro_orient_row a3 a4 a5 = Some (g3, g4, g5) ->
  gyro_orient_row a6 a7 a8 = Some (g6, g7, g8) ->
  length (gyro_orient (obj s)) = 9%nat ->
  exists s1,
    for_upto 9 (fun kk =>
      bind (defined ([a0; a1; a2; a3; a4; a5; a6; a7; a8] !! kk)) (fun o =>
      bind (defined (F.to_long (F.mul (F.mul scale (F.of_Z o))
                                      (F.of_Z (Z.shiftl 1 30))))) (fun c =>
      bind (modify (with_obj (set_gyro_cal kk c))) (fun _ =>
      bind (defined (gyro_orient_entry o)) (fun g =>
      modify (with_obj (set_gyro_orient kk g))))))) s = Done tt s1 /\
    cal_frame s s1 /\
    gyro_orient (obj s1) = [g0; g1; g2; g3; g4; g5; g6; g7; g8].
Proof.
  intros Hcal R0 R1 R2 Hlen.
  unfold gyro_orient_row in R0, R1, R2.
  destruct (gyro_orient_entry a0) as [h0 |] eqn:G0; [| discriminate R0].
  destruct (gyro_orient_entry a1) as [h1 |] eqn:G1; [| discriminate R0].
  destruct (gyro_orient_entry a2) as [h2 |] eqn:G2; [| discriminate R0].
  destruct (gyro_orient_entry a3) as [h3 |] eqn:G3; [| discriminate R1].
  destruct (gyro_orient_entry a4) as [h4 |] eqn:G4; [| discriminate R1].
  destruct (gyro_orient_entry a5) as [h5 |] eqn:G5; [| discriminate R1].
  destruct (gyro_orient_entry a6) as [h6 |] eqn:G6; [| discriminate R2].
  destruct (gyro_orient_entry a7) as [h7 |] eqn:G7; [| discriminate R2].
  destruct (gyro_orient_entry a8) as [h8 |] eqn:G8; [| discriminate R2].
  cbn in R0, R1, R2.
  injection R0 as -> -> ->. injection R1 as -> -> ->. injection R2 as -> -> ->.
  destruct (Hcal 0%nat ltac:(lia)) as (o0 & c0 & O0 & C0).
  destruct (Hcal 1%nat ltac:(lia)) as (o1 & c1 & O1 & C1).
  destruct (Hcal 2%nat ltac:(lia)) as (o2 & c2 & O2 & C2).
  destruct (Hcal 3%nat ltac:(lia)) as (o3 & c3 & O3 & C3).
  destruct (Hcal 4%nat ltac:(lia)) as (o4 & c4 & O4 & C4).
  destruct (Hcal 5%nat ltac:(lia)) as (o5 & c5 & O5 & C5).
  destruct (Hcal 6%nat ltac:(lia)) as (o6 & c6 & O6 & C6).
  destruct (Hcal 7%nat ltac:(lia)) as (o7 & c7 & O7 & C7).
  destruct (Hcal 8%nat ltac:(lia)) as (o8 & c8 & O8 & C8).
  cbn in O0, O1, O2, O3, O4, O5, O6, O7, O8.
  injection O0 as <-. injection O1 as <-. injection O2 as <-.
  injection O3 as <-. injection O4 as <-. injection O5 as <-.
  injection O6 as <-. injection O7 as <-. injection O8 as <-.
  destruct (gyro_orient (obj s))
    as [| x0 [| x1 [| x2 [| x3 [| x4 [| x5 [| x6 [| x7 [| x8 [| x9 l]]]]]]]]]]
    eqn:Eg; try discriminate Hlen.
  unfold for_upto. cbn [for_range].
  do 9 (erewrite bind_Done;
        [| eapply gyro_fill_step; [reflexivity | eassumption | eassumption]]).
  eexists. split; [reflexivity |]. split.
  - unfold cal_frame. cbn. tauto.
  - cbn [obj with_obj set_gyro_orient set_gyro_cal set_regs_cal gyro_orient
         gyro_cal].
    rewrite Eg. reflexivity.
Qed.

(** The selection of lines 292-321 for row [i], from a filled
    [gyro_orient] on which no magnitude overflows. *)
Lemma gyro_row_spec (i : nat) (acc : list Z * nat) (o0 o1 o2 : Z)
  (d : Z * Z) (s : mpl W) :
  gyro_orient (obj s) !! (0 + 3 * i)%nat = Some o0 ->
  gyro_orient (obj s) !! (1 + 3 * i)%nat = Some o1 ->
  gyro_orient (obj s) !! (2 + 3 * i)%nat = Some o2 ->
  gyro_axis_dominance o0 o1 o2 = Some d ->
  gyro_row i acc s = Done (gyro_emit (fst d) (snd d) acc) s.
Proof.
  intros E0 E1 E2 Ed. unfold gyro_row, bind, get, defined, ret.
  rewrite E0, E1, E2, Ed. destruct d. reflexivity.
Qed.

(** X17: in state DMP_OPENED, on a mounting matrix whose rows have a
    defined axis dominance (no magnitude overflows), gyroscope
    calibration stores the sensitivity and then makes its device writes
    as the run that gives up at the first failing write. The writes are,
    in this order, the axis opcodes of the three rows to KEY_FCFG_1,
    their sign opcodes to KEY_FCFG_3, the scale factor to KEY_D_0_104 and
    the reciprocal scale factor to KEY_D_0_24, the opcodes being those of
    the axis dominance of each row; the writes made, the result returned
    and the outside world left are those of that run on the world at
    entry, so the calibration stops at the first write that fails, and a
    run that returns success has made all four and holds the scale factor
    in [gyro_sf]. *)
Theorem gyro_calibration_write_sequence (range : F.float)
  (a0 a1 a2 a3 a4 a5 a6 a7 a8 : Z) (d0 d1 d2 : Z * Z) (sens : Z) (s : mpl W) :
  st s = INV_STATE_DMP_OPENED ->
  length (gyro_orient (obj s)) = 9%nat ->
  let trimmed :=
    if negb (gyro_sens_trim (cfg s) =? 0)
    then F.mul range (F.div (F.div (F.of_Z 32768) (F.of_Z 250))
                            (F.of_Z (gyro_sens_trim (cfg s))))
    else range in
  F.to_long (F.mul trimmed (F.of_Z 32768)) = Some sens ->
  cal_defined (F.div trimmed (F.of_Z 32768))
              [a0; a1; a2; a3; a4; a5; a6; a7; a8] ->
  gyro_row_dominance a0 a1 a2 = Some d0 ->
  gyro_row_dominance a3 a4 a5 = Some d1 ->
  gyro_row_dominance a6 a7 a8 = Some d2 ->
  exists r s' sf0 sf n,
    inv_set_gyro_calibration range [a0; a1; a2; a3; a4; a5; a6; a7; a8] s
    = Done r s' /\
    gyro_sf_of sens = Some sf0 /\
    gyro_recip_sf sens = Some sf /\
    gyro_sens (obj s') = sens /\
    let writes := gyro_calibration_writes d0 d1 d2 sf0 sf in
    let run := writes_until_failure writes (world s) in
    memory_writes_of (trace s')
    = memory_writes_of (trace s) ++ take n writes /\
    (1 <= n <= 4)%nat /\
    (is_error r = false -> n = 4%nat /\ gyro_sf (obj s') = sf0) /\
    made run = take n writes /\
    r = last_result run /\
    world s' = device_after run.
Proof.
  intros Hst Hlen trimmed Hsens Hcal D0 D1 D2.
  unfold gyro_row_dominance in D0, D1, D2.
  destruct (gyro_orient_row a0 a1 a2) as [[[g0 g1] g2] |] eqn:R0;
    [| discriminate D0].
  destruct (gyro_orient_row a3 a4 a5) as [[[g3 g4] g5] |] eqn:R1;
    [| discriminate D1].
  destruct (gyro_orient_row a6 a7 a8) as [[[g6 g7] g8] |] eqn:R2;
    [| discriminate D2].
  cbn [mbind option_bind] in D0, D1, D2.
  destruct (scale_factors_defined sens 0) as ([sf0 Esf0] & [sf Esf] & _).
  unfold inv_set_gyro_calibration. cbv zeta.
  mstep. mstep. rewrite Hst.
  change (negb (state_eqb INV_STATE_DMP_OPENED INV_STATE_DMP_OPENED)) with false.
  cbv iota. fold trimmed. rewrite Hsens. mstep. mstep.
  destruct (gyro_fill_loop (F.div trimmed (F.of_Z 32768))
              a0 a1 a2 a3 a4 a5 a6 a7 a8 g0 g1 g2 g3 g4 g5 g6 g7 g8
              (with_obj (set_gyro_sens sens) s) Hcal R0 R1 R2 Hlen)
    as (s1 & E1 & F1 & O1).
  rewrite (bind_Done _ _ _ _ _ E1).
  assert (Hgs : gyro_sens (obj s1) = sens)
    by (unfold cal_frame in F1; cbn in F1; tauto).
  assert (Htr : trace s1 = trace s)
    by (unfold cal_frame in F1; cbn in F1; tauto).
  assert (Hw : world s1 = world s)
    by (unfold cal_frame in F1; cbn in F1; tauto).
  erewrite bind_Done;
    [| eapply gyro_row_spec; [rewrite O1; reflexivity .. | exact D0]].
  erewrite bind_Done;
    [| eapply gyro_row_spec; [rewrite O1; reflexivity .. | exact D1]].
  erewrite bind_Done;
    [| eapply gyro_row_spec; [rewrite O1; reflexivity .. | exact D2]].
  clear D0 D1 D2.
  destruct d0 as [m0 t0]. destruct d1 as [m1 t1]. destruct d2 as [m2 t2].
  cbn [fst snd].
  assert (Eregs : exists regs,
    fst (gyro_emit m2 t2 (gyro_emit m1 t1 (gyro_emit m0 t0
           (<[5%nat := DINA76]> (<[4%nat := DINA56]> (<[3%nat := DINA36]>
              (replicate 12 0))), 0%nat)))) = regs /\
    take 3 regs = [gyro_axis_opcode m0; gyro_axis_opcode m1;
                   gyro_axis_opcode m2] /\
    take 3 (drop 3 regs) = [gyro_sign_opcode DINA36 t0;
                            gyro_sign_opcode DINA56 t1;
                            gyro_sign_opcode DINA76 t2] /\
    length regs = 12%nat).
  { eexists. split; [reflexivity |].
    unfold gyro_emit, gyro_sign_opcode, gyro_axis_opcode.
    destruct (negb (t0 =? 0)), (negb (t1 =? 0)), (negb (t2 =? 0));
      repeat split; reflexivity. }
  destruct Eregs as (regs & -> & Hop & Hsg & Hlr).
  unfold inv_set_mpu_memory at 1 2.
  change (Z.to_nat 3) with 3%nat. rewrite length_drop, Hlr, Hop, Hsg.
  cbn [Nat.leb Nat.sub].
  mstep. cbn [world called]. rewrite Hw. split_check Er1.
  { do 2 eexists. exists sf0, sf, 1%nat.
    split; [reflexivity |]. split; [first [exact Esf0 | reflexivity] |].
    split; [first [exact Esf | reflexivity] |].
    cbn [obj called trace]. split; [exact Hgs |].
    rewrite Htr. gyro_leaf. }
  mstep. cbn [world called]. split_check Er2.
  { do 2 eexists. exists sf0, sf, 2%nat.
    split; [reflexivity |]. split; [first [exact Esf0 | reflexivity] |].
    split; [first [exact Esf | reflexivity] |].
    cbn [obj called trace]. split; [exact Hgs |].
    rewrite Htr. gyro_leaf. }
  mstep. cbn [obj called]. rewrite Hgs, Esf0. mstep. mstep.
  wstep. cbn [world called with_obj]. split_check Er3.
  { do 2 eexists. exists sf0, sf, 3%nat.
    split; [reflexivity |]. split; [first [exact Esf0 | reflexivity] |].
    split; [first [exact Esf | reflexivity] |].
    cbn [obj called trace with_obj set_gyro_sf set_sens gyro_sens].
    split; [exact Hgs |].
    rewrite Htr. gyro_leaf. }
  mstep. cbn [obj called with_obj set_gyro_sf set_sens gyro_sens].
  rewrite Hgs, Esf. mstep.
  wstep. cbn [world called with_obj]. split_check Er4;
    (do 2 eexists; exists sf0, sf, 4%nat;
     split; [reflexivity |];
     split; [first [exact Esf0 | reflexivity] |];
     split; [first [exact Esf | reflexivity] |];
     cbn [obj called trace with_obj set_gyro_sf set_sens gyro_sens gyro_sf];
     split; [exact Hgs |];
     rewrite Htr; gyro_leaf).
Qed.

End GyroWrites.

(** The conversions of a 2000 dps calibration are defined for every
    matrix with entries -1, 0 and 1. *)
Lemma cal_defined_2000dps_signs (m : matrix) :
  length m = 9%nat ->
  Forall (fun a => a = -1 \/ a = 0 \/ a = 1) m ->
  cal_defined (F.div (F.of_Z 2000) (F.of_Z 32768)) m.
Proof.
  intros Hlen Hall kk Hk.
  destruct (lookup_lt_is_Some_2 m kk) as [o Eo]; [lia |].
  exists o.
  pose proof (proj1 (Forall_lookup _ _) Hall kk o Eo) as Ho.
  destruct Ho as [-> | [-> | ->]];
    eexists; (split; [exact Eo | vm_compute; reflexivity]).
Qed.

Lemma gyro_calibration_write_sequence_witness :
  exists r s' n,
    @inv_set_gyro_calibration sim_world hw_opcodes sim_externals
      (F.of_Z 2000) [0; -1; 0; 1; 0; 0; 0; 0; 1]
      (sim_state INV_STATE_DMP_OPENED [] sim_quiet) = Done r s' /\
    gyro_sens (obj s') = 65536000 /\
    memory_writes_of (trace s')
    = take n [ (KEY_FCFG_1, 3, [0x2c; 0xc9; 0xcb]);
               (KEY_FCFG_3, 3, [0x37; 0x56; 0x76]);
               (KEY_D_0_104, 4, inv_int32_to_big8 46850825);
               (KEY_D_0_24, 4, inv_int32_to_big8 363656) ].
Proof.
  destruct (@gyro_calibration_write_sequence sim_world hw_opcodes
              sim_externals (F.of_Z 2000) 0 (-1) 0 1 0 0 0 0 1
              (1, 1) (0, 0) (2, 0) 65536000
              (sim_state INV_STATE_DMP_OPENED [] sim_quiet))
    as (r & s' & sf0 & sf & n & E & Esf0 & Esf & S & T & _);
    [ reflexivity | reflexivity | vm_compute; reflexivity
    | apply cal_defined_2000dps_signs;
      [reflexivity | repeat (constructor; [lia |]); constructor]
    | vm_compute; reflexivity | vm_compute; reflexivity
    | vm_compute; reflexivity
    | vm_compute in Esf0; vm_compute in Esf;
      injection Esf0 as <-; injection Esf as <-;
      exists r, s', n; split; [exact E | split; [exact S | exact T]] ].
Defined.

(** ** The writes of compass calibration *)

Section CompassWrites.

Context {W : Type} `{Externals W}.

(** One iteration of the loop of lines 525-534: the result of the write
    is dropped. *)
Lemma compass_cell_step (orientation : matrix) (kk : nat) (o : Z)
  (key : dmp_key) (s : mpl W) :
  orientation !! kk = Some o ->
  compass_keyList !! kk = Some key ->
  bind (defined (orientation !! kk)) (fun o =>
    let reg := if o =? 1 then [64; 0; 0; 0]
               else if o =? -1 then [64 + 128; 0; 0; 0] else [0; 0; 0; 0] in
    bind (defined (compass_keyList !! kk)) (fun key =>
    bind (inv_set_mpu_memory key 4 reg) (fun _ => ret tt))) s
  = Done tt (called (EvSetMpuMemory key 4 (compass_cell o))
               (snd (ext_set_mpu_memory key 4 (compass_cell o) (world s))) s).
Proof.
  intros Eo Ek. unfold bind, defined. rewrite Eo. cbv zeta. rewrite Ek.
  unfold inv_set_mpu_memory, compass_cell, ret.
  destruct (o =? 1); [| destruct (o =? -1)]; reflexivity.
Qed.

(** The loop of lines 525-534 makes the nine writes. *)
Lemma compass_cells_writes (a0 a1 a2 a3 a4 a5 a6 a7 a8 : Z) (s : mpl W) :
  exists s2,
    for_upto 9 (fun kk =>
      bind (defined ([a0; a1; a2; a3; a4; a5; a6; a7; a8] !! kk)) (fun o =>
      let reg := if o =? 1 then [64; 0; 0; 0]
                 else if o =? -1 then [64 + 128; 0; 0; 0] else [0; 0; 0; 0] in
      bind (defined (compass_keyList !! kk)) (fun key =>
      bind (inv_set_mpu_memory key 4 reg) (fun _ => ret tt)))) s
    = Done tt s2 /\
    obj s2 = obj s /\ st s2 = st s /\
    memory_writes_of (trace s2)
    = memory_writes_of (trace s)
      ++ compass_calibration_writes [a0; a1; a2; a3; a4; a5; a6; a7; a8].
Proof.
  unfold for_upto. cbn [for_range].
  do 9 (erewrite bind_Done;
        [| eapply compass_cell_step; reflexivity]).
  eexists. split; [reflexivity |].
  cbn [obj st trace called].
  split; [reflexivity |]. split; [reflexivity |].
  unfold memory_writes_of. rewrite <- !app_assoc, omap_app. reflexivity.
Qed.

(** X18: compass calibration stores the sensitivity and, when the DMP
    image supports KEY_CPASS_MTX_00, writes all nine cells of the
    mounting matrix in key order, 64 for an entry 1, 192 for an entry -1
    and 0 otherwise, each in the first of four bytes; the results of the
    writes are dropped, so a failed write stops nothing and the call
    returns INV_SUCCESS. Without that key it writes nothing. *)
Theorem compass_calibration_write_sequence (range : F.float)
  (a0 a1 a2 a3 a4 a5 a6 a7 a8 sens : Z) (s : mpl W) :
  cal_defined (F.div range (F.of_Z 32768)) [a0; a1; a2; a3; a4; a5; a6; a7; a8] ->
  F.to_long (F.mul (F.div range (F.of_Z 32768)) (F.of_Z 1073741824)) = Some sens ->
  exists s',
    inv_set_compass_calibration range [a0; a1; a2; a3; a4; a5; a6; a7; a8] s
    = Done INV_SUCCESS s' /\
    compass_sens (obj s') = sens /\
    st s' = st s /\
    memory_writes_of (trace s')
    = memory_writes_of (trace s)
      ++ (if ext_dmpkey_supported KEY_CPASS_MTX_00 (world s)
          then compass_calibration_writes [a0; a1; a2; a3; a4; a5; a6; a7; a8]
          else []).
Proof.
  intros Hcal Hsens.
  unfold inv_set_compass_calibration. cbv zeta.
  destruct (cal_loop_total set_compass_cal _ _ set_compass_cal_frame Hcal s)
    as (s1 & E1 & F1).
  assert (Hw : world s1 = world s) by (unfold cal_frame in F1; tauto).
  assert (Ht : trace s1 = trace s) by (unfold cal_frame in F1; tauto).
  assert (Hs : st s1 = st s) by (unfold cal_frame in F1; tauto).
  unfold bind at 1. rewrite_loop E1.
  rewrite Hsens. mstep. mstep. mstep.
  cbn [world with_obj]. rewrite Hw.
  destruct (ext_dmpkey_supported KEY_CPASS_MTX_00 (world s)).
  - destruct (compass_cells_writes a0 a1 a2 a3 a4 a5 a6 a7 a8
                (called (EvDmpKeySupported KEY_CPASS_MTX_00) (world s)
                   (with_obj (set_compass_sens sens) s1)))
      as (s2 & E2 & O2 & S2 & T2).
    unfold bind at 1. rewrite_loop E2.
    eexists. split; [reflexivity |].
    rewrite O2, S2, T2.
    cbn [obj st trace called with_obj set_compass_sens set_sens compass_sens].
    split; [reflexivity |]. split; [exact Hs |].
    unfold memory_writes_of. rewrite Ht, omap_app, app_nil_r. reflexivity.
  - eexists. split; [reflexivity |].
    cbn [obj st trace called with_obj set_compass_sens set_sens compass_sens].
    split; [reflexivity |]. split; [exact Hs |].
    unfold memory_writes_of. rewrite Ht, omap_app. reflexivity.
Qed.

End CompassWrites.

Lemma compass_calibration_write_sequence_witness :
  exists s',
    @inv_set_compass_calibration sim_world sim_externals
      (F.of_Z 9830) [0; 1; 0; -1; 0; 0; 0; 0; 1]
      (sim_state INV_STATE_DMP_OPENED [] sim_quiet) = Done INV_SUCCESS s' /\
    memory_writes_of (trace s')
    = [ (KEY_CPASS_MTX_00, 4, [0; 0; 0; 0]); (KEY_CPASS_MTX_01, 4, [64; 0; 0; 0]);
        (KEY_CPASS_MTX_02, 4, [0; 0; 0; 0]); (KEY_CPASS_MTX_10, 4, [192; 0; 0; 0]);
        (KEY_CPASS_MTX_11, 4, [0; 0; 0; 0]); (KEY_CPASS_MTX_12, 4, [0; 0; 0; 0]);
        (KEY_CPASS_MTX_20, 4, [0; 0; 0; 0]); (KEY_CPASS_MTX_21, 4, [0; 0; 0; 0]);
        (KEY_CPASS_MTX_22, 4, [64; 0; 0; 0]) ].
Proof.
  destruct (@compass_calibration_write_sequence sim_world sim_externals
              (F.of_Z 9830) 0 1 0 (-1) 0 0 0 0 1 322109440
              (sim_state INV_STATE_DMP_OPENED [] sim_quiet))
    as (s' & E & _ & _ & T);
    [ intros kk Hk;
      do 9 (destruct kk as [| kk];
            [do 2 eexists; split; [reflexivity | vm_compute; reflexivity] |]);
      lia
    | vm_compute; reflexivity
    | exists s'; split; [exact E | exact T] ].
Defined.

(** ** The calls of a sensor enable *)

Section SensorEnableCalls.

Context {W : Type} `{DmpOpcodes} `{MplConstants} `{Externals W}.

(** Every leaf of a body whose services have all been unfolded, the
    projections of the states built on the way being evaluated. *)
Ltac split_leaves :=
  repeat (cbv beta iota zeta;
          cbn [obj cfg st world trace called with_cfg with_obj
               set_motion motion_duration mode_change_func
               requested_sensors set_requested_sensors is_error];
          match goal with
          | E : ?b = _ |- context [if ?b then _ else _] => rewrite E
          | |- context [(?a <=? ?b)%nat] =>
              let v := eval vm_compute in (a <=? b)%nat in
              match v with
              | true => change (a <=? b)%nat with true
              | false => change (a <=? b)%nat with false
              end
          | |- context [if ?b then _ else _] =>
              lazymatch b with
              | (_ <=? _)%nat => fail
              | true => fail
              | false => fail
              | _ => destruct b eqn:?
              end
          | |- context [match ?o with Some _ => _ | None => _ end] =>
              destruct o eqn:?
          end).

(** What a run of [inv_set_mpu_sensors] does, whatever the services
    answer. *)
Lemma set_mpu_sensors_run (sensors : Z) (s : mpl W) :
  exists r s' evs,
    inv_set_mpu_sensors sensors s = Done r s' /\
    st s' = st s /\
    trace s' = trace s ++ evs /\
    (is_error r = false ->
     requested_sensors (cfg s') = sensors /\
     exists rate,
       evs = set_mpu_sensors_calls sensors (requested_sensors (cfg s)) (st s)
               (mode_change_func (obj s))
               (ext_mpu_get_sampling_rate_hz (cfg s) (world s)) rate
               (motion_duration (obj s))) /\
    (In EvGetFifoRate evs ->
     cfg s' = set_requested_sensors sensors (cfg s)) /\
    (~ In EvGetFifoRate evs -> cfg s' = cfg s /\ obj s' = obj s) /\
    (In EvGetFifoRate evs ->
     forall func, mode_change_func (obj s) = Some func ->
       exists w,
         is_error (fst (ext_mode_change_cb func (requested_sensors (cfg s))
                          sensors w)) = false).
Proof.
  unfold inv_set_mpu_sensors, inv_reset_motion, check, bind, ret, modify, get,
    inv_get_state, inv_get_dl_config, inv_mpu_get_sampling_rate_hz,
    inv_mpu_config_accel, inv_init_fifo_hardare, call_mode_change,
    inv_get_fifo_rate, inv_set_fifo_rate, inv_dl_start, inv_dl_stop,
    inv_get_tick_count, inv_set_motion_state, inv_set_mpu_memory.
  split_leaves.
  all: do 3 eexists; split; [reflexivity |].
  all: cbn [obj cfg st world trace called with_cfg with_obj
       set_motion motion_duration mode_change_func
       requested_sensors set_requested_sensors].
  all: split; [reflexivity |].
  all: split; [first [rewrite <- ?app_assoc; reflexivity
                     | symmetry; apply app_nil_r] |].
  all: split; [intros Hok;
               first [ exfalso; congruence
                     | exfalso; cbn in Hok; discriminate Hok
                     | split; [reflexivity |]; eexists;
                       unfold set_mpu_sensors_calls, reset_motion_calls;
                       repeat match goal with
                              | E : ?c = _ |- context [?c] => rewrite E
                              end;
                       reflexivity ] |].
  all: split;
    [ intros Hin;
      first [ reflexivity
            | exfalso; cbn [In app] in Hin; intuition discriminate ]
    | split;
      [ intros Hnot;
        first [ split; reflexivity
              | exfalso; apply Hnot; cbn [In app];
                repeat first [left; reflexivity | right] ]
      | intros Hin func Hfunc;
        first [ discriminate Hfunc
              | injection Hfunc as <-; eexists; eassumption
              | exfalso; cbn [In app] in Hin; intuition discriminate ] ] ].
Qed.

(** X19: [inv_set_mpu_sensors] always returns, in every state and for
    every mask, and never changes the lifecycle state. When it returns
    success, the mask is stored in [requested_sensors] and its calls are
    exactly the complete sequence, in order: on a started DMP the
    requested sensors are started before the motion reset and the others
    are stopped after it, and the mode-change callback, when registered,
    has been asked before the FIFO rate is read. *)
Theorem set_mpu_sensors_success_calls (sensors : Z) (s : mpl W) :
  exists r s',
    inv_set_mpu_sensors sensors s = Done r s' /\
    st s' = st s /\
    (is_error r = false ->
     requested_sensors (cfg s') = sensors /\
     exists rate,
       trace s' = trace s
         ++ set_mpu_sensors_calls sensors (requested_sensors (cfg s)) (st s)
              (mode_change_func (obj s))
              (ext_mpu_get_sampling_rate_hz (cfg s) (world s)) rate
              (motion_duration (obj s))).
Proof.
  destruct (set_mpu_sensors_run sensors s)
    as (r & s' & evs & E & Hst & Htr & Hok & _).
  exists r, s'. split; [exact E |]. split; [exact Hst |].
  intros Hr. destruct (Hok Hr) as (Hreq & rate & Hevs).
  split; [exact Hreq |]. exists rate. rewrite Htr, Hevs. reflexivity.
Qed.

(** X20: the mask is recorded as soon as the FIFO rate has been read,
    before any sensor is started: a run of [inv_set_mpu_sensors] that
    got that far has replaced [requested_sensors] by the new mask even
    when it returns the error of a later step, and a run that stopped
    earlier has left the configuration and the Context as they were. *)
Theorem set_mpu_sensors_records_before_start (sensors : Z) (s : mpl W) :
  exists r s' evs,
    inv_set_mpu_sensors sensors s = Done r s' /\
    trace s' = trace s ++ evs /\
    (In EvGetFifoRate evs ->
     cfg s' = set_requested_sensors sensors (cfg s)) /\
    (~ In EvGetFifoRate evs -> cfg s' = cfg s /\ obj s' = obj s).
Proof.
  destruct (set_mpu_sensors_run sensors s)
    as (r & s' & evs & E & _ & Htr & _ & Hin & Hnot & _).
  exists r, s', evs. auto.
Qed.

(** A complete run reads the FIFO rate. *)
Lemma fifo_rate_read_in_calls (sensors old : Z) (state : inv_state)
  (cb : option func_ptr) (hz rate md : Z) :
  In EvGetFifoRate (set_mpu_sensors_calls sensors old state cb hz rate md).
Proof.
  unfold set_mpu_sensors_calls.
  apply in_or_app. right. apply in_or_app. right.
  apply in_or_app. left. left. reflexivity.
Qed.

(** X21: a mode-change callback registered with [inv_set_mode_change]
    has a veto: when it refuses the change from the current mask to the
    requested one, [inv_set_mpu_sensors] returns an error and leaves the
    configuration, with its [requested_sensors], and the Context as they
    were. *)
Theorem mode_change_veto (func : func_ptr) (sensors : Z) (s : mpl W) :
  (forall w, is_error (fst (ext_mode_change_cb func (requested_sensors (cfg s))
                              sensors w)) = true) ->
  exists r s',
    bind (inv_set_mode_change (Some func))
         (fun _ => inv_set_mpu_sensors sensors) s = Done r s' /\
    is_error r = true /\
    cfg s' = cfg s /\
    obj s' = set_mode_change_func (Some func) (obj s) /\
    st s' = st s.
Proof.
  intros Hveto.
  unfold bind, inv_set_mode_change, modify.
  destruct (set_mpu_sensors_run sensors
              (with_obj (set_mode_change_func (Some func)) s))
    as (r & s' & evs & E & Hst & _ & Hok & _ & Hnot & Hcb).
  assert (Hstop : ~ In EvGetFifoRate evs).
  { intros Hin. destruct (Hcb Hin func eq_refl) as [w Hw].
    cbn [cfg with_obj] in Hw. rewrite Hveto in Hw. discriminate Hw. }
  exists r, s'. split; [exact E |].
  split.
  { destruct (is_error r) eqn:Er; [reflexivity |].
    exfalso. apply Hstop.
    destruct (Hok eq_refl) as (_ & rate & ->).
    apply fifo_rate_read_in_calls. }
  destruct (Hnot Hstop) as [Hc Ho].
  split; [exact Hc |]. split; [exact Ho | exact Hst].
Qed.

End SensorEnableCalls.

Section GyroPresent.

Context {W : Type} `{DmpOpcodes} `{MplConstants} `{Externals W} `{GyroAxes}.

(** X22: [inv_get_gyro_present] calls nothing and changes nothing, and
    right after an enable that returned success it answers from the new
    mask: the gyroscope axis bits of the requested sensors, as an int. *)
Theorem gyro_present_after_enable (sensors : Z) (s : mpl W) :
  exists r g s',
    bind (inv_set_mpu_sensors sensors) (fun r =>
    bind inv_get_gyro_present (fun g => ret (r, g))) s = Done (r, g) s' /\
    inv_set_mpu_sensors sensors s = Done r s' /\
    (is_error r = false ->
     g = C.to_int (Z.land sensors
                          (Z.lor (Z.lor INV_X_GYRO INV_Y_GYRO) INV_Z_GYRO))).
Proof.
  destruct (set_mpu_sensors_run sensors s)
    as (r & s' & evs & E & _ & _ & Hok & _).
  exists r. eexists. exists s'.
  split; [rewrite (bind_Done _ _ _ _ _ E); reflexivity |].
  split; [exact E |].
  intros Hr. destruct (Hok Hr) as [-> _]. reflexivity.
Qed.

End GyroPresent.

Lemma mode_change_veto_witness :
  exists s',
    bind (inv_set_mode_change (Some 4%nat))
         (fun _ => @inv_set_mpu_sensors sim_world hw_opcodes hw_constants
                     sim_refusing 0x78)
         (sim_state INV_STATE_DMP_STARTED [] sim_quiet)
    = Done (INV_ERROR_OTHER 38) s' /\
    requested_sensors (cfg s') = 0.
Proof.
  destruct (@mode_change_veto sim_world hw_opcodes hw_constants sim_refusing
              4%nat 0x78 (sim_state INV_STATE_DMP_STARTED [] sim_quiet))
    as (r & s' & E & _ & Hc & _);
    [ intros w; reflexivity
    | exists s'; split; [| rewrite Hc; reflexivity] ].
  vm_compute in E. injection E as <- <-. reflexivity.
Defined.

(** * Properties of the control operations *)

(** ** The serial link *)

Section SerialLink.

Context {W : Type} `{ControlServices W}.

(** X23: [inv_serial_start] always returns. With the serial link already
    opened it returns success and does nothing. Otherwise it asks for the
    transition to SERIAL_OPENED and, when that is refused, returns the
    refusal without opening the port; when it is granted, it opens the
    port, returns the result of the opening, keeps the handle the opening
    left and, after a failed opening, asks for the transition back to
    SERIAL_CLOSED, whose result it drops. *)
Theorem serial_start_outcomes (port : Z) (s : mpl (ctl W)) :
  exists r s',
    inv_serial_start port s = Done r s' /\
    (state_ltb (st s) INV_STATE_SERIAL_OPENED = false ->
     r = INV_SUCCESS /\ s' = s) /\
    (state_ltb (st s) INV_STATE_SERIAL_OPENED = true ->
     let t := svc_state_transition INV_STATE_SERIAL_OPENED (st s)
                (outside (world s)) in
     let o := svc_serial_open port (g_mlsl_handle (globals_of (world s)))
                (snd t) in
     (is_error (fst (fst t)) = true ->
      r = fst (fst t) /\
      calls (world s') = calls (world s)
                         ++ [CallStateTransition INV_STATE_SERIAL_OPENED] /\
      globals_of (world s') = globals_of (world s)) /\
     (is_error (fst (fst t)) = false ->
      r = fst (fst o) /\
      g_mlsl_handle (globals_of (world s')) = snd (fst o) /\
      calls (world s') = calls (world s)
        ++ [CallStateTransition INV_STATE_SERIAL_OPENED; CallSerialOpen port]
        ++ (if is_error r
            then [CallStateTransition INV_STATE_SERIAL_CLOSED] else []))).
Proof.
  unfold inv_serial_start, check, bind, ret, inv_get_state,
    inv_state_transition, inv_serial_open.
  destruct (state_ltb (st s) INV_STATE_SERIAL_OPENED) eqn:Elt;
    cbn [negb]; cbv beta iota zeta.
  - destruct (is_error (fst (fst (svc_state_transition
                INV_STATE_SERIAL_OPENED (st s) (outside (world s)))))) eqn:Et.
    + do 2 eexists. split; [reflexivity |].
      split; [discriminate |]. intros _.
      split; [| intros F; discriminate F]. intros _.
      repeat split.
    + cbn [world outside globals_of with_st logged with_world g_mlsl_handle].
      destruct (is_error (fst (fst (svc_serial_open port
                  (g_mlsl_handle (globals_of (world s)))
                  (snd (svc_state_transition INV_STATE_SERIAL_OPENED (st s)
                          (outside (world s)))))))) eqn:Eo;
        (do 2 eexists; split; [reflexivity |];
         split; [discriminate |]; intros _;
         split; [intros F; discriminate F |]; intros _;
         rewrite Eo;
         cbn [world calls globals_of with_st logged with_world with_globals
              g_mlsl_handle set_handle];
         rewrite <- ?app_assoc; repeat split).
  - do 2 eexists. split; [reflexivity |].
    split; [intros _; split; reflexivity | discriminate].
Qed.

(** X24: [inv_serial_stop] always returns. With the serial link closed
    it returns success and does nothing. Otherwise its calls are the
    transition to SERIAL_CLOSED and then the closing of the handle held
    in [g_mlsl_handle]: the serial link is closed also when the
    transition was refused, and the result returned is that of the
    closing alone. *)
Theorem serial_stop_outcomes (s : mpl (ctl W)) :
  exists r s',
    inv_serial_stop s = Done r s' /\
    (st s = INV_STATE_SERIAL_CLOSED -> r = INV_SUCCESS /\ s' = s) /\
    (st s <> INV_STATE_SERIAL_CLOSED ->
     let t := svc_state_transition INV_STATE_SERIAL_CLOSED (st s)
                (outside (world s)) in
     let h := g_mlsl_handle (globals_of (world s)) in
     r = fst (svc_serial_close h (snd t)) /\
     st s' = snd (fst t) /\
     globals_of (world s') = globals_of (world s) /\
     calls (world s') = calls (world s)
       ++ [CallStateTransition INV_STATE_SERIAL_CLOSED; CallSerialClose h]).
Proof.
  unfold inv_serial_stop, bind, ret, get, inv_get_state,
    inv_state_transition, inv_serial_close.
  destruct (state_eqb (st s) INV_STATE_SERIAL_CLOSED) eqn:E;
    cbv beta iota zeta.
  - do 2 eexists. split; [reflexivity |].
    split; [intros _; split; reflexivity |].
    intros F. exfalso. apply F.
    destruct (st s); try discriminate E; reflexivity.
  - do 2 eexists. split; [reflexivity |].
    split; [intros Hc; rewrite Hc in E; discriminate E |]. intros _.
    cbn [world calls globals_of outside st with_st logged with_world].
    rewrite <- ?app_assoc. repeat split.
Qed.

(** X25: the handle that the opening of the port stored is the one
    that [inv_get_serial_handle] reports and that [inv_serial_stop]
    closes: after a start from SERIAL_CLOSED whose transition and
    opening succeeded, the calls of start, query and stop are the two
    transitions around the opening and the closing of that handle. *)
Theorem serial_handle_round_trip (port h : Z) (w1 w2 : W) (s : mpl (ctl W)) :
  st s = INV_STATE_SERIAL_CLOSED ->
  svc_state_transition INV_STATE_SERIAL_OPENED INV_STATE_SERIAL_CLOSED
    (outside (world s)) = (INV_SUCCESS, INV_STATE_SERIAL_OPENED, w1) ->
  svc_serial_open port (g_mlsl_handle (globals_of (world s))) w1
  = (INV_SUCCESS, h, w2) ->
  exists r s',
    bind (inv_serial_start port) (fun _ =>
    bind inv_get_serial_handle (fun h' =>
    bind inv_serial_stop (fun r => ret (h', r)))) s = Done (h, r) s' /\
    calls (world s') = calls (world s)
      ++ [ CallStateTransition INV_STATE_SERIAL_OPENED; CallSerialOpen port;
           CallStateTransition INV_STATE_SERIAL_CLOSED; CallSerialClose h ].
Proof.
  intros Hst Ht Ho.
  unfold inv_serial_start, inv_serial_stop, inv_get_serial_handle, check,
    bind, ret, get, inv_get_state, inv_state_transition, inv_serial_open,
    inv_serial_close.
  cbv beta iota zeta. rewrite Hst.
  change (state_ltb INV_STATE_SERIAL_CLOSED INV_STATE_SERIAL_OPENED) with true.
  cbn [negb]. cbv beta iota zeta.
  rewrite Hst, Ht. cbn [fst snd is_error]. cbv beta iota zeta.
  cbn [world outside globals_of with_st logged with_world g_mlsl_handle].
  rewrite Ho. cbn [fst snd is_error]. cbv beta iota zeta.
  cbn [st world outside globals_of with_st logged with_world with_globals
       g_mlsl_handle set_handle].
  change (state_eqb INV_STATE_SERIAL_OPENED INV_STATE_SERIAL_CLOSED) with false.
  cbv beta iota zeta.
  do 2 eexists. split; [reflexivity |].
  cbn [world calls with_st logged with_world with_globals].
  rewrite <- !app_assoc. reflexivity.
Qed.

End SerialLink.

Lemma serial_handle_round_trip_witness :
  exists r s',
    bind (@inv_serial_start unit sim_control 7) (fun _ =>
    bind inv_get_serial_handle (fun h' =>
    bind (@inv_serial_stop unit sim_control) (fun r => ret (h', r))))
      (sim_ctl INV_STATE_SERIAL_CLOSED sim_globals) = Done (1007, r) s' /\
    calls (world s')
    = [ CallStateTransition INV_STATE_SERIAL_OPENED; CallSerialOpen 7;
        CallStateTransition INV_STATE_SERIAL_CLOSED; CallSerialClose 1007 ].
Proof.
  destruct (@serial_handle_round_trip unit sim_control 7 1007 tt tt
              (sim_ctl INV_STATE_SERIAL_CLOSED sim_globals))
    as (r & s' & E & C);
    [ reflexivity | reflexivity | reflexivity
    | exists r, s'; split; [exact E | exact C] ].
Defined.

(** ** Interrupt enables *)

Section InterruptEnables.

Context {W : Type} `{DmpOpcodes} `{ControlConstants} `{ControlServices W}.

(** Every leaf of a body of the control operations whose services have
    all been unfolded. *)
Ltac control_leaves :=
  repeat (cbv beta iota zeta;
          cbn [st world outside globals_of calls with_st logged with_world
               with_globals interrupt_sources set_interrupt_sources
               g_mlsl_handle accel_bus is_error];
          match goal with
          | E : ?b = _ |- context [if ?b then _ else _] => rewrite E
          | |- context [(?a <=? ?b)%nat] =>
              let v := eval vm_compute in (a <=? b)%nat in
              match v with
              | true => change (a <=? b)%nat with true
              | false => change (a <=? b)%nat with false
              end
          | |- context [if ?b then _ else _] =>
              lazymatch b with
              | (_ <=? _)%nat => fail
              | true => fail
              | false => fail
              | _ => destruct b eqn:?
              end
          end).

(** X26: [inv_set_motion_interrupt] always returns and keeps the
    lifecycle state; below DMP_OPENED it returns ImproperState and does
    nothing. Enabling asks for the DMP interrupt first and stops there
    when that fails; otherwise the motion source is recorded, before the
    opcode DINAFE is written to KEY_CFG_7 and whatever that write
    returns. Disabling clears the motion source at once, asks for the
    DMP interrupt to be switched off only when no source is left, and
    writes the opcode DINAD8. *)
Theorem motion_interrupt_outcomes (on : Z) (s : mpl (ctl W)) :
  exists r s',
    inv_set_motion_interrupt on s = Done r s' /\
    st s' = st s /\
    (state_ltb (st s) INV_STATE_DMP_OPENED = true ->
     r = INV_ERROR_SM_IMPROPER_STATE /\ s' = s) /\
    (state_ltb (st s) INV_STATE_DMP_OPENED = false ->
     let src := interrupt_sources (globals_of (world s)) in
     let src' := interrupt_sources (globals_of (world s')) in
     let new := drop (length (calls (world s))) (calls (world s')) in
     (on <> 0 ->
      let e := fst (svc_get_dl_cfg_int BIT_DMP_INT_EN (outside (world s))) in
      (is_error e = true ->
       r = e /\ src' = src /\ new = [CallGetDlCfgInt BIT_DMP_INT_EN]) /\
      (is_error e = false ->
       src' = Z.lor src INV_INT_MOTION /\
       new = [CallGetDlCfgInt BIT_DMP_INT_EN;
              CallSetMpuMemory KEY_CFG_7 1 [DINAFE]])) /\
     (on = 0 ->
      src' = Z.land src (Z.lnot INV_INT_MOTION) /\
      (src' <> 0 -> new = [CallSetMpuMemory KEY_CFG_7 1 [DINAD8]]) /\
      (src' = 0 ->
       let e := fst (svc_get_dl_cfg_int 0 (outside (world s))) in
       (is_error e = true -> r = e /\ new = [CallGetDlCfgInt 0]) /\
       (is_error e = false ->
        new = [CallGetDlCfgInt 0;
               CallSetMpuMemory KEY_CFG_7 1 [DINAD8]])))).
Proof.
  unfold inv_set_motion_interrupt, check, bind, ret, modify, get,
    inv_get_state, inv_get_dl_cfg_int, inv_set_mpu_memory'.
  control_leaves.
  all: do 2 eexists; split; [reflexivity |].
  all: cbn [st world outside globals_of calls with_st logged with_world
            with_globals interrupt_sources set_interrupt_sources].
  all: rewrite <- ?app_assoc, ?drop_app_length.
  all: split; [reflexivity |].
  all: split; [first [discriminate | intros _; split; reflexivity] |].
  all: first [discriminate | intros _].
  all: cbv zeta.
  all: repeat match goal with
              | E : negb (_ =? 0) = true |- _ =>
                  apply negb_true_iff, Z.eqb_neq in E
              | E : negb (_ =? 0) = false |- _ =>
                  apply negb_false_iff, Z.eqb_eq in E
              | E : (_ =? 0) = true |- _ => apply Z.eqb_eq in E
              | E : (_ =? 0) = false |- _ => apply Z.eqb_neq in E
              end.
  all: split; intros Hon; try (exfalso; congruence).
  all: repeat split; try reflexivity; try congruence;
       try (intros; exfalso; congruence).
Qed.

(** No source is left only if each mask lies inside the one cleared. *)
Lemma sources_left (src keep gone : Z) :
  Z.land (Z.lor src keep) (Z.lnot gone) = 0 ->
  Z.land keep (Z.lnot gone) = 0.
Proof.
  rewrite Z.land_lor_distr_l. intros E.
  apply Z.lor_eq_0_iff in E. tauto.
Qed.

(** X27: the two interrupt sources share the DMP interrupt. Once
    [inv_set_fifo_interrupt] has enabled the FIFO source, disabling the
    motion source with [inv_set_motion_interrupt] leaves the DMP
    interrupt alone: the pair of calls never asks for it to be switched
    off, and when the enabling returned success the FIFO source is still
    recorded afterwards. *)
Theorem dmp_interrupt_kept_for_fifo (s : mpl (ctl W)) :
  BIT_DMP_INT_EN <> 0 ->
  Z.land INV_INT_FIFO (Z.lnot INV_INT_MOTION) <> 0 ->
  exists r s' new,
    bind (inv_set_fifo_interrupt 1) (fun r1 =>
      if is_error r1 then ret r1 else inv_set_motion_interrupt 0) s
    = Done r s' /\
    calls (world s') = calls (world s) ++ new /\
    ~ In (CallGetDlCfgInt 0) new /\
    (is_error r = false ->
     interrupt_sources (globals_of (world s'))
     = Z.land (Z.lor (interrupt_sources (globals_of (world s))) INV_INT_FIFO)
              (Z.lnot INV_INT_MOTION) /\
     interrupt_sources (globals_of (world s')) <> 0).
Proof.
  intros Hen Hkeep.
  unfold inv_set_fifo_interrupt, inv_set_motion_interrupt, check, bind, ret,
    modify, get, inv_get_state, inv_get_dl_cfg_int, inv_set_mpu_memory'.
  change (negb (1 =? 0)) with true. change (negb (0 =? 0)) with false.
  control_leaves.
  all: try match goal with
           | E : (Z.land (Z.lor _ _) (Z.lnot _) =? 0) = true |- _ =>
               exfalso; apply Z.eqb_eq, sources_left in E; congruence
           end.
  all: do 3 eexists; split; [reflexivity |].
  all: cbn [st world outside globals_of calls with_st logged with_world
            with_globals interrupt_sources set_interrupt_sources].
  all: split; [first [rewrite <- ?app_assoc; reflexivity
                     | symmetry; apply app_nil_r] |].
  all: split; [cbn [In app]; intros Hin;
               repeat match goal with
                      | D : _ \/ _ |- _ => destruct D
                      | D : False |- _ => destruct D
                      | D : CallGetDlCfgInt _ = CallGetDlCfgInt _ |- _ =>
                          injection D as D; congruence
                      | D : _ = CallGetDlCfgInt _ |- _ => discriminate D
                      end |].
  all: intros Hok; try (exfalso; first [congruence | cbn in Hok; congruence]).
  all: split; [reflexivity |].
  all: match goal with
       | E : (_ =? 0) = false |- _ => apply Z.eqb_neq in E; exact E
       end.
Qed.

End InterruptEnables.

Lemma dmp_interrupt_kept_for_fifo_witness :
  exists s',
    bind (@inv_set_fifo_interrupt unit hw_opcodes hw_control sim_control 1)
      (fun r1 => if is_error r1 then ret r1
                 else @inv_set_motion_interrupt unit hw_opcodes hw_control
                        sim_control 0)
      (sim_ctl INV_STATE_DMP_OPENED
         {| g_mlsl_handle := 9; interrupt_sources := 1; accel_bus := 1 |})
    = Done INV_SUCCESS s' /\
    interrupt_sources (globals_of (world s')) = 2 /\
    calls (world s')
    = [ CallGetDlCfgInt 2; CallSetMpuMemory KEY_CFG_6 1 [0xfe];
        CallSetMpuMemory KEY_CFG_7 1 [0xd8] ].
Proof.
  destruct (@dmp_interrupt_kept_for_fifo unit hw_opcodes hw_control sim_control
              (sim_ctl INV_STATE_DMP_OPENED
                 {| g_mlsl_handle := 9; interrupt_sources := 1;
                    accel_bus := 1 |}))
    as (r & s' & new & E & _);
    [ discriminate | discriminate |].
  vm_compute in E. injection E as <- <-.
  eexists. vm_compute. repeat split.
Defined.

(** ** Accelerometer endianness *)

Section Endianness.

Context {W : Type} `{ControlConstants} `{ControlServices W}.

(** X28: [inv_apply_endian_accel] makes exactly one call, a write of
    four bytes to KEY_D_1_236, and returns its result. The bytes are the
    little-endian word 0, 64, 0, 0 only for an accelerometer on the
    secondary bus that reports little-endian data; in every other case,
    a byte order that is neither of the two named ones included, they
    are the big-endian word 0, 0, 64, 0. Without an accelerometer
    descriptor the call has no defined behaviour. *)
Theorem endian_accel_word (s : mpl (ctl W)) :
  EXT_SLAVE_BIG_ENDIAN <> EXT_SLAVE_LITTLE_ENDIAN ->
  (cfg_accel (cfg s) = None -> inv_apply_endian_accel s = Undef) /\
  (forall accel, cfg_accel (cfg s) = Some accel ->
     let word :=
       if (accel_bus (globals_of (world s)) =? EXT_SLAVE_BUS_SECONDARY)
          && (slave_endian accel =? EXT_SLAVE_LITTLE_ENDIAN)
       then [0; 64; 0; 0] else [0; 0; 64; 0] in
     let r := svc_set_mpu_memory KEY_D_1_236 4 word (outside (world s)) in
     inv_apply_endian_accel s
     = Done (fst r) (logged (CallSetMpuMemory KEY_D_1_236 4 word) (snd r) s)).
Proof.
  intros Hne.
  unfold inv_apply_endian_accel, bind, ret, get, defined, inv_get_dl_config,
    inv_set_mpu_memory'.
  split.
  - intros ->. reflexivity.
  - intros accel ->. cbv beta iota zeta.
    destruct (accel_bus (globals_of (world s)) =? EXT_SLAVE_BUS_SECONDARY);
      cbn [negb andb]; cbv iota.
    + destruct (slave_endian accel =? EXT_SLAVE_LITTLE_ENDIAN); reflexivity.
    + apply Z.eqb_neq in Hne. rewrite Hne. reflexivity.
Qed.

End Endianness.

Lemma endian_accel_word_witness :
  option_map (fun s => calls (world s))
    (state_of (@inv_apply_endian_accel unit hw_control sim_control
                 (sim_ctl INV_STATE_DMP_OPENED sim_globals)))
  = Some [CallSetMpuMemory KEY_D_1_236 4 [0; 64; 0; 0]].
Proof.
  destruct (@endian_accel_word unit hw_control sim_control
              (sim_ctl INV_STATE_DMP_OPENED sim_globals))
    as [_ Hword]; [discriminate |].
  rewrite (Hword sim_accel eq_refl). reflexivity.
Defined.

(** ** Initialisation *)

Section Initialisation.

Context {W : Type} `{MplConstants} `{ControlServices W} `{Externals (ctl W)}.

(** X29: [inv_init_ml] always returns and leaves a fresh Context and an
    empty callback registry, whatever they held: no interrupt callback
    and no mode-change callback is registered, no interrupt source is
    recorded, the motion state is INV_MOTION with a motion duration of
    1536, and the compass calibration is 322122560 times the identity
    with that sensitivity. It calls the tick count and the compass scale
    read, and it changes neither the lifecycle state, nor the device
    configuration, nor the serial handle. Right after it, running the
    interrupt callbacks calls nothing. *)
Theorem init_ml_fresh (s : mpl (ctl W)) :
  length (gyro_cal (obj s)) = 9%nat ->
  length (gyro_orient (obj s)) = 9%nat ->
  length (accel_cal (obj s)) = 9%nat ->
  length (compass_cal (obj s)) = 9%nat ->
  exists s',
    inv_init_ml s = Done tt s' /\
    obj s' = {| gyro_sens := 0; gyro_sf := 0;
                gyro_cal := replicate 9 0; gyro_orient := replicate 9 0;
                accel_sens := 0; accel_cal := replicate 9 0;
                compass_sens := 322122560;
                compass_cal := [322122560; 0; 0; 0; 322122560; 0; 0; 0;
                                322122560];
                motion_state := INV_MOTION; flags_motion_state_change := 0;
                no_motion_accel_time := 0; motion_duration := 1536;
                mode_change_func := None |} /\
    numInterruptProcesses (mlxCallbackInterrupt s') = 0 /\
    Forall (fun entry => entry = None)
           (processInterruptCb (mlxCallbackInterrupt s')) /\
    length (processInterruptCb (mlxCallbackInterrupt s'))
    = length (processInterruptCb (mlxCallbackInterrupt s)) /\
    interrupt_sources (globals_of (world s')) = 0 /\
    g_mlsl_handle (globals_of (world s'))
    = g_mlsl_handle (globals_of (world s)) /\
    st s' = st s /\ cfg s' = cfg s /\
    trace s' = trace s ++ [EvGetTickCount] /\
    calls (world s') = calls (world s) ++ [CallCompassReadScale] /\
    inv_run_dmp_interupt_cb s' = Done tt s'.
Proof.
  intros Lgc Lgo Lac Lcc.
  unfold inv_init_ml, bind, ret, modify, inv_get_tick_count,
    inv_compass_read_scale.
  cbv beta iota zeta.
  eexists. split; [reflexivity |].
  cbn [obj st cfg world trace mlxCallbackInterrupt called logged with_obj
       with_world with_globals with_registry set_motion set_motion_duration
       set_compass_cal set_compass_sens set_regs_cal set_sens
       set_interrupt_sources globals_of calls outside interrupt_sources
       g_mlsl_handle numInterruptProcesses processInterruptCb
       gyro_sens gyro_sf gyro_cal gyro_orient accel_sens accel_cal
       compass_sens compass_cal motion_state flags_motion_state_change
       no_motion_accel_time motion_duration mode_change_func].
  split.
  { destruct (gyro_cal (obj s))
      as [| ? [| ? [| ? [| ? [| ? [| ? [| ? [| ? [| ? [| ? ?]]]]]]]]]];
      try discriminate Lgc.
    destruct (gyro_orient (obj s))
      as [| ? [| ? [| ? [| ? [| ? [| ? [| ? [| ? [| ? [| ? ?]]]]]]]]]];
      try discriminate Lgo.
    destruct (accel_cal (obj s))
      as [| ? [| ? [| ? [| ? [| ? [| ? [| ? [| ? [| ? [| ? ?]]]]]]]]]];
      try discriminate Lac.
    destruct (compass_cal (obj s))
      as [| ? [| ? [| ? [| ? [| ? [| ? [| ? [| ? [| ? [| ? ?]]]]]]]]]];
      try discriminate Lcc.
    reflexivity. }
  split; [reflexivity |].
  split.
  { induction (processInterruptCb (mlxCallbackInterrupt s));
      constructor; auto. }
  split; [apply length_map |].
  do 6 (split; [reflexivity |]).
  unfold inv_run_dmp_interupt_cb, bind, get.
  cbn [mlxCallbackInterrupt called logged with_obj with_world with_registry
       numInterruptProcesses].
  reflexivity.
Qed.

End Initialisation.

Lemma init_ml_fresh_witness :
  exists s',
    @inv_init_ml unit hw_constants sim_control sim_ctl_externals
      (with_obj (set_mode_change_func (Some 3%nat))
         (with_obj (set_accel_sens 65536)
            (sim_ctl INV_STATE_SERIAL_OPENED
               {| g_mlsl_handle := 9; interrupt_sources := 3;
                  accel_bus := 1 |})))
    = Done tt s' /\
    obj s' = sim_obj /\
    interrupt_sources (globals_of (world s')) = 0.
Proof.
  destruct (@init_ml_fresh unit hw_constants sim_control sim_ctl_externals
              (with_obj (set_mode_change_func (Some 3%nat))
                 (with_obj (set_accel_sens 65536)
                    (sim_ctl INV_STATE_SERIAL_OPENED
                       {| g_mlsl_handle := 9; interrupt_sources := 3;
                          accel_bus := 1 |}))))
    as (s' & E & O & _ & _ & _ & I & _);
    [ reflexivity | reflexivity | reflexivity | reflexivity
    | exists s'; split; [exact E | split; [exact O | exact I]] ].
Defined.

(** ** The callback loop on any registry *)

Section CallbackLoop.

Context {W : Type} `{Externals W}.

(** The loop over slots [start .. start + n - 1] of the registry, all
    inside the array: the callbacks they hold are called in slot order,
    a null entry is passed over. *)
Lemma callbacks_range_any (n : nat) :
  forall (start : nat) (s : mpl W),
    (start + n <= length (processInterruptCb (mlxCallbackInterrupt s)))%nat ->
    for_range start n
      (fun kk =>
         bind get (fun s =>
         bind (defined (processInterruptCb (mlxCallbackInterrupt s) !! kk))
           (fun entry =>
              match entry with
              | Some func => call_interrupt_cb func
              | None => ret tt
              end))) s
    = Done tt (after_callbacks
                 (omap id (take n (drop start
                    (processInterruptCb (mlxCallbackInterrupt s))))) s).
Proof.
  induction n as [| n IH]; intros start s Hlen.
  - simpl. rewrite after_callbacks_nil. reflexivity.
  - destruct (lookup_lt_is_Some_2 (processInterruptCb (mlxCallbackInterrupt s))
                start) as [e He]; [lia |].
    rewrite (drop_S _ _ _ He). cbn [take for_range].
    unfold bind at 1. unfold bind at 1. unfold get at 1.
    unfold bind at 1. unfold defined at 1. rewrite He.
    destruct e as [c |].
    + unfold call_interrupt_cb at 1.
      rewrite IH by (cbn [mlxCallbackInterrupt called with_obj]; lia).
      cbn [mlxCallbackInterrupt called with_obj].
      rewrite after_callbacks_cons. reflexivity.
    + unfold ret at 1. rewrite IH by lia. reflexivity.
Qed.

(** The loop reads past the array as soon as its bound exceeds the
    array's length. *)
Lemma callbacks_range_overrun (n : nat) :
  forall (start : nat) (s : mpl W),
    (start <= length (processInterruptCb (mlxCallbackInterrupt s)))%nat ->
    (length (processInterruptCb (mlxCallbackInterrupt s)) < start + n)%nat ->
    for_range start n
      (fun kk =>
         bind get (fun s =>
         bind (defined (processInterruptCb (mlxCallbackInterrupt s) !! kk))
           (fun entry =>
              match entry with
              | Some func => call_interrupt_cb func
              | None => ret tt
              end))) s
    = Undef.
Proof.
  induction n as [| n IH]; intros start s Hle Hlt; [lia |].
  cbn [for_range].
  unfold bind at 1. unfold bind at 1. unfold get at 1.
  unfold bind at 1. unfold defined at 1.
  destruct (processInterruptCb (mlxCallbackInterrupt s) !! start)
    as [e |] eqn:He; [| reflexivity].
  apply lookup_lt_Some in He.
  destruct e as [c |].
  - unfold call_interrupt_cb at 1.
    apply IH; cbn [mlxCallbackInterrupt called with_obj]; lia.
  - unfold ret at 1. apply IH; lia.
Qed.

(** X30: [inv_run_dmp_interupt_cb] on any registry. With the counter
    within the array, it calls the callbacks held by the first
    [numInterruptProcesses] entries, in entry order, each on the Context
    the previous one left, and passes over null entries; a counter that
    is zero or negative calls nothing. With the counter beyond the
    length of the array the call reads past it and has no defined
    behaviour. *)
Theorem run_dmp_interupt_cb_any_registry (s : mpl W) :
  let entries := processInterruptCb (mlxCallbackInterrupt s) in
  let n := Z.to_nat (numInterruptProcesses (mlxCallbackInterrupt s)) in
  ((n <= length entries)%nat ->
   inv_run_dmp_interupt_cb s
   = Done tt (after_callbacks (omap id (take n entries)) s)) /\
  ((length entries < n)%nat -> inv_run_dmp_interupt_cb s = Undef).
Proof.
  intros entries n. subst entries n.
  unfold inv_run_dmp_interupt_cb, for_upto.
  split; intros Hn.
  - erewrite bind_Done; [| reflexivity]. cbv beta.
    rewrite callbacks_range_any by (simpl; lia).
    rewrite drop_0. reflexivity.
  - erewrite bind_Done; [| reflexivity]. cbv beta.
    apply callbacks_range_overrun; [lia | simpl; lia].
Qed.

End CallbackLoop.
